(** * DevFlow: branch naming, ticket correlation and workflow orchestration

    A shallow embedding of the Go sources of devflow
    ([internal/utils/branch.go], [internal/config], [internal/app/commands.go])
    together with the properties its specification states about them.

    Go strings are byte sequences: they are modelled by [string], whose
    characters ([ascii]) are the bytes.  Code that ranges over a string
    sees runes; the UTF-8 decoding that [range] performs is modelled in
    [utf8].  The Unicode tables of Go's [unicode] package are concrete on
    Latin-1 and a parameter ([UnicodeTables]) beyond it. *)

From Stdlib Require Import List NArith ZArith Ascii String Bool Arith Lia.
From Stdlib Require Import DecimalString.
Import ListNotations.

Open Scope list_scope.
Open Scope string_scope.

(* ================================================================= *)
(** * The embedding *)

(** ** Errors and results *)

(** Where an error value was made.  Go errors have an identity
    ([errors.Is] compares by it), which the origin stands for. *)
Inductive gateway : Type :=
| FromConfig | FromGit | FromJira | FromGitHub | FromGitLab | FromStdin | FromJson.

Inductive error : Type :=
| ErrConfigNotFound                           (* config.ErrConfigNotFound *)
| errorsNew (msg : string)                    (* errors.New / fmt.Errorf in this code *)
| gatewayErr (g : gateway) (msg : string).    (* returned by a collaborator *)

(** A Go result pair [(T, error)]. *)
Inductive result (A : Type) : Type :=
| Ok (a : A)
| Fail (e : error).
Arguments Ok {A} a.
Arguments Fail {A} e.

(** [err.Error()]: the text [%v] prints for an error. *)
Definition Error (e : error) : string :=
  match e with
  | ErrConfigNotFound => "configuration not found"
  | errorsNew msg => msg
  | gatewayErr _ msg => msg
  end.

(** Go's builtin [append], for one element. *)
Definition append {A} (s : list A) (x : A) : list A := (s ++ [x])%list.

(* ================================================================= *)
(** ** UTF-8, as [range] over a string and [strings.Builder.WriteRune] see it *)

Module utf8.
Local Open Scope N_scope.

Definition RuneError : N := 0xFFFD.
Definition MaxRune : N := 0x10FFFF.

Definition byteN (b : ascii) : N := N_of_ascii b.
Definition byte_of (n : N) : ascii := ascii_of_N n.

Definition inRange (lo hi : N) (b : ascii) : bool :=
  (lo <=? byteN b)%N && (byteN b <=? hi)%N.

(** A continuation byte, 10xxxxxx. *)
Definition cont (b : ascii) : bool := inRange 0x80 0xBF b.

(** Information about the first byte of an encoding: its length and the
    range accepted for the second byte. *)
Inductive first : Type :=
| as1                    (* ASCII, one byte *)
| xx                     (* invalid as a first byte *)
| s2                     (* two bytes *)
| s3 (lo hi : N)         (* three bytes *)
| s4 (lo hi : N).        (* four bytes *)

Definition classify (b0 : ascii) : first :=
  let n := byteN b0 in
  if (n <? 0x80)%N then as1
  else if (n <? 0xC2)%N then xx
  else if (n <? 0xE0)%N then s2
  else if (n =? 0xE0)%N then s3 0xA0 0xBF
  else if (n =? 0xED)%N then s3 0x80 0x9F
  else if (n <? 0xF0)%N then s3 0x80 0xBF
  else if (n =? 0xF0)%N then s4 0x90 0xBF
  else if (n <? 0xF4)%N then s4 0x80 0xBF
  else if (n =? 0xF4)%N then s4 0x80 0x8F
  else xx.

Definition low6 (b : ascii) : N := N.land (byteN b) 0x3F.

Definition rune2 (b0 b1 : ascii) : N :=
  N.lor (N.shiftl (N.land (byteN b0) 0x1F) 6) (low6 b1).
Definition rune3 (b0 b1 b2 : ascii) : N :=
  N.lor (N.shiftl (N.land (byteN b0) 0x0F) 12)
        (N.lor (N.shiftl (low6 b1) 6) (low6 b2)).
Definition rune4 (b0 b1 b2 b3 : ascii) : N :=
  N.lor (N.shiftl (N.land (byteN b0) 0x07) 18)
        (N.lor (N.shiftl (low6 b1) 12)
               (N.lor (N.shiftl (low6 b2) 6) (low6 b3))).

(** [decode s] is what [for _, r := range s] iterates over: each rune
    with the bytes it was read from.  An invalid or truncated encoding
    yields [RuneError] and consumes one byte. *)
Fixpoint decode (s : string) : list (N * string) :=
  match s with
  | EmptyString => []
  | String b0 t0 =>
    match classify b0 with
    | as1 => (byteN b0, String b0 "") :: decode t0
    | xx => (RuneError, String b0 "") :: decode t0
    | s2 =>
      match t0 with
      | String b1 t1 =>
        if cont b1
        then (rune2 b0 b1, String b0 (String b1 "")) :: decode t1
        else (RuneError, String b0 "") :: decode t0
      | _ => (RuneError, String b0 "") :: decode t0
      end
    | s3 lo hi =>
      match t0 with
      | String b1 (String b2 t2) =>
        if inRange lo hi b1 && cont b2
        then (rune3 b0 b1 b2, String b0 (String b1 (String b2 ""))) :: decode t2
        else (RuneError, String b0 "") :: decode t0
      | _ => (RuneError, String b0 "") :: decode t0
      end
    | s4 lo hi =>
      match t0 with
      | String b1 (String b2 (String b3 t3)) =>
        if inRange lo hi b1 && cont b2 && cont b3
        then (rune4 b0 b1 b2 b3,
              String b0 (String b1 (String b2 (String b3 "")))) :: decode t3
        else (RuneError, String b0 "") :: decode t0
      | _ => (RuneError, String b0 "") :: decode t0
      end
    end
  end.

Definition runes (s : string) : list N := map fst (decode s).

Definition isSurrogate (r : N) : bool := (0xD800 <=? r)%N && (r <=? 0xDFFF)%N.

(** [utf8.AppendRune]: the encoding of a rune; an invalid rune is
    written as [RuneError]. *)
Definition encode (r : N) : string :=
  let b n := String (byte_of n) in
  if (r <=? 0x7F)%N then b r ""
  else if (r <=? 0x7FF)%N then
    b (N.lor 0xC0 (N.shiftr r 6)) (b (N.lor 0x80 (N.land r 0x3F)) "")
  else if (MaxRune <? r)%N || isSurrogate r then
    b 0xEF (b 0xBF (b 0xBD ""))
  else if (r <=? 0xFFFF)%N then
    b (N.lor 0xE0 (N.shiftr r 12))
      (b (N.lor 0x80 (N.land (N.shiftr r 6) 0x3F))
         (b (N.lor 0x80 (N.land r 0x3F)) ""))
  else
    b (N.lor 0xF0 (N.shiftr r 18))
      (b (N.lor 0x80 (N.land (N.shiftr r 12) 0x3F))
         (b (N.lor 0x80 (N.land (N.shiftr r 6) 0x3F))
            (b (N.lor 0x80 (N.land r 0x3F)) ""))).

End utf8.

(* ================================================================= *)
(** ** Package [unicode] *)

(** The tables of Go's [unicode] package: letters and digits above
    Latin-1, the case mappings above ASCII.  They belong to the standard
    library, not to this repository; every statement below holds for any
    tables. *)
Class UnicodeTables : Type := {
  letterTable : N -> bool;
  digitTable : N -> bool;
  lowerTable : N -> N;
  upperTable : N -> N
}.

Module unicode.
Local Open Scope N_scope.

Definition MaxASCII : N := 0x7F.
Definition MaxLatin1 : N := 0xFF.

Definition rune_of (c : ascii) : N := N_of_ascii c.

Definition between (lo hi r : N) : bool := (lo <=? r)%N && (r <=? hi)%N.

(** Letters of Latin-1 (the [pLmask] entries of [properties]). *)
Definition latin1Letter (r : N) : bool :=
  between (rune_of "A") (rune_of "Z") r || between (rune_of "a") (rune_of "z") r
  || (r =? 0xAA)%N || (r =? 0xB5)%N || (r =? 0xBA)%N
  || between 0xC0 0xD6 r || between 0xD8 0xF6 r || between 0xF8 0xFF r.

Section Tables.
Context {U : UnicodeTables}.

Definition IsLetter (r : N) : bool :=
  if (r <=? MaxLatin1)%N then latin1Letter r else letterTable r.

Definition IsDigit (r : N) : bool :=
  if (r <=? MaxLatin1)%N then between (rune_of "0") (rune_of "9") r
  else digitTable r.

Definition ToLower (r : N) : N :=
  if (r <=? MaxASCII)%N then
    if between (rune_of "A") (rune_of "Z") r then (r + 32)%N else r
  else lowerTable r.

Definition ToUpper (r : N) : N :=
  if (r <=? MaxASCII)%N then
    if between (rune_of "a") (rune_of "z") r then (r - 32)%N else r
  else upperTable r.
End Tables.

(** [unicode.IsSpace]: the White_Space property. *)
Definition IsSpace (r : N) : bool :=
  between 0x09 0x0D r || (r =? 0x20)%N || (r =? 0x85)%N || (r =? 0xA0)%N
  || (r =? 0x1680)%N || between 0x2000 0x200A r || (r =? 0x2028)%N
  || (r =? 0x2029)%N || (r =? 0x202F)%N || (r =? 0x205F)%N || (r =? 0x3000)%N.

End unicode.

(* ================================================================= *)
(** ** Package [strings] *)

Module strings.

(** [strings.Contains(s, substr)]. *)
Fixpoint Contains (s substr : string) : bool :=
  if String.prefix substr s then true
  else match s with
       | EmptyString => false
       | String _ s' => Contains s' substr
       end.

(** The pieces between the non-overlapping occurrences of [sep], found
    from the left; [skip] counts the bytes of an occurrence still to be
    passed over and [cur] is the piece being read. *)
Fixpoint splitFrom (sep : string) (skip : nat) (cur s : string) : list string :=
  match s with
  | EmptyString => [cur]
  | String c s' =>
    match skip with
    | S k => splitFrom sep k cur s'
    | O =>
      if String.prefix sep s
      then cur :: splitFrom sep (String.length sep - 1) "" s'
      else splitFrom sep 0 (cur ++ String c "") s'
    end
  end.

(** [strings.Split(s, sep)]; an empty [sep] explodes [s] into its UTF-8
    sequences. *)
Definition Split (s sep : string) : list string :=
  match sep with
  | EmptyString => map snd (utf8.decode s)
  | _ => splitFrom sep 0 "" s
  end.

(** [strings.Join(elems, sep)]. *)
Definition Join (elems : list string) (sep : string) : string :=
  String.concat sep elems.

(** [strings.Repeat(s, count)]. *)
Fixpoint Repeat (s : string) (count : nat) : string :=
  match count with
  | O => ""
  | S n => s ++ Repeat s n
  end.

Fixpoint replaceFrom (old new : string) (skip : nat) (s : string) : string :=
  match s with
  | EmptyString => ""
  | String c s' =>
    match skip with
    | S k => replaceFrom old new k s'
    | O =>
      if String.prefix old s
      then new ++ replaceFrom old new (String.length old - 1) s'
      else String c (replaceFrom old new 0 s')
    end
  end.

(** [strings.ReplaceAll(s, old, new)]; an empty [old] matches before
    every UTF-8 sequence and at the end. *)
Definition ReplaceAll (s old new : string) : string :=
  match old with
  | EmptyString =>
    new ++ String.concat "" (map (fun rc => snd rc ++ new) (utf8.decode s))
  | _ => replaceFrom old new 0 s
  end.

(** [strings.Map(mapping, s)]: every rune is replaced by its image,
    re-encoded. *)
Definition Map (mapping : N -> N) (s : string) : string :=
  String.concat "" (map (fun rc => utf8.encode (mapping (fst rc))) (utf8.decode s)).

Definition ToLower {U : UnicodeTables} (s : string) : string :=
  Map unicode.ToLower s.

Definition ToUpper {U : UnicodeTables} (s : string) : string :=
  Map unicode.ToUpper s.

(** The scan of [strings.FieldsFunc]: [start] is the field being read
    ([None] between fields, where Go keeps a negative start index). *)
Fixpoint fieldsFrom (f : N -> bool) (start : option string)
         (rs : list (N * string)) : list string :=
  match rs with
  | [] => match start with Some w => [w] | None => [] end
  | (r, c) :: rs' =>
    if f r then
      match start with
      | Some w => w :: fieldsFrom f None rs'
      | None => fieldsFrom f None rs'
      end
    else
      match start with
      | Some w => fieldsFrom f (Some (w ++ c)) rs'
      | None => fieldsFrom f (Some c) rs'
      end
  end.

(** [strings.FieldsFunc(s, f)]: the maximal runs of runes not satisfying
    [f], as slices of [s]. *)
Definition FieldsFunc (s : string) (f : N -> bool) : list string :=
  fieldsFrom f None (utf8.decode s).

Fixpoint dropWhile {A} (p : A -> bool) (l : list A) : list A :=
  match l with
  | [] => []
  | x :: l' => if p x then dropWhile p l' else l
  end.

(** [strings.TrimSpace(s)]. *)
Definition TrimSpace (s : string) : string :=
  let sp (rc : N * string) := unicode.IsSpace (fst rc) in
  String.concat ""
    (map snd (rev (dropWhile sp (rev (dropWhile sp (utf8.decode s)))))).

End strings.

(* ================================================================= *)
(** ** internal/utils/branch.go *)

Module utils.

(** The predicate handed to [strings.FieldsFunc] in [FormatBranchName]. *)
Definition isSeparator (r : N) : bool :=
  (r =? unicode.rune_of " ")%N || (r =? unicode.rune_of ":")%N
  || (r =? unicode.rune_of "!")%N || (r =? unicode.rune_of "?")%N
  || (r =? unicode.rune_of ",")%N || (r =? unicode.rune_of ";")%N
  || (r =? unicode.rune_of ".")%N.

Section Branch.
Context {U : UnicodeTables}.

(** The inner loop: [for _, r := range word], writing letters and digits
    to the builder. *)
Fixpoint writeAlnum (rs : list (N * string)) (builder : string) : string :=
  match rs with
  | [] => builder
  | (r, _) :: rs' =>
    if unicode.IsLetter r || unicode.IsDigit r
    then writeAlnum rs' (builder ++ utf8.encode r)
    else writeAlnum rs' builder
  end.

(** The outer loop: [for _, word := range words], with its [break] once
    five candidates are collected. *)
Fixpoint cleanWords (words cleaned : list string) : list string :=
  match words with
  | [] => cleaned
  | word :: rest =>
    let candidate := writeAlnum (utf8.decode word) "" in
    let cleaned :=
      if (1 <? String.length candidate)%nat then append cleaned candidate else cleaned in
    if (List.length cleaned =? 5)%nat then cleaned else cleanWords rest cleaned
  end.

Definition FormatBranchName (prefix ticketID summary : string) : string :=
  let lowered := strings.ToLower summary in
  let words := strings.FieldsFunc lowered isSeparator in
  let cleaned := cleanWords words [] in
  if (List.length cleaned =? 0)%nat
  then prefix ++ "/" ++ ticketID
  else prefix ++ "/" ++ ticketID ++ "/" ++ strings.Join cleaned "_".

End Branch.

(** The error every failing path of [ExtractTicketID] returns (the
    specification's CorrelationError). *)
Definition CorrelationError (branch : string) : error :=
  errorsNew ("branch '" ++ branch ++ "' does not contain a ticket id").

Definition ExtractTicketID (branch : string) : result string :=
  let parts := strings.Split branch "/" in
  if (List.length parts <? 2)%nat then Fail (CorrelationError branch)
  else
    let ticketPart := nth 1 parts "" in
    if negb (strings.Contains ticketPart "-") then Fail (CorrelationError branch)
    else
      let segments := strings.Split ticketPart "-" in
      if (List.length segments <? 2)%nat then Fail (CorrelationError branch)
      else
        let ticketID := strings.Join (firstn 2 segments) "-" in
        if String.eqb ticketID "" then Fail (CorrelationError branch)
        else Ok ticketID.

(** *** internal/utils/colors.go *)

Definition esc : string := String "027"%char "".
Definition colorReset : string := esc ++ "[0m".
Definition colorBold : string := esc ++ "[1m".
Definition colorDim : string := esc ++ "[2m".
Definition colorRed : string := esc ++ "[31m".
Definition colorGreen : string := esc ++ "[32m".
Definition colorYellow : string := esc ++ "[33m".
Definition colorBlue : string := esc ++ "[34m".
Definition colorCyan : string := esc ++ "[36m".
Definition colorBrightWhite : string := esc ++ "[97m".

Definition Colorize (text : string) (codes : list string) : string :=
  if (List.length codes =? 0)%nat then text
  else strings.Join codes "" ++ text ++ colorReset.

Definition Cyan (text : string) : string := Colorize text [colorCyan].
Definition Green (text : string) : string := Colorize text [colorGreen].
Definition Yellow (text : string) : string := Colorize text [colorYellow].
Definition Red (text : string) : string := Colorize text [colorRed].
Definition Blue (text : string) : string := Colorize text [colorBlue].
Definition BrightWhite (text : string) : string := Colorize text [colorBrightWhite].
Definition Bold (text : string) : string := Colorize text [colorBold].
Definition Dim (text : string) : string := Colorize text [colorDim].

End utils.

(* ================================================================= *)
(** ** internal/config: the settings record and token masking *)

Module config.

Record AuthMethod : Type := {
  AuthType : string;      (* AuthMethod.Type *)
  AuthToken : string      (* AuthMethod.Token *)
}.

Record JiraConfig : Type := {
  URL : string;
  Email : string;
  ProjectKey : string;
  Auth : AuthMethod       (* JiraConfig.AuthMethod *)
}.

Record GitConfig : Type := {
  Provider : string;
  BaseURL : string;
  Token : string;
  Owner : string;
  Repo : string
}.

Record Preferences : Type := {
  BranchPrefix : string;
  DefaultTransition : string
}.

Record Settings : Type := {
  Jira : JiraConfig;
  Git : GitConfig;
  Prefs : Preferences     (* Settings.Preferences *)
}.

Definition min (a b : Z) : Z := if (a <? b)%Z then a else b.
Definition max (a b : Z) : Z := if (a >? b)%Z then a else b.

(** Slices [s[:n]] and [s[n:]] of a string, by bytes. *)
Definition sliceTo (s : string) (n : Z) : string :=
  String.substring 0 (Z.to_nat n) s.
Definition sliceFrom (s : string) (n : Z) : string :=
  String.substring (Z.to_nat n) (String.length s - Z.to_nat n) s.

Definition len (s : string) : Z := Z.of_nat (String.length s).

Definition MaskToken (token : string) : string :=
  if (len token <=? 4)%Z then strings.Repeat "*" (Z.to_nat (len token))
  else
    let head := sliceTo token (min 4 (len token)) in
    let tail := sliceFrom token (max 0 (len token - 4)) in
    head ++ "***" ++ tail.

End config.

(* ================================================================= *)
(** ** internal/models/ticket.go *)

Module models.

Record TicketStatus : Type := { Name : string }.
Record TicketUser : Type := { DisplayName : string }.

Record TicketFields : Type := {
  Summary : string;
  Description : string;
  Status : TicketStatus;
  Assignee : option TicketUser
}.

Record JiraTicket : Type := {
  Key : string;
  Fields : TicketFields
}.

End models.

(* ================================================================= *)
(** ** Package [strconv] and [path/filepath], as far as the commands use them *)

Module strconv.

Definition digitVal (c : ascii) : option Z :=
  let n := N_of_ascii c in
  if ((48 <=? n) && (n <=? 57))%N then Some (Z.of_N n - 48)%Z else None.

Fixpoint parseDigits (s : string) (acc : Z) : option Z :=
  match s with
  | EmptyString => Some acc
  | String c s' =>
    match digitVal c with
    | Some d => parseDigits s' (acc * 10 + d)%Z
    | None => None
    end
  end.

(** [strconv.Atoi]: an optional sign and decimal digits, within the range
    of a 64-bit [int]; [None] is its error. *)
Definition Atoi (s : string) : option Z :=
  let signed :=
    match s with
    | String "-" t => (true, t)
    | String "+" t => (false, t)
    | _ => (false, s)
    end in
  match snd signed with
  | EmptyString => None
  | body =>
    match parseDigits body 0 with
    | Some v =>
      let v' := if fst signed then (- v)%Z else v in
      if ((- 2 ^ 63 <=? v') && (v' <=? 2 ^ 63 - 1))%Z then Some v' else None
    | None => None
    end
  end.

(** [strconv.Itoa]. *)
Definition Itoa (i : Z) : string := NilZero.string_of_int (Z.to_int i).

End strconv.

Module filepath.

Fixpoint dropTrailing (c : ascii) (s : string) : string :=
  match s with
  | EmptyString => ""
  | String a s' =>
    match dropTrailing c s' with
    | EmptyString => if Ascii.eqb a c then "" else String a ""
    | t => String a t
    end
  end.

(** [filepath.Base] with the separator [/]. *)
Definition Base (path : string) : string :=
  match path with
  | EmptyString => "."
  | _ =>
    match dropTrailing "/" path with
    | EmptyString => "/"
    | p => last (strings.Split p "/") ""
    end
  end.

End filepath.

(* ================================================================= *)
(** ** internal/app/commands.go: the workflow orchestrator *)

Module app.

(** *** The collaborators

    The tracker, the version-control client, the two code hosts, the
    configuration file and standard input are outside the orchestrator.
    A [World] fixes what each of them answers; an answer is a value or a
    refusal with its message. *)

Inductive reply (A : Type) : Type :=
| Done (a : A)
| Refused (msg : string).
Arguments Done {A} a.
Arguments Refused {A} msg.

Inductive load_reply : Type :=
| Loaded (s : config.Settings)
| NotFound                      (* the file does not exist *)
| Unreadable (msg : string).

Record World : Type := {
  configLoad : load_reply;
  gitNewClient : reply string;                     (* the worktree root *)
  gitCurrentBranch : reply string;
  gitIsClean : reply bool;
  gitCreateBranch : string -> reply unit;
  gitPush : string -> reply unit;
  gitCommit : string -> reply unit;
  jiraGetTicket : string -> reply models.JiraTicket;
  jiraUpdateStatus : string -> string -> reply unit;
  jiraSearchWithJQL : string -> Z -> reply (list models.JiraTicket);
  gitHubCreatePullRequest : string -> string -> string -> string -> reply string;
  gitLabCreateMergeRequest :
    string -> string -> string -> string -> string -> reply string;
  jsonMarshalIndent : list models.JiraTicket -> reply string;
  stdinReadString : reply string
}.

(** What a run does that can be observed from outside, in order. *)
Inductive event : Type :=
| Stdout (text : string)
| ConfigLoad
| GitNewClient
| GitCurrentBranch
| GitIsClean
| GitCreateBranch (branch : string)
| GitPush (branch : string)
| GitCommit (message : string)
| JiraFactory (url email : string) (auth : config.AuthMethod)
| JiraGetTicket (ticketID : string)
| JiraUpdateStatus (ticketID transition : string)
| JiraSearchWithJQL (jql : string) (limit : Z)
| GitHubFactory (owner repo token : string)
| GitHubCreatePullRequest (sourceBranch targetBranch title description : string)
| GitLabFactory (baseURL token : string)
| GitLabCreateMergeRequest
    (projectPath sourceBranch targetBranch title description : string)
| JsonMarshalIndent
| StdinReadString.

(** *** The monad of a command: a trace of events and a result *)

Definition M (A : Type) : Type := (list event * result A)%type.

Definition ret {A} (a : A) : M A := ([], Ok a).

(** Sequencing: the events of [m], then those of [k] when [m] has a
    value; an error of [m] ends the run. *)
Definition bind {A B} (m : M A) (k : A -> M B) : M B :=
  let rest :=
    match snd m with
    | Ok a => k a
    | Fail e => ([], Fail e)
    end in
  ((fst m ++ fst rest)%list, snd rest).

Definition fail {A} (e : error) : M A := ([], Fail e).

Definition emit (e : event) : M unit := ([e], Ok tt).

(** [v, err := f()] where the caller goes on after an error. *)
Definition attempt {A} (m : M A) : M (result A) := (fst m, Ok (snd m)).

(** One observable step with its result. *)
Definition perform {A} (e : event) (r : result A) : M A := ([e], r).

(** A call to a collaborator: its refusal becomes an error of that origin. *)
Definition call {A} (e : event) (g : gateway) (r : reply A) : M A :=
  perform e (match r with
             | Done a => Ok a
             | Refused msg => Fail (gatewayErr g msg)
             end).

Definition trace {A} (m : M A) : list event := fst m.
Definition outcome {A} (m : M A) : result A := snd m.

Declare Scope cmd_scope.
Delimit Scope cmd_scope with cmd.
Notation "x <- m ;; k" := (bind m (fun x => k))
  (at level 61, m at next level, right associativity) : cmd_scope.
Notation "m ;; k" := (bind m (fun _ => k))
  (at level 61, right associativity) : cmd_scope.
Open Scope cmd_scope.

Definition nl : string := String "010"%char "".
Definition quote : string := String "034"%char "".

Definition Println (s : string) : M unit := emit (Stdout (s ++ nl)).
Definition Print (s : string) : M unit := emit (Stdout s).

Section Commands.
Context {U : UnicodeTables}.
Variable w : World.

Definition config_Load : M config.Settings :=
  perform ConfigLoad
    match configLoad w with
    | Loaded s => Ok s
    | NotFound => Fail ErrConfigNotFound
    | Unreadable msg => Fail (gatewayErr FromConfig msg)
    end.

Definition loadSettings : M config.Settings :=
  r <- attempt config_Load ;;
  match r with
  | Fail ErrConfigNotFound =>
    fail (errorsNew "configuration not found. Run 'devflow init' first")
  | Fail err => fail err
  | Ok settings => ret settings
  end.

Definition git_NewClient : M string :=
  call GitNewClient FromGit (gitNewClient w).

Definition jiraFactory (settings : config.Settings) : M unit :=
  let j := config.Jira settings in
  emit (JiraFactory (config.URL j) (config.Email j) (config.Auth j)).

Definition GetTicket (ticketID : string) : M models.JiraTicket :=
  call (JiraGetTicket ticketID) FromJira (jiraGetTicket w ticketID).

Definition UpdateStatus (ticketID transition : string) : M unit :=
  call (JiraUpdateStatus ticketID transition) FromJira
       (jiraUpdateStatus w ticketID transition).

Definition SearchWithJQL (jql : string) (limit : Z) : M (list models.JiraTicket) :=
  call (JiraSearchWithJQL jql limit) FromJira (jiraSearchWithJQL w jql limit).

Definition summaryOf (t : models.JiraTicket) : string :=
  models.Summary (models.Fields t).
Definition statusOf (t : models.JiraTicket) : string :=
  models.Name (models.Status (models.Fields t)).

Definition handleStart (ticketID : string) : M unit :=
  settings <- loadSettings ;;
  _ <- git_NewClient ;;
  current <- attempt (call GitCurrentBranch FromGit (gitCurrentBranch w)) ;;
  started <-
    match current with
    | Ok branch =>
      if strings.Contains (strings.ToUpper branch) (strings.ToUpper ticketID)
      then
        Println (utils.Yellow ("Already on branch: " ++ branch)) ;;
        Println (utils.Dim "Run 'devflow status' to see current state") ;;
        ret true
      else ret false
    | Fail _ => ret false
    end ;;
  if started : bool then ret tt
  else
    Println (utils.Cyan (utils.Bold ("Starting work on " ++ ticketID ++ "..."))) ;;
    Println "" ;;
    Println (utils.Dim "  Fetching Jira ticket...") ;;
    jiraFactory settings ;;
    ticket <- GetTicket ticketID ;;
    Println (utils.Green ("  ✓ Found: " ++ summaryOf ticket)) ;;
    Println (utils.Dim ("    Status: " ++ statusOf ticket)) ;;
    let prefix := config.BranchPrefix (config.Prefs settings) in
    let prefix := if String.eqb prefix "" then "feat" else prefix in
    let branchName := utils.FormatBranchName prefix ticketID (summaryOf ticket) in
    Println "" ;;
    Println (utils.Cyan ("  Creating branch: " ++ branchName)) ;;
    call (GitCreateBranch branchName) FromGit (gitCreateBranch w branchName) ;;
    let transition := config.DefaultTransition (config.Prefs settings) in
    (if negb (String.eqb transition "") then
       Println (utils.Cyan ("  Updating Jira status to '" ++ transition ++ "'...")) ;;
       updated <- attempt (UpdateStatus ticketID transition) ;;
       match updated with
       | Fail err =>
         Println (utils.Yellow ("  Could not update status: " ++ Error err))
       | Ok _ =>
         Println (utils.Green ("  ✓ Status updated to '" ++ transition ++ "'"))
       end
     else ret tt) ;;
    Println "" ;;
    Println (utils.Green (utils.Bold "✨ All set! You're ready to code!")) ;;
    Println "" ;;
    Print ("  " ++ utils.Bold "Ticket:" ++ " " ++ utils.BrightWhite ticketID ++ nl) ;;
    Print ("  " ++ utils.Bold "Branch:" ++ " " ++ utils.BrightWhite branchName ++ nl) ;;
    Print ("  " ++ utils.Bold "Summary:" ++ " " ++ utils.Dim (summaryOf ticket) ++ nl) ;;
    ret tt.

Definition colorStatus (status : string) : string :=
  if String.eqb status "In Progress" then utils.Green status
  else if String.eqb status "To Do" then utils.Yellow status
  else if String.eqb status "In Review" || String.eqb status "Code Review"
       then utils.Blue status
  else if String.eqb status "Done" then utils.Dim status
  else status.

Fixpoint printTicketList (tickets : list models.JiraTicket) : M unit :=
  match tickets with
  | [] => ret tt
  | ticket :: rest =>
    Print ("  " ++ utils.Bold (utils.BrightWhite (models.Key ticket))
           ++ " [" ++ colorStatus (statusOf ticket) ++ "]  "
           ++ summaryOf ticket ++ nl) ;;
    printTicketList rest
  end.

Definition handleList (statusFilter projectFilter : string) (jsonOutput : bool)
  : M unit :=
  settings <- loadSettings ;;
  jiraFactory settings ;;
  let project := strings.TrimSpace projectFilter in
  let project :=
    if String.eqb project "" then config.ProjectKey (config.Jira settings)
    else project in
  let jqlParts := ["assignee = currentUser()"] in
  let jqlParts :=
    if negb (String.eqb project "")
    then append jqlParts ("project = " ++ project) else jqlParts in
  let jqlParts :=
    if negb (String.eqb statusFilter "")
    then append jqlParts ("status = " ++ quote ++ statusFilter ++ quote)
    else jqlParts in
  let jql := strings.Join jqlParts " AND " in
  tickets <- SearchWithJQL jql 50 ;;
  if jsonOutput then
    data <- call JsonMarshalIndent FromJson (jsonMarshalIndent w tickets) ;;
    Println data ;;
    ret tt
  else
    Println (utils.Cyan (utils.Bold "Your Assigned Tickets")) ;;
    Println "" ;;
    if (List.length tickets =? 0)%nat then
      Println (utils.Dim "  No tickets assigned to you") ;;
      ret tt
    else
      Print (utils.Dim "" ++ "  "
             ++ strconv.Itoa (Z.of_nat (List.length tickets))
             ++ " tickets found" ++ nl ++ nl) ;;
      printTicketList tickets ;;
      ret tt.

Record searchOptions : Type := {
  Query : string;
  Assignee : string;
  Status : string;
  Project : string;
  Limit : Z;
  Interactive : bool
}.

Definition escapeJQL (value : string) : string :=
  strings.ReplaceAll value quote ("\" ++ quote).

Definition promptSelection (count : Z) : M Z :=
  if (count =? 0)%Z then ret (-1)%Z
  else
    Print "Select a ticket number (or press Enter to cancel): " ;;
    input <- call StdinReadString FromStdin (stdinReadString w) ;;
    let input := strings.TrimSpace input in
    if String.eqb input "" then ret (-1)%Z
    else
      match strconv.Atoi input with
      | None => fail (errorsNew ("invalid selection: " ++ input))
      | Some idx =>
        if ((idx <? 1) || (idx >? count))%Z
        then fail (errorsNew ("selection out of range (1-"
                              ++ strconv.Itoa count ++ ")"))
        else ret (idx - 1)%Z
      end.

(** The loop [for i, ticket := range tickets] of [handleSearch]. *)
Fixpoint printResults (i : Z) (tickets : list models.JiraTicket) : M unit :=
  match tickets with
  | [] => ret tt
  | ticket :: rest =>
    Print ("  " ++ utils.Dim (strconv.Itoa (i + 1)) ++ ". "
           ++ utils.BrightWhite (models.Key ticket)
           ++ " [" ++ colorStatus (statusOf ticket) ++ "]  "
           ++ summaryOf ticket ++ nl) ;;
    printResults (i + 1) rest
  end.

Definition emptyTicket : models.JiraTicket :=
  {| models.Key := "";
     models.Fields := {| models.Summary := ""; models.Description := "";
                         models.Status := {| models.Name := "" |};
                         models.Assignee := None |} |}.

Definition handleSearch (opts : searchOptions) : M unit :=
  settings <- loadSettings ;;
  jiraFactory settings ;;
  Println (utils.Cyan (utils.Bold
    ("Searching for: " ++ quote ++ Query opts ++ quote))) ;;
  Println "" ;;
  let jqlParts :=
    ["(summary ~ " ++ quote ++ escapeJQL (Query opts) ++ quote
     ++ " OR description ~ " ++ quote ++ escapeJQL (Query opts) ++ quote ++ ")"] in
  let project := strings.TrimSpace (Project opts) in
  let project :=
    if String.eqb project "" then config.ProjectKey (config.Jira settings)
    else project in
  let jqlParts :=
    if negb (String.eqb project "")
    then append jqlParts ("project = " ++ project) else jqlParts in
  let jqlParts :=
    if negb (String.eqb (Assignee opts) "") then
      if String.eqb (Assignee opts) "me"
      then append jqlParts ("assignee = currentUser()")
      else append jqlParts ("assignee = " ++ quote ++ Assignee opts ++ quote)
    else jqlParts in
  let jqlParts :=
    if negb (String.eqb (Status opts) "")
    then append jqlParts ("status = " ++ quote ++ Status opts ++ quote)
    else jqlParts in
  let jql := strings.Join jqlParts " AND " in
  Println (utils.Dim ("  JQL: " ++ jql)) ;;
  Println "" ;;
  tickets <- SearchWithJQL jql (Limit opts) ;;
  if (List.length tickets =? 0)%nat then
    Println (utils.Dim "  No tickets found") ;;
    ret tt
  else
    printResults 0 tickets ;;
    (if (Z.of_nat (List.length tickets) =? Limit opts)%Z then
       Println "" ;;
       Println (utils.Dim ("  Showing " ++ strconv.Itoa (Limit opts)
                           ++ " of potentially more results. Use --limit to see more."))
     else ret tt) ;;
    if Interactive opts then
      idx <- promptSelection (Z.of_nat (List.length tickets)) ;;
      if (idx >=? 0)%Z then
        let selected := nth (Z.to_nat idx) tickets emptyTicket in
        Println "" ;;
        Println (utils.Cyan (utils.Bold
          ("Starting work on " ++ models.Key selected ++ "..."))) ;;
        handleStart (models.Key selected)
      else
        Println "" ;;
        Println (utils.Yellow "No ticket selected") ;;
        ret tt
    else ret tt.


(** [listCmd.RunE]. *)
Definition listCmd (listStatus listProject : string) (listJSON : bool) : M unit :=
  handleList listStatus listProject listJSON.

Definition handleCommit (message : string) : M unit :=
  settings <- loadSettings ;;
  _ <- git_NewClient ;;
  branch <- call GitCurrentBranch FromGit (gitCurrentBranch w) ;;
  match utils.ExtractTicketID branch with
  | Fail err => fail err
  | Ok ticketID =>
    let formatted :=
      message ++ nl ++ nl ++ ticketID ++ ": "
      ++ config.URL (config.Jira settings) ++ "/browse/" ++ ticketID in
    call (GitCommit formatted) FromGit (gitCommit w formatted) ;;
    Println "" ;;
    Println (utils.Green (utils.Bold "Commit created successfully!")) ;;
    Print ("  " ++ utils.Bold "Message:" ++ " " ++ message ++ nl) ;;
    Print ("  " ++ utils.Bold "Ticket:" ++ " " ++ utils.BrightWhite ticketID ++ nl) ;;
    ret tt
  end.

(** The [switch provider] of [handleDone]. *)
Definition createRequest (settings : config.Settings) (root provider : string)
           (branch prTitle prDescription : string) : M string :=
  let g := config.Git settings in
  if String.eqb provider "github" then
    if String.eqb (config.Owner g) "" || String.eqb (config.Repo g) ""
    then fail (errorsNew "GitHub owner/repo not configured")
    else
      Println (utils.Dim "  Creating pull request...") ;;
      emit (GitHubFactory (config.Owner g) (config.Repo g) (config.Token g)) ;;
      call (GitHubCreatePullRequest branch "main" prTitle prDescription)
           FromGitHub
           (gitHubCreatePullRequest w branch "main" prTitle prDescription)
  else if String.eqb provider "gitlab" then
    Println (utils.Dim "  Creating merge request...") ;;
    let projectPath := filepath.Base root in
    emit (GitLabFactory (config.BaseURL g) (config.Token g)) ;;
    call (GitLabCreateMergeRequest projectPath branch "main" prTitle prDescription)
         FromGitLab
         (gitLabCreateMergeRequest w projectPath branch "main" prTitle prDescription)
  else fail (errorsNew ("unsupported git provider: " ++ provider)).

Definition handleDone : M unit :=
  settings <- loadSettings ;;
  root <- git_NewClient ;;
  clean <- call GitIsClean FromGit (gitIsClean w) ;;
  if negb clean then
    fail (errorsNew
      "uncommitted changes detected. Commit or stash before running 'devflow done'")
  else
    branch <- call GitCurrentBranch FromGit (gitCurrentBranch w) ;;
    match utils.ExtractTicketID branch with
    | Fail err => fail err
    | Ok ticketID =>
      Println (utils.Cyan (utils.Bold "Finalizing work...")) ;;
      Println "" ;;
      Println (utils.Dim "  Pushing branch to remote...") ;;
      call (GitPush branch) FromGit (gitPush w branch) ;;
      jiraFactory settings ;;
      Println (utils.Dim "  Fetching ticket information...") ;;
      ticket <- GetTicket ticketID ;;
      let prTitle := ticketID ++ ": " ++ summaryOf ticket in
      let prDescription :=
        "Resolves " ++ ticketID ++ nl ++ nl ++ "Jira: "
        ++ config.URL (config.Jira settings) ++ "/browse/" ++ ticketID in
      let provider := strings.ToLower (config.Provider (config.Git settings)) in
      prURL <- createRequest settings root provider branch prTitle prDescription ;;
      Println (utils.Dim "  Updating Jira status to 'In Review'...") ;;
      updated <- attempt (UpdateStatus ticketID "In Review") ;;
      match updated with
      | Fail err =>
        Println (utils.Yellow ("  Could not update status: " ++ Error err))
      | Ok _ => Println (utils.Green "  ✓ Status updated to 'In Review'")
      end ;;
      let label := "PR" in
      let label := if String.eqb provider "gitlab" then "MR" else label in
      Println "" ;;
      Println (utils.Green (utils.Bold "All done! Ready for review!")) ;;
      Print ("  " ++ utils.Bold "Ticket:" ++ " " ++ utils.BrightWhite ticketID ++ nl) ;;
      Print ("  " ++ utils.Bold "Branch:" ++ " " ++ utils.BrightWhite branch ++ nl) ;;
      Print ("  " ++ utils.Bold (label ++ ":") ++ " " ++ utils.Cyan prURL ++ nl) ;;
      ret tt
    end.

Definition printConfig (settings : config.Settings) : M unit :=
  let j := config.Jira settings in
  let g := config.Git settings in
  let p := config.Prefs settings in
  let field name value := Print ("  " ++ utils.Dim name ++ " " ++ value ++ nl) in
  Println (utils.Cyan (utils.Bold "Current Configuration")) ;;
  Println "" ;;
  Println (utils.Bold "[jira]") ;;
  field "url:" (utils.BrightWhite (config.URL j)) ;;
  field "email:" (utils.BrightWhite (config.Email j)) ;;
  field "project_key:" (utils.BrightWhite (config.ProjectKey j)) ;;
  field "auth_method:" (utils.BrightWhite (config.AuthType (config.Auth j))) ;;
  field "token:" (utils.Yellow (config.MaskToken (config.AuthToken (config.Auth j)))) ;;
  Println "" ;;
  Println (utils.Bold "[git]") ;;
  field "provider:" (utils.BrightWhite (config.Provider g)) ;;
  field "base_url:" (utils.BrightWhite (config.BaseURL g)) ;;
  (if negb (String.eqb (config.Owner g) "")
   then field "owner:" (utils.BrightWhite (config.Owner g)) else ret tt) ;;
  (if negb (String.eqb (config.Repo g) "")
   then field "repo:" (utils.BrightWhite (config.Repo g)) else ret tt) ;;
  field "token:" (utils.Yellow (config.MaskToken (config.Token g))) ;;
  Println "" ;;
  Println (utils.Bold "[preferences]") ;;
  field "branch_prefix:" (utils.BrightWhite (config.BranchPrefix p)) ;;
  field "default_transition:" (utils.BrightWhite (config.DefaultTransition p)).

Definition handleConfigShow : M unit :=
  settings <- loadSettings ;;
  printConfig settings ;;
  ret tt.

End Commands.
End app.

(* ================================================================= *)
(** * The vocabulary of the statements *)

Import app.

(** Tables with the case mappings of Latin-1 and nothing above it, for
    concrete runs. *)
#[local] Instance latin1Tables : UnicodeTables := {|
  letterTable := fun _ => false;
  digitTable := fun _ => false;
  lowerTable := fun r =>
    if unicode.between 0xC0 0xD6 r || unicode.between 0xD8 0xDE r
    then (r + 32)%N else r;
  upperTable := fun r =>
    if unicode.between 0xE0 0xF6 r || unicode.between 0xF8 0xFE r
    then (r - 32)%N
    else if (r =? 0xFF)%N then 0x178%N
    else if (r =? 0xB5)%N then 0x39C%N
    else r
|}.

(** ** Bytes and runes of a string *)

(** [hasByte c s]: the byte [c] occurs in [s]. *)
Fixpoint hasByte (c : ascii) (s : string) : bool :=
  match s with
  | EmptyString => false
  | String a s' => Ascii.eqb a c || hasByte c s'
  end.

(** Every byte of [s] is at least 0x80. *)
Fixpoint allHigh (s : string) : bool :=
  match s with
  | EmptyString => true
  | String a s' => (0x80 <=? utf8.byteN a)%N && allHigh s'
  end.

(** Every rune that [range s] yields satisfies [P]. *)
Definition allRunes (P : N -> bool) (s : string) : bool :=
  forallb P (utf8.runes s).

(** A tab, as a string. *)
Definition tab : string := String "009"%char "".

(** ** The slug, as the specification words it *)

(** The six punctuation characters the summary is split on. *)
Definition punctuation (r : N) : bool :=
  (r =? unicode.rune_of ":")%N || (r =? unicode.rune_of "!")%N
  || (r =? unicode.rune_of "?")%N || (r =? unicode.rune_of ",")%N
  || (r =? unicode.rune_of ";")%N || (r =? unicode.rune_of ".")%N.

(** Splitting on whitespace and on the six punctuation characters. *)
Definition whitespaceOrPunctuation (r : N) : bool :=
  unicode.IsSpace r || punctuation r.

(** Splitting on the space character and on the six punctuation
    characters. *)
Definition spaceOrPunctuation (r : N) : bool :=
  (r =? unicode.rune_of " ")%N || punctuation r.

(** The pieces of a rune sequence between separators, empty ones kept. *)
Fixpoint splitRunes (sep : N -> bool) (cur : string) (rs : list (N * string))
  : list string :=
  match rs with
  | [] => [cur]
  | (r, c) :: rs' =>
    if sep r then cur :: splitRunes sep "" rs' else splitRunes sep (cur ++ c) rs'
  end.

(** A token of more than one byte. *)
Definition longerThanOne (token : string) : bool :=
  (1 <? String.length token)%nat.

Definition nonEmpty (s : string) : bool := negb (String.eqb s "").

Section SlugVocabulary.
Context {U : UnicodeTables}.

(** A letter or a digit. *)
Definition alnum (r : N) : bool := unicode.IsLetter r || unicode.IsDigit r.

(** A token with every rune that is no letter and no digit removed. *)
Definition stripNonAlnum (token : string) : string :=
  String.concat "" (map utf8.encode (filter alnum (utf8.runes token))).

(** Lower-case, split, strip, discard the short, keep five. *)
Definition slugTokens (sep : N -> bool) (summary : string) : list string :=
  firstn 5
    (filter longerThanOne
       (map stripNonAlnum
          (splitRunes sep "" (utf8.decode (strings.ToLower summary))))).

(** The branch name as the specification words it. *)
Definition branchNameSpec (sep : N -> bool) (prefix ticketID summary : string)
  : string :=
  match slugTokens sep summary with
  | [] => prefix ++ "/" ++ ticketID
  | tokens => prefix ++ "/" ++ ticketID ++ "/" ++ strings.Join tokens "_"
  end.

End SlugVocabulary.

(** ** Token masking *)

(** Where byte [i] of a token of 5 to 8 bytes stands in the masked text:
    in the head when [i < 4], in the tail otherwise. *)
Definition revealedAt (len i : nat) : nat :=
  if (i <? 4)%nat then i else (i + 11 - len)%nat.

(** The head is [token[:headEnd]] and the tail [token[tailStart:]]; they
    overlap when the tail starts before the head ends. *)
Definition headEnd (token : string) : Z := config.min 4 (config.len token).

Definition tailStart (token : string) : Z := config.max 0 (config.len token - 4).

Definition headTailOverlap (token : string) : bool :=
  (tailStart token <? headEnd token)%Z.

(** The line of the configuration display that shows a token. *)
Definition tokenLine (shown : string) : event :=
  Stdout ("  " ++ utils.Dim "token:" ++ " " ++ utils.Yellow shown ++ nl).

(** ** Events of a run *)

(** Operations on the tracker. *)
Definition trackerOp (e : event) : bool :=
  match e with
  | JiraFactory _ _ _ | JiraGetTicket _ | JiraUpdateStatus _ _
  | JiraSearchWithJQL _ _ => true
  | _ => false
  end.

(** Operations that change the repository or its remote. *)
Definition vcMutation (e : event) : bool :=
  match e with
  | GitCreateBranch _ | GitPush _ | GitCommit _ => true
  | _ => false
  end.

(** Operations on a code host. *)
Definition hostOp (e : event) : bool :=
  match e with
  | GitHubFactory _ _ _ | GitHubCreatePullRequest _ _ _ _
  | GitLabFactory _ _ | GitLabCreateMergeRequest _ _ _ _ _ => true
  | _ => false
  end.

(** An event that touches neither the tracker, nor the repository, nor a
    code host. *)
Definition untouched (e : event) : Prop :=
  trackerOp e = false /\ vcMutation e = false /\ hostOp e = false.

(** The error [done] makes when the tree has uncommitted changes. *)
Definition uncommittedChanges : error :=
  errorsNew
    "uncommitted changes detected. Commit or stash before running 'devflow done'".

(** The warning both workflows print when the transition fails. *)
Definition statusWarning (msg : string) : event :=
  Stdout (utils.Yellow ("  Could not update status: " ++ msg) ++ nl).

(** The target branch of a create-request call. *)
Definition targetBranch (e : event) : option string :=
  match e with
  | GitHubCreatePullRequest _ target _ _ => Some target
  | GitLabCreateMergeRequest _ _ target _ _ => Some target
  | _ => None
  end.

(** An event that, if it creates a request, targets [main]. *)
Definition targetsMain (e : event) : Prop :=
  forall target, targetBranch e = Some target -> target = "main".

Section WorkflowVocabulary.
Context {U : UnicodeTables}.

(** Whether the guard of [start] fires: a current branch is reported and
    holds the ticket ID, letter case apart. *)
Definition onTicketBranch (w : World) (ticketID : string) : bool :=
  match gitCurrentBranch w with
  | Done branch =>
    strings.Contains (strings.ToUpper branch) (strings.ToUpper ticketID)
  | Refused _ => false
  end.

(** The branch [start] creates. *)
Definition startBranch (settings : config.Settings) (ticketID : string)
           (ticket : models.JiraTicket) : string :=
  utils.FormatBranchName
    (if String.eqb (config.BranchPrefix (config.Prefs settings)) "" then "feat"
     else config.BranchPrefix (config.Prefs settings))
    ticketID (summaryOf ticket).

End WorkflowVocabulary.

(** The title and the description [done] gives the request. *)
Definition prTitle (ticketID : string) (ticket : models.JiraTicket) : string :=
  ticketID ++ ": " ++ summaryOf ticket.

Definition prDescription (settings : config.Settings) (ticketID : string) : string :=
  "Resolves " ++ ticketID ++ nl ++ nl ++ "Jira: "
  ++ config.URL (config.Jira settings) ++ "/browse/" ++ ticketID.

(** ** Queries *)





(** A quote with the backslash that escapes it. *)
Definition escapedQuote : string := "\" ++ quote.

(** Every quote byte replaced by a backslash and a quote. *)
Fixpoint escapeQuotes (s : string) : string :=
  match s with
  | EmptyString => ""
  | String c s' =>
    if Ascii.eqb c "034" then "\" ++ quote ++ escapeQuotes s'
    else String c (escapeQuotes s')
  end.

(** Every quote byte of [s] comes right after a backslash; [escaped]
    tells whether the byte before [s] is one. *)
Fixpoint quotesEscaped (escaped : bool) (s : string) : bool :=
  match s with
  | EmptyString => true
  | String c s' =>
    (if Ascii.eqb c "034" then escaped else true)
    && quotesEscaped (Ascii.eqb c "\") s'
  end.

(** A quote of [s] that ends a quoted text.  The text is read from the
    left: a backslash takes the byte after it with it, and a quote that no
    backslash takes closes the text.  [escaped] tells whether the byte
    before [s] is such a backslash. *)
Fixpoint closingQuote (escaped : bool) (s : string) : bool :=
  match s with
  | EmptyString => false
  | String c s' =>
    if escaped then closingQuote false s'
    else if Ascii.eqb c "\" then closingQuote true s'
    else if Ascii.eqb c "034" then true
    else closingQuote false s'
  end.

(** A search text: [x], a backslash and a quote. *)
Definition backslashQuote : string := "x\" ++ quote.

(** The free-text clause of a search. *)
Definition textClause (query : string) : string :=
  "(summary ~ " ++ quote ++ escapeJQL query ++ quote
  ++ " OR description ~ " ++ quote ++ escapeJQL query ++ quote ++ ")".

(** The project a query is restricted to: the filter, or the configured
    default when the filter is blank. *)
Definition projectOf (settings : config.Settings) (filter : string) : string :=
  if String.eqb (strings.TrimSpace filter) ""
  then config.ProjectKey (config.Jira settings)
  else strings.TrimSpace filter.

Definition projectClause (project : string) : list string :=
  if String.eqb project "" then [] else ["project = " ++ project].

Definition assigneeClause (assignee : string) : list string :=
  if String.eqb assignee "" then []
  else if String.eqb assignee "me" then ["assignee = currentUser()"]
       else ["assignee = " ++ quote ++ assignee ++ quote].

Definition statusClause (status : string) : list string :=
  if String.eqb status "" then [] else ["status = " ++ quote ++ status ++ quote].

(** The clauses [search] adds after the text clause, in order: project,
    assignee, status; an absent filter adds none. *)
Definition filterClauses (settings : config.Settings) (opts : searchOptions)
  : list string :=
  (projectClause (projectOf settings (Project opts))
   ++ assigneeClause (Assignee opts)
   ++ statusClause (Status opts))%list.

(** The query [search] sends. *)
Definition searchJQL (settings : config.Settings) (opts : searchOptions) : string :=
  strings.Join (textClause (Query opts) :: filterClauses settings opts) " AND ".


(** ** Sample worlds, for concrete runs *)

Definition sampleTicket : models.JiraTicket :=
  {| models.Key := "TEST-1";
     models.Fields :=
       {| models.Summary := "Implement widget";
          models.Description := "";
          models.Status := {| models.Name := "To Do" |};
          models.Assignee := None |} |}.

Definition sampleSettings (provider : string) : config.Settings :=
  {| config.Jira :=
       {| config.URL := "https://jira.example.com";
          config.Email := "dev@example.com";
          config.ProjectKey := "TEST";
          config.Auth := {| config.AuthType := "api_token";
                            config.AuthToken := "token" |} |};
     config.Git :=
       {| config.Provider := provider;
          config.BaseURL := "https://gitlab.example.com";
          config.Token := "git-token";
          config.Owner := "owner";
          config.Repo := "repo" |};
     config.Prefs :=
       {| config.BranchPrefix := "feat";
          config.DefaultTransition := "In Progress" |} |}.

(** A world in which everything succeeds except what the arguments say:
    the provider configured, the branch checked out, whether the tree is
    clean, what the tracker answers to a status update and to a query. *)
Definition sampleWorld (provider branch : string) (clean : bool)
           (update : reply unit) (found : list models.JiraTicket) : World :=
  {| configLoad := Loaded (sampleSettings provider);
     gitNewClient := Done "/home/dev/project";
     gitCurrentBranch := Done branch;
     gitIsClean := Done clean;
     gitCreateBranch := fun _ => Done tt;
     gitPush := fun _ => Done tt;
     gitCommit := fun _ => Done tt;
     jiraGetTicket := fun _ => Done sampleTicket;
     jiraUpdateStatus := fun _ _ => update;
     jiraSearchWithJQL := fun _ _ => Done found;
     gitHubCreatePullRequest := fun _ _ _ _ => Done "https://github.example.com/pr/1";
     gitLabCreateMergeRequest := fun _ _ _ _ _ => Done "https://gitlab.example.com/mr/1";
     jsonMarshalIndent := fun _ => Done "[]";
     stdinReadString := Done nl |}.

Definition sampleSearch (query assignee : string) (limit : Z) : searchOptions :=
  {| Query := query; Assignee := assignee; Status := ""; Project := "";
     Limit := limit; Interactive := false |}.

(* ================================================================= *)
(** * More of the repository: the embedding *)

(** ** More of package [strings], and [bufio.Scanner] *)

Module stringsMore.

Definition HasPrefix (s prefix : string) : bool := String.prefix prefix s.

(** [strings.HasSuffix(s, suffix)]: long enough, and the last bytes are
    the suffix. *)
Definition HasSuffix (s suffix : string) : bool :=
  (String.length suffix <=? String.length s)%nat
  && String.eqb
       (String.substring (String.length s - String.length suffix)
                         (String.length suffix) s)
       suffix.

Definition TrimPrefix (s prefix : string) : string :=
  if HasPrefix s prefix
  then String.substring (String.length prefix)
                        (String.length s - String.length prefix) s
  else s.

Definition TrimSuffix (s suffix : string) : string :=
  if HasSuffix s suffix
  then String.substring 0 (String.length s - String.length suffix) s
  else s.

(** The pieces of [strings.SplitN] for a non-empty separator: [n] pieces
    may still be made, the last of them being all that is left. *)
Fixpoint splitNFrom (sep : string) (n skip : nat) (cur s : string) : list string :=
  match s with
  | EmptyString => [cur]
  | String c s' =>
    match skip with
    | S k => splitNFrom sep n k cur s'
    | O =>
      match n with
      | 0%nat | 1%nat => [cur ++ s]
      | S n' =>
        if String.prefix sep s
        then cur :: splitNFrom sep n' (String.length sep - 1) "" s'
        else splitNFrom sep n 0 (cur ++ String c "") s'
      end
    end
  end.

(** [explode]: up to [n] strings of one UTF-8 sequence each, the last
    holding what is left; an invalid byte is a piece of its own. *)
Fixpoint explode (rs : list (N * string)) (n : nat) : list string :=
  match rs, n with
  | [], _ => []
  | _, O => []
  | _ :: _, 1%nat => [String.concat "" (map snd rs)]
  | (_, c) :: rs', S n' => c :: explode rs' n'
  end.

(** [strings.SplitN(s, sep, n)]: nothing for [n = 0], every piece for a
    negative [n], at most [n] pieces otherwise. *)
Definition SplitN (s sep : string) (n : Z) : list string :=
  if (n =? 0)%Z then []
  else
    match sep with
    | EmptyString =>
      explode (utf8.decode s)
              (if (n <? 0)%Z then List.length (utf8.decode s) else Z.to_nat n)
    | _ =>
      if (n <? 0)%Z then strings.splitFrom sep 0 "" s
      else splitNFrom sep (Z.to_nat n) 0 "" s
    end.

End stringsMore.

Module bufio.

Definition MaxScanTokenSize : N := 65536.

(** The error of a scanner whose buffer is full without a token. *)
Definition ErrTooLong : error := errorsNew "bufio.Scanner: token too long".

(** [dropCR]: a line without its final carriage return. *)
Definition dropCR (data : string) : string :=
  if stringsMore.HasSuffix data (String "013" "")
  then String.substring 0 (String.length data - 1) data
  else data.

(** The lines [ScanLines] finds in a text, each still with its carriage
    return: the pieces between newlines, without the empty piece after a
    final newline. *)
Definition rawLines (text : string) : list string :=
  let pieces := strings.Split text (String "010" "") in
  if String.eqb (last pieces "") "" then removelast pieces else pieces.

(** A line the scanner can hold: with its newline it fits the buffer. *)
Definition fits (line : string) : bool :=
  (N.of_nat (String.length line) <? MaxScanTokenSize)%N.

End bufio.

(** ** internal/config: reading and writing the settings file *)

Module configfile.

Definition zeroAuth : config.AuthMethod :=
  {| config.AuthType := ""; config.AuthToken := "" |}.

(** [&Settings{}]. *)
Definition zeroSettings : config.Settings :=
  {| config.Jira := {| config.URL := ""; config.Email := "";
                       config.ProjectKey := ""; config.Auth := zeroAuth |};
     config.Git := {| config.Provider := ""; config.BaseURL := "";
                      config.Token := ""; config.Owner := ""; config.Repo := "" |};
     config.Prefs := {| config.BranchPrefix := "";
                        config.DefaultTransition := "" |} |}.

(** Assignments to one field of the settings. *)
Definition withJira (s : config.Settings) (j : config.JiraConfig) : config.Settings :=
  {| config.Jira := j; config.Git := config.Git s; config.Prefs := config.Prefs s |}.
Definition withGit (s : config.Settings) (g : config.GitConfig) : config.Settings :=
  {| config.Jira := config.Jira s; config.Git := g; config.Prefs := config.Prefs s |}.
Definition withPrefs (s : config.Settings) (p : config.Preferences) : config.Settings :=
  {| config.Jira := config.Jira s; config.Git := config.Git s; config.Prefs := p |}.

Definition setURL (s : config.Settings) (v : string) : config.Settings :=
  let j := config.Jira s in
  withJira s {| config.URL := v; config.Email := config.Email j;
                config.ProjectKey := config.ProjectKey j;
                config.Auth := config.Auth j |}.
Definition setEmail (s : config.Settings) (v : string) : config.Settings :=
  let j := config.Jira s in
  withJira s {| config.URL := config.URL j; config.Email := v;
                config.ProjectKey := config.ProjectKey j;
                config.Auth := config.Auth j |}.
Definition setProjectKey (s : config.Settings) (v : string) : config.Settings :=
  let j := config.Jira s in
  withJira s {| config.URL := config.URL j; config.Email := config.Email j;
                config.ProjectKey := v; config.Auth := config.Auth j |}.
Definition setAuth (s : config.Settings) (a : config.AuthMethod) : config.Settings :=
  let j := config.Jira s in
  withJira s {| config.URL := config.URL j; config.Email := config.Email j;
                config.ProjectKey := config.ProjectKey j; config.Auth := a |}.
Definition setAuthType (s : config.Settings) (v : string) : config.Settings :=
  setAuth s {| config.AuthType := v;
               config.AuthToken := config.AuthToken (config.Auth (config.Jira s)) |}.
Definition setAuthToken (s : config.Settings) (v : string) : config.Settings :=
  setAuth s {| config.AuthType := config.AuthType (config.Auth (config.Jira s));
               config.AuthToken := v |}.
Definition setProvider (s : config.Settings) (v : string) : config.Settings :=
  let g := config.Git s in
  withGit s {| config.Provider := v; config.BaseURL := config.BaseURL g;
               config.Token := config.Token g; config.Owner := config.Owner g;
               config.Repo := config.Repo g |}.
Definition setBaseURL (s : config.Settings) (v : string) : config.Settings :=
  let g := config.Git s in
  withGit s {| config.Provider := config.Provider g; config.BaseURL := v;
               config.Token := config.Token g; config.Owner := config.Owner g;
               config.Repo := config.Repo g |}.
Definition setToken (s : config.Settings) (v : string) : config.Settings :=
  let g := config.Git s in
  withGit s {| config.Provider := config.Provider g; config.BaseURL := config.BaseURL g;
               config.Token := v; config.Owner := config.Owner g;
               config.Repo := config.Repo g |}.
Definition setOwner (s : config.Settings) (v : string) : config.Settings :=
  let g := config.Git s in
  withGit s {| config.Provider := config.Provider g; config.BaseURL := config.BaseURL g;
               config.Token := config.Token g; config.Owner := v;
               config.Repo := config.Repo g |}.
Definition setRepo (s : config.Settings) (v : string) : config.Settings :=
  let g := config.Git s in
  withGit s {| config.Provider := config.Provider g; config.BaseURL := config.BaseURL g;
               config.Token := config.Token g; config.Owner := config.Owner g;
               config.Repo := v |}.
Definition setBranchPrefix (s : config.Settings) (v : string) : config.Settings :=
  withPrefs s {| config.BranchPrefix := v;
                 config.DefaultTransition :=
                   config.DefaultTransition (config.Prefs s) |}.
Definition setDefaultTransition (s : config.Settings) (v : string) : config.Settings :=
  withPrefs s {| config.BranchPrefix := config.BranchPrefix (config.Prefs s);
                 config.DefaultTransition := v |}.

Definition assignJiraField (s : config.Settings) (key value : string) : config.Settings :=
  if String.eqb key "url" then setURL s value
  else if String.eqb key "email" then setEmail s value
  else if String.eqb key "project_key" then setProjectKey s value
  else s.

Definition assignJiraAuthField (s : config.Settings) (key value : string)
  : config.Settings :=
  if String.eqb key "type" then setAuthType s value
  else if String.eqb key "token" then setAuthToken s value
  else s.

Definition assignGitField (s : config.Settings) (key value : string) : config.Settings :=
  if String.eqb key "provider" then setProvider s value
  else if String.eqb key "base_url" then setBaseURL s value
  else if String.eqb key "token" then setToken s value
  else if String.eqb key "owner" then setOwner s value
  else if String.eqb key "repo" then setRepo s value
  else s.

Definition assignPreferencesField (s : config.Settings) (key value : string)
  : config.Settings :=
  if String.eqb key "branch_prefix" then setBranchPrefix s value
  else if String.eqb key "default_transition" then setDefaultTransition s value
  else s.

Definition parseValue (raw : string) : string :=
  let trimmed := strings.TrimSpace raw in
  let trimmed := stringsMore.TrimPrefix trimmed app.quote in
  let trimmed := stringsMore.TrimSuffix trimmed app.quote in
  trimmed.

(** The body of the loop of [parseTOML] for one line: the section and the
    settings after it. *)
Definition parseLine (section : string) (settings : config.Settings) (text : string)
  : string * config.Settings :=
  let line := strings.TrimSpace text in
  if String.eqb line "" || stringsMore.HasPrefix line "#" then (section, settings)
  else if stringsMore.HasPrefix line "[" && stringsMore.HasSuffix line "]" then
    (strings.TrimSpace (String.substring 1 (String.length line - 1 - 1) line),
     settings)
  else
    let parts := stringsMore.SplitN line "=" 2 in
    if negb (List.length parts =? 2)%nat then (section, settings)
    else
      let key := strings.TrimSpace (nth 0 parts "") in
      let value := parseValue (nth 1 parts "") in
      (section,
       if String.eqb section "jira" then assignJiraField settings key value
       else if String.eqb section "jira.auth_method"
            then assignJiraAuthField settings key value
       else if String.eqb section "git" then assignGitField settings key value
       else if String.eqb section "preferences"
            then assignPreferencesField settings key value
       else settings).

(** [for scanner.Scan()]: the lines in turn; a line too long for the
    scanner ends the loop with the scanner's error. *)
Fixpoint scanLoop (lines : list string) (section : string)
         (settings : config.Settings) : config.Settings * option error :=
  match lines with
  | [] => (settings, None)
  | raw :: rest =>
    if bufio.fits raw then
      let next := parseLine section settings (bufio.dropCR raw) in
      scanLoop rest (fst next) (snd next)
    else (settings, Some bufio.ErrTooLong)
  end.

(** [parseTOML(contents, settings)]: the settings as the lines leave them,
    and the error returned. *)
Definition parseTOML (contents : string) (settings : config.Settings)
  : config.Settings * option error :=
  match scanLoop (bufio.rawLines contents) "" settings with
  | (settings', Some err) =>
    (settings', Some (errorsNew ("parse config: " ++ Error err)))
  | done => done
  end.

Definition escape (value : string) : string :=
  let value := strings.ReplaceAll value "\" "\\" in
  let value := strings.ReplaceAll value app.quote ("\" ++ app.quote) in
  value.

(** [fmt.Sprintf] of a format [key = "%s"] followed by [ending]. *)
Definition entry (key value ending : string) : string :=
  key ++ " = " ++ app.quote ++ escape value ++ app.quote ++ ending.

Definition toTOML (s : config.Settings) : string :=
  let j := config.Jira s in
  let g := config.Git s in
  let p := config.Prefs s in
  let nl := app.nl in
  ("[jira]" ++ nl)
  ++ entry "url" (config.URL j) nl
  ++ entry "email" (config.Email j) nl
  ++ entry "project_key" (config.ProjectKey j) (nl ++ nl)
  ++ ("[jira.auth_method]" ++ nl)
  ++ entry "type" (config.AuthType (config.Auth j)) nl
  ++ entry "token" (config.AuthToken (config.Auth j)) (nl ++ nl)
  ++ ("[git]" ++ nl)
  ++ entry "provider" (config.Provider g) nl
  ++ entry "base_url" (config.BaseURL g) nl
  ++ entry "token" (config.Token g) nl
  ++ (if negb (String.eqb (config.Owner g) "")
      then entry "owner" (config.Owner g) nl else "")
  ++ (if negb (String.eqb (config.Repo g) "")
      then entry "repo" (config.Repo g) nl else "")
  ++ nl
  ++ ("[preferences]" ++ nl)
  ++ entry "branch_prefix" (config.BranchPrefix p) nl
  ++ entry "default_transition" (config.DefaultTransition p) nl
  ++ nl.

(** What reading the settings file gives. *)
Inductive readReply : Type :=
| NoHome (msg : string)          (* os.UserHomeDir fails *)
| NotExist                       (* os.IsNotExist *)
| ReadError (msg : string)
| FileContents (data : string).

(** [config.Load()]. *)
Definition Load (file : readReply) : result config.Settings :=
  match file with
  | NoHome msg => Fail (errorsNew ("resolve home dir: " ++ msg))
  | NotExist => Fail ErrConfigNotFound
  | ReadError msg => Fail (errorsNew ("read config: " ++ msg))
  | FileContents data =>
    match parseTOML data zeroSettings with
    | (_, Some err) => Fail err
    | (settings, None) => Ok settings
    end
  end.

End configfile.

(** *** The settings on disk and the command [config set] *)

Module configcmd.
Import app.

(** What writing the file answers: all of the text reached the file, or
    only its first [written] bytes did. *)
Inductive writeReply : Type :=
| Written
| WriteFailed (msg : string) (written : nat).

(** The answers of the operating system to one command. *)
Record Env : Type := {
  userHomeDir : reply string;        (* os.UserHomeDir *)
  readFault : option string;         (* os.ReadFile fails on a file that exists *)
  mkdirAll : reply unit;             (* os.MkdirAll *)
  openFile : reply unit;             (* os.OpenFile, create and truncate *)
  writeString : writeReply;          (* file.WriteString *)
  chmod : reply unit                 (* file.Chmod *)
}.

(** The settings file: absent, or its contents. *)
Definition Disk : Type := option string.

Definition readFile (env : Env) (disk : Disk) : configfile.readReply :=
  match userHomeDir env with
  | Refused msg => configfile.NoHome msg
  | Done _ =>
    match disk with
    | None => configfile.NotExist
    | Some data =>
      match readFault env with
      | Some msg => configfile.ReadError msg
      | None => configfile.FileContents data
      end
    end
  end.

(** [config.Load()] on a disk. *)
Definition Load (env : Env) (disk : Disk) : result config.Settings :=
  configfile.Load (readFile env disk).

(** [Settings.Save()]: the disk afterwards and the error returned. *)
Definition Save (env : Env) (s : config.Settings) (disk : Disk)
  : Disk * option error :=
  match userHomeDir env with
  | Refused msg => (disk, Some (errorsNew ("resolve home dir: " ++ msg)))
  | Done _ =>
    match mkdirAll env with
    | Refused msg => (disk, Some (errorsNew ("create config dir: " ++ msg)))
    | Done _ =>
      match openFile env with
      | Refused msg => (disk, Some (errorsNew ("write config: " ++ msg)))
      | Done _ =>
        match writeString env with
        | WriteFailed msg written =>
          (Some (String.substring 0 written (configfile.toTOML s)),
           Some (errorsNew ("write config: " ++ msg)))
        | Written =>
          match chmod env with
          | Refused msg =>
            (Some (configfile.toTOML s),
             Some (errorsNew ("chmod config: " ++ msg)))
          | Done _ => (Some (configfile.toTOML s), None)
          end
        end
      end
    end
  end.

(** [loadSettings()]. *)
Definition loadSettings (env : Env) (disk : Disk) : result config.Settings :=
  match Load env disk with
  | Fail ErrConfigNotFound =>
    Fail (errorsNew "configuration not found. Run 'devflow init' first")
  | Fail err => Fail err
  | Ok settings => Ok settings
  end.

Definition updateConfigValue (settings : config.Settings) (key value : string)
  : result config.Settings :=
  let parts := strings.Split key "." in
  if negb (List.length parts =? 2)%nat then
    Fail (errorsNew "invalid key format. Use section.field (e.g., jira.email)")
  else
    let section := nth 0 parts "" in
    let field := nth 1 parts "" in
    if String.eqb section "jira" then
      if String.eqb field "url" then Ok (configfile.setURL settings value)
      else if String.eqb field "email" then Ok (configfile.setEmail settings value)
      else if String.eqb field "project_key"
           then Ok (configfile.setProjectKey settings value)
      else if String.eqb field "token"
           then Ok (configfile.setAuthToken settings value)
      else if String.eqb field "auth_method"
           then Ok (configfile.setAuthType settings value)
      else Fail (errorsNew ("unknown jira field: " ++ field))
    else if String.eqb section "git" then
      if String.eqb field "provider" then Ok (configfile.setProvider settings value)
      else if String.eqb field "base_url"
           then Ok (configfile.setBaseURL settings value)
      else if String.eqb field "token" then Ok (configfile.setToken settings value)
      else if String.eqb field "owner" then Ok (configfile.setOwner settings value)
      else if String.eqb field "repo" then Ok (configfile.setRepo settings value)
      else Fail (errorsNew ("unknown git field: " ++ field))
    else if String.eqb section "preferences" then
      if String.eqb field "branch_prefix"
      then Ok (configfile.setBranchPrefix settings value)
      else if String.eqb field "default_transition"
           then Ok (configfile.setDefaultTransition settings value)
      else Fail (errorsNew ("unknown preferences field: " ++ field))
    else Fail (errorsNew ("unknown configuration section: " ++ section)).

(** [handleConfigSet(key, value)]: the disk afterwards, what is printed
    and the error returned. *)
Definition handleConfigSet (env : Env) (disk : Disk) (key value : string)
  : Disk * M unit :=
  match loadSettings env disk with
  | Fail err => (disk, fail err)
  | Ok settings =>
    match updateConfigValue settings key value with
    | Fail err => (disk, fail err)
    | Ok settings =>
      match Save env settings disk with
      | (disk', Some err) => (disk', fail err)
      | (disk', None) =>
        (disk',
         Println (utils.Green (utils.Bold
           ("✓ Updated " ++ key ++ " to: " ++ value))))
      end
    end
  end.

End configcmd.

(** *** The tracker client: [UpdateStatus] *)

Module jira.
Import app.

Record Transition : Type := { ID : string; Name : string }.

(** The requests [UpdateStatus] sends; the body of the second is the JSON
    object that holds the transition's id. *)
Inductive request : Type :=
| Get (url : string)
| Post (url : string) (transitionID : string).

(** What [http.Client.Do] and [io.ReadAll] answer. *)
Inductive httpReply : Type :=
| TransportError (msg : string)
| BodyError (msg : string)
| Response (status : Z) (body : string).

Record Server : Type := {
  newRequest : string -> reply unit;              (* http.NewRequest on the address *)
  roundTrip : request -> httpReply;
  unmarshal : string -> reply (list Transition)   (* json.Unmarshal of the body *)
}.

Section Client.
(** [strings.EqualFold]: equality under Unicode case folding. *)
Variable EqualFold : string -> string -> bool.
Variable server : Server.

(** [(c *Client) do(req, handler)]. *)
Definition do {A} (req : request) (handler : string -> result A) : result A :=
  match roundTrip server req with
  | TransportError msg => Fail (gatewayErr FromJira msg)
  | BodyError msg => Fail (gatewayErr FromJira msg)
  | Response status body =>
    if ((status <? 200) || (status >=? 300))%Z
    then Fail (errorsNew ("jira api error (" ++ strconv.Itoa status ++ "): " ++ body))
    else handler body
  end.

(** [doJSON(req, &result)] for the list of transitions. *)
Definition doJSON (req : request) : result (list Transition) :=
  do req (fun body =>
            match unmarshal server body with
            | Done v => Ok v
            | Refused msg => Fail (errorsNew ("parse response: " ++ msg))
            end).

(** The loop over [result.Transitions], with its [break]. *)
Fixpoint pick (transitions : list Transition) (transitionName : string) : string :=
  match transitions with
  | [] => ""
  | t :: rest =>
    if EqualFold (Name t) transitionName then ID t else pick rest transitionName
  end.

(** [UpdateStatus(ticketID, transitionName)] of a client with this base
    address and API version: the requests sent and the error. *)
Definition UpdateStatus (baseURL apiVersion ticketID transitionName : string)
  : list request * result unit :=
  let url := baseURL ++ "/rest/api/" ++ apiVersion ++ "/issue/" ++ ticketID
             ++ "/transitions" in
  match newRequest server url with
  | Refused msg => ([], Fail (gatewayErr FromJira msg))
  | Done _ =>
    match doJSON (Get url) with
    | Fail err => ([Get url], Fail err)
    | Ok transitions =>
      let transitionID := pick transitions transitionName in
      if String.eqb transitionID "" then
        ([Get url],
         Fail (errorsNew ("transition '" ++ transitionName ++ "' not found")))
      else
        match newRequest server url with
        | Refused msg => ([Get url], Fail (gatewayErr FromJira msg))
        | Done _ =>
          ([Get url; Post url transitionID],
           do (Post url transitionID) (fun _ => Ok tt))
        end
    end
  end.

End Client.
End jira.

(** *** net/url and strings: what [open] uses *)

Module url.

Definition upperhex (n : N) : ascii :=
  if (n <? 10)%N then ascii_of_N (48 + n) else ascii_of_N (55 + n).

(** [shouldEscape(c, encodeQueryComponent)]: letters, digits and
    [-_.~] are kept. *)
Definition shouldEscape (c : ascii) : bool :=
  let n := N_of_ascii c in
  negb (((97 <=? n) && (n <=? 122))%N || ((65 <=? n) && (n <=? 90))%N
        || ((48 <=? n) && (n <=? 57))%N
        || Ascii.eqb c "-" || Ascii.eqb c "_" || Ascii.eqb c "."
        || Ascii.eqb c "~").

(** [url.QueryEscape(s)]. *)
Fixpoint QueryEscape (s : string) : string :=
  match s with
  | EmptyString => ""
  | String c s' =>
    if shouldEscape c then
      if Ascii.eqb c " " then String "+" (QueryEscape s')
      else String "%" (String (upperhex (N.shiftr (N_of_ascii c) 4))
                              (String (upperhex (N.land (N_of_ascii c) 15))
                                      (QueryEscape s')))
    else String c (QueryEscape s')
  end.

End url.

Module stringsOpen.

(** [strings.Replace(s, old, new, 1)]: the first occurrence only. *)
Fixpoint replaceFirst (old new s : string) : string :=
  match s with
  | EmptyString => ""
  | String c s' =>
    if String.prefix old s
    then new ++ String.substring (String.length old) (String.length s) s
    else String c (replaceFirst old new s')
  end.

Definition Replace1 (s old new : string) : string :=
  match old with
  | EmptyString => new ++ s
  | _ => replaceFirst old new s
  end.

End stringsOpen.

(** *** commands.go: [status], [open], [config validate], [test-jira] *)

Module appMore.
Import app.

(** What starting the browser answers. *)
Inductive openReply : Type :=
| Opened
| StartFailed (msg : string)      (* cmd.Start fails *)
| WaitFailed (msg : string).      (* cmd.Wait fails *)

Record World : Type := {
  base : app.World;
  gitStatusSummary : reply string;
  jiraTestConnection : reply unit;
  openCommand : string -> openReply
}.

(** The events of [app], and those of the calls only these commands
    make. *)
Inductive event : Type :=
| Base (e : app.event)
| GitStatusSummary
| JiraTestConnection
| OpenURL (target : string).

Definition M (A : Type) : Type := (list event * result A)%type.

Definition ret {A} (a : A) : M A := ([], Ok a).

Definition bind {A B} (m : M A) (k : A -> M B) : M B :=
  let rest :=
    match snd m with
    | Ok a => k a
    | Fail e => ([], Fail e)
    end in
  ((fst m ++ fst rest)%list, snd rest).

Definition fail {A} (e : error) : M A := ([], Fail e).

Definition attempt {A} (m : M A) : M (result A) := (fst m, Ok (snd m)).

(** A command of [app] run here. *)
Definition lift {A} (m : app.M A) : M A := (map Base (fst m), snd m).

Definition call {A} (e : event) (g : gateway) (r : reply A) : M A :=
  ([e], match r with
        | Done a => Ok a
        | Refused msg => Fail (gatewayErr g msg)
        end).

Definition trace {A} (m : M A) : list event := fst m.
Definition outcome {A} (m : M A) : result A := snd m.

Declare Scope more_scope.
Delimit Scope more_scope with more.
Notation "x <- m ;; k" := (bind m (fun x => k))
  (at level 61, m at next level, right associativity) : more_scope.
Notation "m ;; k" := (bind m (fun _ => k))
  (at level 61, right associativity) : more_scope.
Local Open Scope more_scope.

Definition Println (s : string) : M unit := lift (app.Println s).
Definition Print (s : string) : M unit := lift (app.Print s).

Section Commands.
Context {U : UnicodeTables}.
Variable w : World.

(** [utils.OpenURL(target)]; the error of [cmd.Wait] is handed on as it
    is. *)
Definition OpenURL_ (target : string) : M unit :=
  ([OpenURL target],
   match openCommand w target with
   | Opened => Ok tt
   | StartFailed msg => Fail (errorsNew ("open url: " ++ msg))
   | WaitFailed msg => Fail (errorsNew msg)
   end).

Definition git_NewClient : M string := lift (app.git_NewClient (base w)).

Definition CurrentBranch : M string :=
  lift (app.call GitCurrentBranch FromGit (gitCurrentBranch (base w))).

Definition handleStatus : M unit :=
  Println (utils.Cyan "Current Status") ;;
  Println "" ;;
  client <- attempt git_NewClient ;;
  match client with
  | Fail err =>
    Println (utils.Yellow "  Not in a git repository") ;;
    Println (utils.Dim ("  " ++ Error err)) ;;
    ret tt
  | Ok _ =>
    branch <- attempt CurrentBranch ;;
    match branch with
    | Ok branch =>
      Print ("  " ++ utils.Bold "Branch:" ++ " " ++ utils.BrightWhite branch ++ nl)
    | Fail err =>
      Print ("  " ++ utils.Bold "Branch:" ++ " " ++ utils.Red (Error err) ++ nl)
    end ;;
    summary <- attempt (call GitStatusSummary FromGit (gitStatusSummary w)) ;;
    match summary with
    | Ok summary =>
      Print (nl ++ "  " ++ utils.Bold "Status" ++ ":" ++ nl ++ summary ++ nl)
    | Fail err =>
      Print ("  " ++ utils.Bold "Status:" ++ " " ++ utils.Red (Error err) ++ nl)
    end ;;
    ret tt
  end.

(** The assignment to [ticketID] of [handleOpen] when none is given. *)
Definition ticketOfBranch : M string :=
  _ <- git_NewClient ;;
  branch <- CurrentBranch ;;
  match utils.ExtractTicketID branch with
  | Fail err => fail err
  | Ok ticketID => ret ticketID
  end.

Definition handleOpen (ticketID : string) (openPR openBoard : bool) : M unit :=
  settings <- lift (app.loadSettings (base w)) ;;
  if openBoard then
    let boardURL :=
      config.URL (config.Jira settings) ++ "/jira/software/projects/"
      ++ config.ProjectKey (config.Jira settings) ++ "/boards" in
    Print (utils.Dim "Opening board:" ++ " " ++ utils.BrightWhite boardURL ++ nl) ;;
    OpenURL_ boardURL
  else
    ticketID <- (if String.eqb ticketID "" then ticketOfBranch else ret ticketID) ;;
    if openPR then
      _ <- git_NewClient ;;
      branch <- CurrentBranch ;;
      let g := config.Git settings in
      let provider := strings.ToLower (config.Provider g) in
      if String.eqb provider "github" then
        if String.eqb (config.Owner g) "" || String.eqb (config.Repo g) ""
        then fail (errorsNew "GitHub owner/repo not configured")
        else
          let base :=
            stringsOpen.Replace1 (stringsMore.TrimSuffix (config.BaseURL g) "/")
                                 "api." "" in
          let prURL :=
            base ++ "/" ++ config.Owner g ++ "/" ++ config.Repo g
            ++ "/pulls?q=is%3Apr+head%3A" ++ url.QueryEscape branch in
          Print (utils.Dim "Opening PR:" ++ " " ++ utils.BrightWhite prURL ++ nl) ;;
          OpenURL_ prURL
      else if String.eqb provider "gitlab" then
        let prURL :=
          stringsMore.TrimSuffix (config.BaseURL g) "/"
          ++ "/merge_requests?scope=all&state=opened&source_branch="
          ++ url.QueryEscape branch in
        Print (utils.Dim "Opening MR:" ++ " " ++ utils.BrightWhite prURL ++ nl) ;;
        OpenURL_ prURL
      else fail (errorsNew ("unsupported git provider: " ++ provider))
    else
      let ticketURL :=
        config.URL (config.Jira settings) ++ "/browse/" ++ ticketID in
      Print (utils.Dim "Opening ticket:" ++ " " ++ utils.BrightWhite ticketURL ++ nl) ;;
      OpenURL_ ticketURL.

Definition handleConfigValidate : M unit :=
  settings <- lift (app.loadSettings (base w)) ;;
  Println (utils.Cyan (utils.Bold "Validating configuration...")) ;;
  Println "" ;;
  Print (utils.Dim "  Testing Jira connection... ") ;;
  lift (app.jiraFactory settings) ;;
  tested <- attempt (call JiraTestConnection FromJira (jiraTestConnection w)) ;;
  match tested with
  | Fail err =>
    Println (utils.Red "✗") ;;
    Println (utils.Yellow ("  Jira validation failed: " ++ Error err))
  | Ok _ => Println (utils.Green "✓")
  end ;;
  (if String.eqb (config.Token (config.Git settings)) ""
   then Println (utils.Yellow "  Warning: Git token is empty")
   else Println (utils.Dim "  Git token configured")) ;;
  ret tt.

Definition handleTestJira (ticketID jiraURL email token : string) : M unit :=
  if String.eqb ticketID "" || String.eqb jiraURL "" || String.eqb email ""
     || String.eqb token ""
  then fail (errorsNew "ticket id, url, email, and token are required")
  else
    lift (app.emit (JiraFactory jiraURL email
                      {| config.AuthType := "api_token";
                         config.AuthToken := token |})) ;;
    Println (utils.Cyan "Testing Jira API connection...") ;;
    Println "" ;;
    Println (utils.Dim ("  Fetching ticket " ++ ticketID ++ "...")) ;;
    ticket <- lift (app.GetTicket (base w) ticketID) ;;
    Println "" ;;
    Println (utils.Green (utils.Bold "✓ Successfully fetched ticket!")) ;;
    Println "" ;;
    Print ("  " ++ utils.Bold "Key:" ++ " " ++ utils.BrightWhite (models.Key ticket)
           ++ nl) ;;
    Print ("  " ++ utils.Bold "Summary:" ++ " " ++ summaryOf ticket ++ nl) ;;
    Print ("  " ++ utils.Bold "Status:" ++ " " ++ utils.Yellow (statusOf ticket)
           ++ nl) ;;
    match models.Assignee (models.Fields ticket) with
    | Some assignee =>
      Print ("  " ++ utils.Bold "Assignee:" ++ " " ++ models.DisplayName assignee
             ++ nl)
    | None => ret tt
    end ;;
    ret tt.

End Commands.
End appMore.

(** The keys [config set] knows. *)
Definition settableKeys : list string :=
  ["jira.url"; "jira.email"; "jira.project_key"; "jira.token"; "jira.auth_method";
   "git.provider"; "git.base_url"; "git.token"; "git.owner"; "git.repo";
   "preferences.branch_prefix"; "preferences.default_transition"].

(** An operating system on which nothing fails. *)
Definition soundEnv : configcmd.Env :=
  {| configcmd.userHomeDir := Done "/home/dev";
     configcmd.readFault := None;
     configcmd.mkdirAll := Done tt;
     configcmd.openFile := Done tt;
     configcmd.writeString := configcmd.Written;
     configcmd.chmod := Done tt |}.


(** On [soundEnv], but the write stops after [written] bytes. *)
Definition diskFull (written : nat) : configcmd.Env :=
  {| configcmd.userHomeDir := Done "/home/dev";
     configcmd.readFault := None;
     configcmd.mkdirAll := Done tt;
     configcmd.openFile := Done tt;
     configcmd.writeString := configcmd.WriteFailed "no space left on device" written;
     configcmd.chmod := Done tt |}.


(** ** The settings file: vocabulary *)

(** A line [key = "value"], without its newline. *)
Definition kv (key e : string) : string :=
  key ++ " = " ++ quote ++ e ++ quote.

(** Lines, each followed by a newline. *)
Fixpoint unlines (lines : list string) : string :=
  match lines with
  | [] => ""
  | l :: rest => l ++ nl ++ unlines rest
  end.

(** A key of the settings file: it begins with an ASCII byte that is no
    space and opens neither a comment nor a section, it holds no equals
    sign, it is at most 18 bytes long, and trimming leaves it as it is. *)
Definition plainKey (key : string) : bool :=
  match key with
  | EmptyString => false
  | String k0 _ =>
    (utf8.byteN k0 <? 0x80)%N && negb (unicode.IsSpace (utf8.byteN k0))
    && negb (Ascii.eqb k0 "#") && negb (Ascii.eqb k0 "[")
    && negb (hasByte "=" key)
    && negb (hasByte "010" key)
    && (String.length key <=? 18)%nat
    && String.eqb (strings.TrimSpace (key ++ " ")) key
  end.

(** A value that can be stored: it holds no newline and, escaped, leaves
    room on its line for the longest key (23 bytes with the quotes). *)
Definition storable (value : string) : bool :=
  negb (hasByte "010" value)
  && (N.of_nat (String.length (configfile.escape value)) <=? 65512)%N.

(** The twelve values of the settings. *)
Definition fieldsOf (s : config.Settings) : list string :=
  [config.URL (config.Jira s); config.Email (config.Jira s);
   config.ProjectKey (config.Jira s);
   config.AuthType (config.Auth (config.Jira s));
   config.AuthToken (config.Auth (config.Jira s));
   config.Provider (config.Git s); config.BaseURL (config.Git s);
   config.Token (config.Git s); config.Owner (config.Git s);
   config.Repo (config.Git s);
   config.BranchPrefix (config.Prefs s);
   config.DefaultTransition (config.Prefs s)].

(** The settings with [f] applied to each of the twelve values. *)
Definition mapFields (f : string -> string) (s : config.Settings) : config.Settings :=
  {| config.Jira :=
       {| config.URL := f (config.URL (config.Jira s));
          config.Email := f (config.Email (config.Jira s));
          config.ProjectKey := f (config.ProjectKey (config.Jira s));
          config.Auth :=
            {| config.AuthType := f (config.AuthType (config.Auth (config.Jira s)));
               config.AuthToken :=
                 f (config.AuthToken (config.Auth (config.Jira s))) |} |};
     config.Git :=
       {| config.Provider := f (config.Provider (config.Git s));
          config.BaseURL := f (config.BaseURL (config.Git s));
          config.Token := f (config.Token (config.Git s));
          config.Owner := f (config.Owner (config.Git s));
          config.Repo := f (config.Repo (config.Git s)) |};
     config.Prefs :=
       {| config.BranchPrefix := f (config.BranchPrefix (config.Prefs s));
          config.DefaultTransition :=
            f (config.DefaultTransition (config.Prefs s)) |} |}.

(** Every backslash doubled and every quote given a backslash. *)
Fixpoint escapeBytes (s : string) : string :=
  match s with
  | EmptyString => ""
  | String c s' =>
    if Ascii.eqb c "\" then String "\" (String "\" (escapeBytes s'))
    else if Ascii.eqb c "034" then String "\" (String "034" (escapeBytes s'))
    else String c (escapeBytes s')
  end.

(** The [switch section] of [parseTOML]. *)
Definition assignField (section key value : string) (s : config.Settings)
  : config.Settings :=
  if String.eqb section "jira" then configfile.assignJiraField s key value
  else if String.eqb section "jira.auth_method"
       then configfile.assignJiraAuthField s key value
  else if String.eqb section "git" then configfile.assignGitField s key value
  else if String.eqb section "preferences"
       then configfile.assignPreferencesField s key value
  else s.

(** The lines of the settings file, as [toTOML] writes them. *)
Definition tomlLines (s : config.Settings) : list string :=
  let j := config.Jira s in
  let g := config.Git s in
  let p := config.Prefs s in
  let e := configfile.escape in
  (["[jira]"; kv "url" (e (config.URL j)); kv "email" (e (config.Email j));
    kv "project_key" (e (config.ProjectKey j)); "";
    "[jira.auth_method]"; kv "type" (e (config.AuthType (config.Auth j)));
    kv "token" (e (config.AuthToken (config.Auth j))); "";
    "[git]"; kv "provider" (e (config.Provider g));
    kv "base_url" (e (config.BaseURL g)); kv "token" (e (config.Token g))]
   ++ (if negb (String.eqb (config.Owner g) "")
       then [kv "owner" (e (config.Owner g))] else [])
   ++ (if negb (String.eqb (config.Repo g) "")
       then [kv "repo" (e (config.Repo g))] else [])
   ++ [""; "[preferences]"; kv "branch_prefix" (e (config.BranchPrefix p));
       kv "default_transition" (e (config.DefaultTransition p)); ""])%list.

(** No value holds a quote or a backslash. *)
Definition plain (value : string) : bool :=
  negb (hasByte "\" value) && negb (hasByte "034" value).

(** Settings whose access token holds a backslash. *)
Definition backslashSettings : config.Settings :=
  configfile.setToken (sampleSettings "gitlab") "glpat\x".

(** A settings file whose only line is [n] bytes long. *)
Definition longFile (n : N) : string := strings.Repeat "a" (N.to_nat n) ++ nl.

(** ** Commands: more vocabulary *)

(** The error of a command run before [init]. *)
Definition initHint : error :=
  errorsNew "configuration not found. Run 'devflow init' first".

Definition isCleanCheck (e : event) : bool :=
  match e with GitIsClean => true | _ => false end.
Definition isPush (e : event) : bool :=
  match e with GitPush _ => true | _ => false end.
Definition isCommit (e : event) : bool :=
  match e with GitCommit _ => true | _ => false end.
Definition isBranchCreation (e : event) : bool :=
  match e with GitCreateBranch _ => true | _ => false end.
Definition isTicketFetch (e : event) : bool :=
  match e with JiraGetTicket _ => true | _ => false end.
Definition isStatusUpdate (e : event) : bool :=
  match e with JiraUpdateStatus _ _ => true | _ => false end.
Definition isRequest (e : event) : bool :=
  match e with
  | GitHubCreatePullRequest _ _ _ _ | GitLabCreateMergeRequest _ _ _ _ _ => true
  | _ => false
  end.

(** Every [later] event of the trace comes after some [first] event;
    [seen] says whether one has come already. *)
Fixpoint eachAfterFrom (first later : event -> bool) (seen : bool)
         (t : list event) : bool :=
  match t with
  | [] => true
  | e :: t' =>
    (negb (later e) || seen) && eachAfterFrom first later (seen || first e) t'
  end.

Definition eachAfter (first later : event -> bool) (t : list event) : bool :=
  eachAfterFrom first later false t.

(** A world with one answer changed. *)
Definition setConfigLoad (l : load_reply) (w : World) : World :=
  {| configLoad := l;
     gitNewClient := gitNewClient w;
     gitCurrentBranch := gitCurrentBranch w;
     gitIsClean := gitIsClean w;
     gitCreateBranch := gitCreateBranch w;
     gitPush := gitPush w;
     gitCommit := gitCommit w;
     jiraGetTicket := jiraGetTicket w;
     jiraUpdateStatus := jiraUpdateStatus w;
     jiraSearchWithJQL := jiraSearchWithJQL w;
     gitHubCreatePullRequest := gitHubCreatePullRequest w;
     gitLabCreateMergeRequest := gitLabCreateMergeRequest w;
     jsonMarshalIndent := jsonMarshalIndent w;
     stdinReadString := stdinReadString w |}.

Definition setGitPush (r : reply unit) (w : World) : World :=
  {| configLoad := configLoad w;
     gitNewClient := gitNewClient w;
     gitCurrentBranch := gitCurrentBranch w;
     gitIsClean := gitIsClean w;
     gitCreateBranch := gitCreateBranch w;
     gitPush := fun _ => r;
     gitCommit := gitCommit w;
     jiraGetTicket := jiraGetTicket w;
     jiraUpdateStatus := jiraUpdateStatus w;
     jiraSearchWithJQL := jiraSearchWithJQL w;
     gitHubCreatePullRequest := gitHubCreatePullRequest w;
     gitLabCreateMergeRequest := gitLabCreateMergeRequest w;
     jsonMarshalIndent := jsonMarshalIndent w;
     stdinReadString := stdinReadString w |}.

Definition setJiraGetTicket (r : reply models.JiraTicket) (w : World) : World :=
  {| configLoad := configLoad w;
     gitNewClient := gitNewClient w;
     gitCurrentBranch := gitCurrentBranch w;
     gitIsClean := gitIsClean w;
     gitCreateBranch := gitCreateBranch w;
     gitPush := gitPush w;
     gitCommit := gitCommit w;
     jiraGetTicket := fun _ => r;
     jiraUpdateStatus := jiraUpdateStatus w;
     jiraSearchWithJQL := jiraSearchWithJQL w;
     gitHubCreatePullRequest := gitHubCreatePullRequest w;
     gitLabCreateMergeRequest := gitLabCreateMergeRequest w;
     jsonMarshalIndent := jsonMarshalIndent w;
     stdinReadString := stdinReadString w |}.

Definition setGitCreateBranch (r : reply unit) (w : World) : World :=
  {| configLoad := configLoad w;
     gitNewClient := gitNewClient w;
     gitCurrentBranch := gitCurrentBranch w;
     gitIsClean := gitIsClean w;
     gitCreateBranch := fun _ => r;
     gitPush := gitPush w;
     gitCommit := gitCommit w;
     jiraGetTicket := jiraGetTicket w;
     jiraUpdateStatus := jiraUpdateStatus w;
     jiraSearchWithJQL := jiraSearchWithJQL w;
     gitHubCreatePullRequest := gitHubCreatePullRequest w;
     gitLabCreateMergeRequest := gitLabCreateMergeRequest w;
     jsonMarshalIndent := jsonMarshalIndent w;
     stdinReadString := stdinReadString w |}.

Definition setStdin (r : reply string) (w : World) : World :=
  {| configLoad := configLoad w;
     gitNewClient := gitNewClient w;
     gitCurrentBranch := gitCurrentBranch w;
     gitIsClean := gitIsClean w;
     gitCreateBranch := gitCreateBranch w;
     gitPush := gitPush w;
     gitCommit := gitCommit w;
     jiraGetTicket := jiraGetTicket w;
     jiraUpdateStatus := jiraUpdateStatus w;
     jiraSearchWithJQL := jiraSearchWithJQL w;
     gitHubCreatePullRequest := gitHubCreatePullRequest w;
     gitLabCreateMergeRequest := gitLabCreateMergeRequest w;
     jsonMarshalIndent := jsonMarshalIndent w;
     stdinReadString := r |}.

(** ** [status], [open], [config validate], [test-jira]: vocabulary *)

(** Events of [status]: output and questions to the version-control
    client. *)
Definition readsOnlyGit (e : appMore.event) : bool :=
  match e with
  | appMore.Base (Stdout _) | appMore.Base GitNewClient
  | appMore.Base GitCurrentBranch | appMore.GitStatusSummary => true
  | _ => false
  end.

(** Events that ask the version-control client. *)
Definition asksGit (e : appMore.event) : bool :=
  match e with
  | appMore.Base GitNewClient | appMore.Base GitCurrentBranch
  | appMore.GitStatusSummary => true
  | _ => false
  end.

Definition opensURL (e : appMore.event) : bool :=
  match e with appMore.OpenURL _ => true | _ => false end.

Definition loadsSettings (e : appMore.event) : bool :=
  match e with appMore.Base ConfigLoad => true | _ => false end.

(** Events that change the repository, the tracker's tickets or a code
    host. *)
Definition changesSomething (e : appMore.event) : bool :=
  match e with
  | appMore.Base e' =>
    vcMutation e' || hostOp e' || isStatusUpdate e'
  | _ => false
  end.

Definition output (text : string) : appMore.event := appMore.Base (Stdout text).

(** The addresses [open] builds. *)
Definition boardURL (settings : config.Settings) : string :=
  config.URL (config.Jira settings) ++ "/jira/software/projects/"
  ++ config.ProjectKey (config.Jira settings) ++ "/boards".

Definition ticketURL (settings : config.Settings) (ticketID : string) : string :=
  config.URL (config.Jira settings) ++ "/browse/" ++ ticketID.







(** A world for these commands on top of a world of [app]. *)
Definition sampleMore (base : World) (summary : reply string)
           (connection : reply unit) : appMore.World :=
  {| appMore.base := base;
     appMore.gitStatusSummary := summary;
     appMore.jiraTestConnection := connection;
     appMore.openCommand := fun _ => appMore.Opened |}.

(** A world of [app] outside a repository. *)
Definition outsideRepository : World :=
  {| configLoad := Loaded (sampleSettings "gitlab");
     gitNewClient := Refused "not in git repository: exit status 128";
     gitCurrentBranch := Refused "exit status 128";
     gitIsClean := Refused "exit status 128";
     gitCreateBranch := fun _ => Refused "exit status 128";
     gitPush := fun _ => Refused "exit status 128";
     gitCommit := fun _ => Refused "exit status 128";
     jiraGetTicket := fun _ => Done sampleTicket;
     jiraUpdateStatus := fun _ _ => Done tt;
     jiraSearchWithJQL := fun _ _ => Done [];
     gitHubCreatePullRequest := fun _ _ _ _ => Done "https://github.example.com/pr/1";
     gitLabCreateMergeRequest := fun _ _ _ _ _ => Done "https://gitlab.example.com/mr/1";
     jsonMarshalIndent := fun _ => Done "[]";
     stdinReadString := Done nl |}.

(** ** The tracker client: vocabulary *)

(** The address of the transitions of a ticket. *)
Definition transitionsURL (baseURL apiVersion ticketID : string) : string :=
  baseURL ++ "/rest/api/" ++ apiVersion ++ "/issue/" ++ ticketID ++ "/transitions".

Definition notFound (transitionName : string) : error :=
  errorsNew ("transition '" ++ transitionName ++ "' not found").

Definition isPost (r : jira.request) : bool :=
  match r with jira.Post _ _ => true | _ => false end.

(** ASCII letters compared without case, for concrete runs. *)
Definition asciiFold (a b : string) : bool :=
  String.eqb (@strings.ToLower latin1Tables a) (@strings.ToLower latin1Tables b).

(** A server that answers every request with status 200 and offers
    [transitions]. *)
Definition sampleServer (transitions : list jira.Transition) : jira.Server :=
  {| jira.newRequest := fun _ => Done tt;
     jira.roundTrip := fun _ => jira.Response 200 "{}";
     jira.unmarshal := fun _ => Done transitions |}.

(** ** [list --json]: vocabulary *)

(** An event that, if it prints, prints the JSON text of tickets the
    tracker returned to a query of [w], and a newline. *)
Definition printsOnlyJSON (w : World) (e : event) : Prop :=
  forall text,
    e = Stdout text ->
    exists jql limit tickets data,
      jiraSearchWithJQL w jql limit = Done tickets
      /\ jsonMarshalIndent w tickets = Done data
      /\ text = data ++ nl.

(* ================================================================= *)
(** * The tests of the repository, replayed on the embedding *)

(** The events of a run other than its output. *)
Definition calls (t : list event) : list event :=
  filter (fun e => match e with Stdout _ => false | _ => true end) t.

(** branch_test.go, TestFormatBranchName. *)
Example FormatBranchName_basic :
  utils.FormatBranchName "feat" "WAB-1234" "Add user authentication"
  = "feat/WAB-1234/add_user_authentication".
Proof. vm_compute. reflexivity. Qed.

Example FormatBranchName_special_chars :
  utils.FormatBranchName "fix" "PROJ-999" "Fix bug: login doesn't work!"
  = "fix/PROJ-999/fix_bug_login_doesnt_work".
Proof. vm_compute. reflexivity. Qed.

Example FormatBranchName_numbers :
  utils.FormatBranchName "feat" "ABC-42" "Update Node.js to v20"
  = "feat/ABC-42/update_node_js_to_v20".
Proof. vm_compute. reflexivity. Qed.

Example FormatBranchName_empty_summary :
  utils.FormatBranchName "test" "TICKET-1" "" = "test/TICKET-1".
Proof. vm_compute. reflexivity. Qed.

(** A summary of more than five words keeps its first five; a one-letter
    word is dropped. *)
Example FormatBranchName_five_words :
  utils.FormatBranchName "feat" "AB-1" "Add a retry to the payment gateway client code"
  = "feat/AB-1/add_retry_to_the_payment".
Proof. vm_compute. reflexivity. Qed.

(** branch_test.go, TestExtractTicketID. *)
Example ExtractTicketID_branch :
  utils.ExtractTicketID "feat/WAB-3848/implement_attempts_doc_logic" = Ok "WAB-3848".
Proof. vm_compute. reflexivity. Qed.

Example ExtractTicketID_main :
  utils.ExtractTicketID "main" = Fail (utils.CorrelationError "main").
Proof. vm_compute. reflexivity. Qed.

(** config_test.go, TestMaskToken. *)
Example MaskToken_eight : config.MaskToken "abcdefgh" = "abcd***efgh".
Proof. vm_compute. reflexivity. Qed.

Example MaskToken_three : config.MaskToken "abc" = "***".
Proof. vm_compute. reflexivity. Qed.

(** app_test.go, TestEndToEndWorkflow: [start TEST-1] on the primary
    branch, then [commit] and [done] on the branch it created. *)
Example endToEnd_start :
  calls (trace (handleStart (sampleWorld "gitlab" "main" true (Done tt) []) "TEST-1"))
  = [ConfigLoad; GitNewClient; GitCurrentBranch;
     JiraFactory "https://jira.example.com" "dev@example.com"
                 {| config.AuthType := "api_token"; config.AuthToken := "token" |};
     JiraGetTicket "TEST-1";
     GitCreateBranch "feat/TEST-1/implement_widget";
     JiraUpdateStatus "TEST-1" "In Progress"].
Proof. vm_compute. reflexivity. Qed.

Example endToEnd_commit :
  calls (trace (handleCommit
                  (sampleWorld "gitlab" "feat/TEST-1/implement_widget" false (Done tt) [])
                  "Add feature"))
  = [ConfigLoad; GitNewClient; GitCurrentBranch;
     GitCommit ("Add feature" ++ nl ++ nl
                ++ "TEST-1: https://jira.example.com/browse/TEST-1")].
Proof. vm_compute. reflexivity. Qed.

Example endToEnd_done :
  calls (trace (handleDone
                  (sampleWorld "gitlab" "feat/TEST-1/implement_widget" true (Done tt) [])))
  = [ConfigLoad; GitNewClient; GitIsClean; GitCurrentBranch;
     GitPush "feat/TEST-1/implement_widget";
     JiraFactory "https://jira.example.com" "dev@example.com"
                 {| config.AuthType := "api_token"; config.AuthToken := "token" |};
     JiraGetTicket "TEST-1";
     GitLabFactory "https://gitlab.example.com" "git-token";
     GitLabCreateMergeRequest "project" "feat/TEST-1/implement_widget" "main"
       "TEST-1: Implement widget"
       ("Resolves TEST-1" ++ nl ++ nl
        ++ "Jira: https://jira.example.com/browse/TEST-1");
     JiraUpdateStatus "TEST-1" "In Review"].
Proof. vm_compute. reflexivity. Qed.

(* ================================================================= *)
(** * Properties *)

(** ** Bytes and strings *)

Lemma append_nil_r (s : string) : s ++ "" = s.
Proof. induction s as [|a s IH]; simpl; [reflexivity | now rewrite IH]. Qed.

Lemma append_assoc (s t u : string) : (s ++ t) ++ u = s ++ (t ++ u).
Proof. induction s as [|a s IH]; simpl; [reflexivity | now rewrite IH]. Qed.

Lemma append_snoc (s : string) (a : ascii) (t : string) :
  (s ++ String a "") ++ t = s ++ String a t.
Proof. now rewrite append_assoc. Qed.

Lemma hasByte_app (c : ascii) (s t : string) :
  hasByte c (s ++ t) = hasByte c s || hasByte c t.
Proof.
  induction s as [|a s IH]; simpl; [reflexivity|].
  now rewrite IH, orb_assoc.
Qed.

Lemma prefix_nil (s : string) : String.prefix "" s = true.
Proof. destruct s; reflexivity. Qed.

Lemma prefix_single (c a : ascii) (s : string) :
  String.prefix (String c "") (String a s) = Ascii.eqb a c.
Proof.
  simpl. destruct (ascii_dec c a) as [->|Hne].
  - now rewrite prefix_nil, Ascii.eqb_refl.
  - symmetry. apply Ascii.eqb_neq. congruence.
Qed.

Lemma Contains_single (c : ascii) (s : string) :
  strings.Contains s (String c "") = hasByte c s.
Proof.
  induction s as [|a s IH]; [reflexivity|].
  cbn [strings.Contains hasByte]. rewrite prefix_single.
  destruct (Ascii.eqb a c); [reflexivity | exact IH].
Qed.

Lemma hasByte_split (c : ascii) (s : string) :
  hasByte c s = true ->
  exists p q, s = p ++ String c q /\ hasByte c p = false.
Proof.
  induction s as [|a s IH]; simpl; [discriminate|].
  destruct (Ascii.eqb a c) eqn:E; simpl.
  - intros _. apply Ascii.eqb_eq in E. subst a. now exists "", s.
  - intros H. destruct (IH H) as (p & q & -> & Hp).
    exists (String a p), q. simpl. now rewrite E, Hp.
Qed.

(** ** [strings.Split] on a one-byte separator *)

Lemma splitFrom_free (c : ascii) (p cur : string) :
  hasByte c p = false ->
  strings.splitFrom (String c "") 0 cur p = [cur ++ p].
Proof.
  revert cur. induction p as [|a p IH]; intros cur H.
  - now rewrite append_nil_r.
  - simpl in H. apply orb_false_iff in H as [Ha Hp].
    cbn [strings.splitFrom]. rewrite prefix_single, Ha, IH by assumption.
    now rewrite append_snoc.
Qed.

Lemma splitFrom_at (c : ascii) (p q cur : string) :
  hasByte c p = false ->
  strings.splitFrom (String c "") 0 cur (p ++ String c q)
  = (cur ++ p) :: strings.splitFrom (String c "") 0 "" q.
Proof.
  revert cur. induction p as [|a p IH]; intros cur H.
  - cbn [String.append strings.splitFrom]. rewrite prefix_single, Ascii.eqb_refl.
    now rewrite append_nil_r.
  - simpl in H. apply orb_false_iff in H as [Ha Hp].
    cbn [String.append strings.splitFrom]. rewrite prefix_single, Ha, IH by assumption.
    now rewrite append_snoc.
Qed.

Lemma splitFrom_nonempty (sep : string) (skip : nat) (cur s : string) :
  strings.splitFrom sep skip cur s <> [].
Proof.
  revert skip cur. induction s as [|a s IH]; intros skip cur; [discriminate|].
  cbn [strings.splitFrom]. destruct skip; [|apply IH].
  destruct (String.prefix sep (String a s)); [discriminate | apply IH].
Qed.

Lemma Split_free (c : ascii) (p : string) :
  hasByte c p = false -> strings.Split p (String c "") = [p].
Proof. intros H. unfold strings.Split. now rewrite splitFrom_free. Qed.

Lemma Split_at (c : ascii) (p q : string) :
  hasByte c p = false ->
  strings.Split (p ++ String c q) (String c "")
  = p :: strings.Split q (String c "").
Proof. intros H. unfold strings.Split. now rewrite splitFrom_at. Qed.

(** A string with a separator in it splits into at least two pieces. *)
Lemma Split_two (c : ascii) (s : string) :
  hasByte c s = true ->
  exists a b rest, strings.Split s (String c "") = a :: b :: rest.
Proof.
  intros H. destruct (hasByte_split c s H) as (p & q & -> & Hp).
  rewrite Split_at by assumption.
  destruct (strings.Split q (String c "")) as [|b rest] eqn:E.
  - exfalso. revert E. apply splitFrom_nonempty.
  - now exists p, b, rest.
Qed.

(** ** Induction along [range s] *)

Lemma decode_cons (b0 : ascii) (t0 : string) :
  utf8.decode (String b0 t0) =
  match utf8.classify b0 with
  | utf8.as1 => (utf8.byteN b0, String b0 "") :: utf8.decode t0
  | utf8.xx => (utf8.RuneError, String b0 "") :: utf8.decode t0
  | utf8.s2 =>
    match t0 with
    | String b1 t1 =>
      if utf8.cont b1
      then (utf8.rune2 b0 b1, String b0 (String b1 "")) :: utf8.decode t1
      else (utf8.RuneError, String b0 "") :: utf8.decode t0
    | _ => (utf8.RuneError, String b0 "") :: utf8.decode t0
    end
  | utf8.s3 lo hi =>
    match t0 with
    | String b1 (String b2 t2) =>
      if utf8.inRange lo hi b1 && utf8.cont b2
      then (utf8.rune3 b0 b1 b2, String b0 (String b1 (String b2 "")))
             :: utf8.decode t2
      else (utf8.RuneError, String b0 "") :: utf8.decode t0
    | _ => (utf8.RuneError, String b0 "") :: utf8.decode t0
    end
  | utf8.s4 lo hi =>
    match t0 with
    | String b1 (String b2 (String b3 t3)) =>
      if utf8.inRange lo hi b1 && utf8.cont b2 && utf8.cont b3
      then (utf8.rune4 b0 b1 b2 b3,
            String b0 (String b1 (String b2 (String b3 "")))) :: utf8.decode t3
      else (utf8.RuneError, String b0 "") :: utf8.decode t0
    | _ => (utf8.RuneError, String b0 "") :: utf8.decode t0
    end
  end.
Proof. reflexivity. Qed.

Ltac split_classify :=
  unfold utf8.classify; cbv zeta;
  repeat match goal with
         | |- context [N.ltb ?a ?b] => destruct (N.ltb_spec a b)
         | |- context [N.eqb ?a ?b] => destruct (N.eqb_spec a b)
         end.

Lemma classify_as1 (b : ascii) :
  utf8.classify b = utf8.as1 -> (utf8.byteN b < 0x80)%N.
Proof. split_classify; intros Hcl; first [discriminate Hcl | assumption]. Qed.

Lemma classify_high (b : ascii) :
  utf8.classify b <> utf8.as1 -> (0x80 <= utf8.byteN b)%N.
Proof. split_classify; intros Hcl; first [congruence | assumption]. Qed.

Lemma classify_s3 (b : ascii) (lo hi : N) :
  utf8.classify b = utf8.s3 lo hi -> (0x80 <= lo)%N.
Proof.
  split_classify; intros Hcl; first [discriminate Hcl | injection Hcl as <- <-; lia].
Qed.

Lemma classify_s4 (b : ascii) (lo hi : N) :
  utf8.classify b = utf8.s4 lo hi -> (0x80 <= lo)%N.
Proof.
  split_classify; intros Hcl; first [discriminate Hcl | injection Hcl as <- <-; lia].
Qed.

Lemma cont_high (b : ascii) :
  utf8.cont b = true -> (0x80 <=? utf8.byteN b)%N = true.
Proof. unfold utf8.cont, utf8.inRange. intros H. now apply andb_true_iff in H. Qed.

Lemma inRange_high (lo hi : N) (b : ascii) :
  (0x80 <= lo)%N -> utf8.inRange lo hi b = true ->
  (0x80 <=? utf8.byteN b)%N = true.
Proof.
  unfold utf8.inRange. intros Hlo H. apply andb_true_iff in H as [H _].
  apply N.leb_le in H. apply N.leb_le. lia.
Qed.

(** Each step of [range s] reads either one ASCII byte, which is the rune,
    or a non-empty run of bytes all of which are at least 0x80. *)
Lemma decode_ind (Q : string -> list (N * string) -> Prop) :
  Q "" [] ->
  (forall b t, (utf8.byteN b < 0x80)%N -> Q t (utf8.decode t) ->
               Q (String b t) ((utf8.byteN b, String b "") :: utf8.decode t)) ->
  (forall r c t, c <> "" -> allHigh c = true -> Q t (utf8.decode t) ->
                 Q (c ++ t) ((r, c) :: utf8.decode t)) ->
  forall s, Q s (utf8.decode s).
Proof.
  intros Hnil Hascii Hhigh s.
  remember (String.length s) as n eqn:Hn. revert s Hn.
  induction n as [n IH] using lt_wf_ind. intros s ->.
  assert (Hrec : forall t, (String.length t < String.length s)%nat ->
                           Q t (utf8.decode t)).
  { intros t Ht. now apply (IH _ Ht). }
  clear IH. destruct s as [|b0 t0]; [exact Hnil|].
  assert (Hone : (0x80 <= utf8.byteN b0)%N ->
                 Q (String b0 t0) ((utf8.RuneError, String b0 "") :: utf8.decode t0)).
  { intros Hb. apply (Hhigh _ (String b0 "") t0); [discriminate| |apply Hrec; simpl; lia].
    simpl. rewrite andb_true_r. now apply N.leb_le. }
  rewrite decode_cons. destruct (utf8.classify b0) eqn:Hc.
  - apply Hascii; [now apply classify_as1 | apply Hrec; simpl; lia].
  - apply Hone, classify_high. congruence.
  - assert (Hb0 : (0x80 <= utf8.byteN b0)%N) by (apply classify_high; congruence).
    destruct t0 as [|b1 t1]; [now apply Hone|].
    destruct (utf8.cont b1) eqn:H1; [|now apply Hone].
    apply (Hhigh _ (String b0 (String b1 "")) t1); [discriminate| |apply Hrec; simpl; lia].
    simpl. rewrite (cont_high _ H1). apply N.leb_le in Hb0. now rewrite Hb0.
  - assert (Hb0 : (0x80 <= utf8.byteN b0)%N) by (apply classify_high; congruence).
    destruct t0 as [|b1 [|b2 t2]]; try now apply Hone.
    destruct (utf8.inRange lo hi b1 && utf8.cont b2) eqn:H12; [|now apply Hone].
    apply andb_true_iff in H12 as [H1 H2].
    apply (Hhigh _ (String b0 (String b1 (String b2 ""))) t2);
      [discriminate| |apply Hrec; simpl; lia].
    simpl. rewrite (cont_high _ H2), (inRange_high _ _ _ (classify_s3 _ _ _ Hc) H1).
    apply N.leb_le in Hb0. now rewrite Hb0.
  - assert (Hb0 : (0x80 <= utf8.byteN b0)%N) by (apply classify_high; congruence).
    destruct t0 as [|b1 [|b2 [|b3 t3]]]; try now apply Hone.
    destruct (utf8.inRange lo hi b1 && utf8.cont b2 && utf8.cont b3) eqn:H123;
      [|now apply Hone].
    apply andb_true_iff in H123 as [H12 H3]. apply andb_true_iff in H12 as [H1 H2].
    apply (Hhigh _ (String b0 (String b1 (String b2 (String b3 "")))) t3);
      [discriminate| |apply Hrec; simpl; lia].
    simpl. rewrite (cont_high _ H2), (cont_high _ H3),
      (inRange_high _ _ _ (classify_s4 _ _ _ Hc) H1).
    apply N.leb_le in Hb0. now rewrite Hb0.
Qed.

Lemma decode_chunks_nonempty (s : string) :
  Forall (fun rc : N * string => snd rc <> "") (utf8.decode s).
Proof.
  apply (decode_ind (fun _ l => Forall (fun rc : N * string => snd rc <> "") l)).
  - constructor.
  - intros b t _ IH. constructor; [discriminate | exact IH].
  - intros r c t Hc _ IH. constructor; [exact Hc | exact IH].
Qed.

Lemma allHigh_free (c : ascii) (s : string) :
  (utf8.byteN c < 0x80)%N -> allHigh s = true -> hasByte c s = false.
Proof.
  intros Hc. induction s as [|a s IH]; simpl; [reflexivity|].
  intros H. apply andb_true_iff in H as [Ha Hs]. rewrite (IH Hs), orb_false_r.
  apply Ascii.eqb_neq. intros ->. apply N.leb_le in Ha. lia.
Qed.

(** A string all of whose runes satisfy [P] holds no ASCII byte that
    [P] rejects. *)
Lemma allRunes_free (P : N -> bool) (c : ascii) (s : string) :
  (utf8.byteN c < 0x80)%N -> P (utf8.byteN c) = false ->
  allRunes P s = true -> hasByte c s = false.
Proof.
  intros Hc HP. unfold allRunes, utf8.runes.
  apply (decode_ind (fun s l => forallb P (map fst l) = true -> hasByte c s = false)).
  - reflexivity.
  - intros b t _ IH H. simpl in H. apply andb_true_iff in H as [Hb Ht].
    simpl. rewrite (IH Ht), orb_false_r.
    apply Ascii.eqb_neq. intros ->. congruence.
  - intros r c0 t _ Hhigh IH H. simpl in H. apply andb_true_iff in H as [_ Ht].
    now rewrite hasByte_app, (allHigh_free c c0 Hc Hhigh), (IH Ht).
Qed.

(** ** The correlator: [ExtractTicketID] *)

(** [ExtractTicketID] applied to a name whose second segment is [a-b...]. *)
Lemma ExtractTicketID_second (branch seg0 ticketPart : string) (more : list string) :
  strings.Split branch "/" = seg0 :: ticketPart :: more ->
  strings.Contains ticketPart "-" = true ->
  exists a b rest,
    strings.Split ticketPart "-" = a :: b :: rest
    /\ utils.ExtractTicketID branch = Ok (a ++ "-" ++ b).
Proof.
  intros Hparts Hc.
  assert (Hh : hasByte "-" ticketPart = true)
    by (rewrite <- Contains_single; exact Hc).
  destruct (Split_two "-" ticketPart Hh) as (a & b & rest & Hseg).
  exists a, b, rest. split; [exact Hseg|].
  unfold utils.ExtractTicketID. rewrite Hparts.
  cbn [List.length Nat.ltb Nat.leb nth]. rewrite Hc.
  cbn [negb]. rewrite Hseg. cbn [List.length Nat.ltb Nat.leb firstn strings.Join String.concat].
  destruct (String.eqb_spec (a ++ "-" ++ b) "") as [E|_]; [|reflexivity].
  exfalso. destruct a; discriminate E.
Qed.

(** C8. [ExtractTicketID] fails with the correlation error when the
    branch name has fewer than two segments between slashes, and when its
    second segment holds no hyphen; otherwise it returns the first two
    hyphen-separated pieces of the second segment, joined by a hyphen.
    The branch [main] is refused. *)
Theorem ExtractTicketID_cases (branch : string) :
  ((List.length (strings.Split branch "/") < 2)%nat ->
   utils.ExtractTicketID branch = Fail (utils.CorrelationError branch))
  /\ ((2 <= List.length (strings.Split branch "/"))%nat ->
      strings.Contains (nth 1 (strings.Split branch "/") "") "-" = false ->
      utils.ExtractTicketID branch = Fail (utils.CorrelationError branch))
  /\ ((2 <= List.length (strings.Split branch "/"))%nat ->
      strings.Contains (nth 1 (strings.Split branch "/") "") "-" = true ->
      exists a b rest,
        strings.Split (nth 1 (strings.Split branch "/") "") "-" = a :: b :: rest
        /\ utils.ExtractTicketID branch = Ok (a ++ "-" ++ b))
  /\ utils.ExtractTicketID "main" = Fail (utils.CorrelationError "main").
Proof.
  repeat split.
  - intros H. unfold utils.ExtractTicketID.
    apply Nat.ltb_lt in H. now rewrite H.
  - intros H Hc. unfold utils.ExtractTicketID.
    apply Nat.ltb_ge in H. now rewrite H, Hc.
  - intros H Hc.
    destruct (strings.Split branch "/") as [|seg0 [|ticketPart more]] eqn:Hparts;
      simpl in H; try lia.
    simpl in Hc |- *. eapply ExtractTicketID_second; eassumption.
Qed.

(** The three cases of C8 on concrete branch names. *)
Lemma ExtractTicketID_cases_witness :
  utils.ExtractTicketID "nothing" = Fail (utils.CorrelationError "nothing")
  /\ utils.ExtractTicketID "feat/nohyphen" = Fail (utils.CorrelationError "feat/nohyphen")
  /\ exists a b rest,
       strings.Split (nth 1 (strings.Split "feat/WAB-3848/fix-it" "/") "") "-"
       = a :: b :: rest
       /\ utils.ExtractTicketID "feat/WAB-3848/fix-it" = Ok (a ++ "-" ++ b).
Proof.
  split; [|split].
  - apply (proj1 (ExtractTicketID_cases "nothing")). vm_compute. lia.
  - apply (proj1 (proj2 (ExtractTicketID_cases "feat/nohyphen"))).
    + vm_compute. lia.
    + reflexivity.
  - apply (proj1 (proj2 (proj2 (ExtractTicketID_cases "feat/WAB-3848/fix-it")))).
    + vm_compute. lia.
    + reflexivity.
Defined.

(** ** Round trip: the ticket ID is recovered from the branch name *)

Section RoundTrip.
Context {U : UnicodeTables}.

Lemma FormatBranchName_shape (prefix ticketID summary : string) :
  utils.FormatBranchName prefix ticketID summary = prefix ++ "/" ++ ticketID
  \/ exists slug,
      utils.FormatBranchName prefix ticketID summary
      = prefix ++ "/" ++ ticketID ++ "/" ++ slug.
Proof.
  unfold utils.FormatBranchName.
  destruct (List.length _ =? 0)%nat; [now left | right; eauto].
Qed.

Lemma letters_free (c : ascii) (A : string) :
  (utf8.byteN c < 0x80)%N -> unicode.IsLetter (utf8.byteN c) = false ->
  allRunes unicode.IsLetter A = true -> hasByte c A = false.
Proof. apply allRunes_free. Qed.

Lemma digits_free (c : ascii) (D : string) :
  (utf8.byteN c < 0x80)%N -> unicode.IsDigit (utf8.byteN c) = false ->
  allRunes unicode.IsDigit D = true -> hasByte c D = false.
Proof. apply allRunes_free. Qed.

(** What [ExtractTicketID] returns on [prefix/A-D] followed by nothing or
    by a slash and anything. *)
Lemma ExtractTicketID_formatted (prefix A D tail : string) :
  hasByte "/" prefix = false ->
  hasByte "/" A = false -> hasByte "/" D = false ->
  hasByte "-" A = false -> hasByte "-" D = false ->
  tail = "" \/ (exists slug, tail = "/" ++ slug) ->
  utils.ExtractTicketID (prefix ++ "/" ++ (A ++ "-" ++ D) ++ tail)
  = Ok (A ++ "-" ++ D).
Proof.
  intros Hp HsA HsD HhA HhD Htail.
  assert (Hid : hasByte "/" (A ++ "-" ++ D) = false).
  { rewrite hasByte_app. cbn [String.append hasByte]. now rewrite HsA, HsD. }
  assert (Hparts : exists more,
             strings.Split (prefix ++ "/" ++ (A ++ "-" ++ D) ++ tail) "/"
             = prefix :: (A ++ "-" ++ D) :: more).
  { change (prefix ++ "/" ++ (A ++ "-" ++ D) ++ tail)
      with (prefix ++ String "/" ((A ++ "-" ++ D) ++ tail)).
    rewrite Split_at by assumption.
    destruct Htail as [-> | [slug ->]].
    - rewrite append_nil_r, Split_free by assumption. now exists [].
    - change ("/" ++ slug) with (String "/" slug).
      rewrite Split_at by assumption. eauto. }
  destruct Hparts as [more Hparts].
  destruct (ExtractTicketID_second _ _ _ _ Hparts) as (a & b & rest & Hseg & ->).
  - rewrite Contains_single, hasByte_app. cbn [String.append hasByte].
    now rewrite Ascii.eqb_refl, orb_true_r.
  - change (A ++ "-" ++ D) with (A ++ String "-" D) in Hseg.
    rewrite Split_at, Split_free in Hseg by assumption.
    now injection Hseg as <- <- _.
Qed.

(** C1, as the code has it.  For every prefix without a slash, every
    ticket ID made of a non-empty run of letters, a hyphen and a non-empty
    run of digits, and every summary (the empty one too),
    [ExtractTicketID (FormatBranchName prefix id summary)] succeeds and
    returns exactly the ID. *)
Theorem ticket_roundtrip (prefix A D summary : string) :
  hasByte "/" prefix = false ->
  A <> "" -> D <> "" ->
  allRunes unicode.IsLetter A = true ->
  allRunes unicode.IsDigit D = true ->
  utils.ExtractTicketID (utils.FormatBranchName prefix (A ++ "-" ++ D) summary)
  = Ok (A ++ "-" ++ D).
Proof.
  intros Hp _ _ HA HD.
  assert (HsA : hasByte "/" A = false) by (apply letters_free; [reflexivity..|exact HA]).
  assert (HhA : hasByte "-" A = false) by (apply letters_free; [reflexivity..|exact HA]).
  assert (HsD : hasByte "/" D = false) by (apply digits_free; [reflexivity..|exact HD]).
  assert (HhD : hasByte "-" D = false) by (apply digits_free; [reflexivity..|exact HD]).
  destruct (FormatBranchName_shape prefix (A ++ "-" ++ D) summary) as [-> | [slug ->]].
  - rewrite <- (append_nil_r (A ++ "-" ++ D)) at 1.
    apply ExtractTicketID_formatted; auto.
  - apply ExtractTicketID_formatted; eauto.
Qed.

End RoundTrip.

Lemma ticket_roundtrip_witness :
  utils.ExtractTicketID
    (utils.FormatBranchName "fix" ("PROJ" ++ "-" ++ "999") "Fix bug: login doesn't work!")
  = Ok ("PROJ" ++ "-" ++ "999").
Proof.
  apply (@ticket_roundtrip latin1Tables "fix" "PROJ" "999");
    first [reflexivity | discriminate].
Defined.

(** C1 as stated fails: a prefix may hold a slash, and the ID is then
    looked for in the wrong segment. *)
Lemma ticket_roundtrip_slash_prefix :
  allRunes unicode.IsLetter "AB" = true
  /\ allRunes unicode.IsDigit "1" = true
  /\ utils.ExtractTicketID (utils.FormatBranchName "feature/x" ("AB" ++ "-" ++ "1") "")
     = Fail (utils.CorrelationError "feature/x/AB-1")
  /\ utils.ExtractTicketID (utils.FormatBranchName "team/X-9" ("AB" ++ "-" ++ "1") "")
     = Ok "X-9"
  /\ utils.ExtractTicketID (utils.FormatBranchName "feature/x" ("AB" ++ "-" ++ "1") "")
     <> Ok ("AB" ++ "-" ++ "1").
Proof. repeat split; try reflexivity. discriminate. Qed.

(** ** The slug: [FormatBranchName] against its description *)

Section Slug.
Context {U : UnicodeTables}.

Lemma concat_empty_cons (x : string) (l : list string) :
  String.concat "" (x :: l) = x ++ String.concat "" l.
Proof. destruct l; simpl; [now rewrite append_nil_r | reflexivity]. Qed.

Lemma writeAlnum_spec (rs : list (N * string)) (builder : string) :
  utils.writeAlnum rs builder
  = builder ++ String.concat "" (map utf8.encode (filter alnum (map fst rs))).
Proof.
  revert builder. induction rs as [|[r c] rs IH]; intros builder.
  - simpl. now rewrite append_nil_r.
  - cbn [utils.writeAlnum map fst filter]. fold (alnum r).
    destruct (alnum r); rewrite IH; [|reflexivity].
    cbn [map]. now rewrite concat_empty_cons, append_assoc.
Qed.

Lemma writeAlnum_strip (word : string) :
  utils.writeAlnum (utf8.decode word) "" = stripNonAlnum word.
Proof. now rewrite writeAlnum_spec. Qed.

(** The loop with its [break] keeps the first five candidates longer than
    one byte. *)
Lemma cleanWords_spec (words cleaned : list string) :
  (List.length cleaned < 5)%nat ->
  utils.cleanWords words cleaned
  = firstn 5 (cleaned ++ filter longerThanOne (map stripNonAlnum words))%list.
Proof.
  revert cleaned. induction words as [|word rest IH]; intros cleaned Hlen.
  - cbn [utils.cleanWords map filter]. rewrite app_nil_r.
    symmetry. apply firstn_all2. lia.
  - cbn [utils.cleanWords map filter]. rewrite writeAlnum_strip.
    fold (longerThanOne (stripNonAlnum word)).
    destruct (longerThanOne (stripNonAlnum word)).
    + unfold append.
      replace (cleaned ++ stripNonAlnum word :: filter longerThanOne (map stripNonAlnum rest))%list
        with ((cleaned ++ [stripNonAlnum word]) ++ filter longerThanOne (map stripNonAlnum rest))%list
        by (now rewrite <- app_assoc).
      destruct (Nat.eqb_spec (List.length (cleaned ++ [stripNonAlnum word])) 5) as [E|E].
      * rewrite firstn_app, E, Nat.sub_diag, firstn_O, app_nil_r.
        symmetry. apply firstn_all2. lia.
      * apply IH. rewrite length_app in *. simpl in *. lia.
    + destruct (Nat.eqb_spec (List.length cleaned) 5) as [E|E]; [lia|].
      now apply IH.
Qed.

(** [strings.FieldsFunc] yields the non-empty pieces. *)
Lemma fieldsFrom_split (f : N -> bool) (rs : list (N * string)) :
  Forall (fun rc : N * string => snd rc <> "") rs ->
  (forall w, w <> "" ->
             strings.fieldsFrom f (Some w) rs = filter nonEmpty (splitRunes f w rs))
  /\ strings.fieldsFrom f None rs = filter nonEmpty (splitRunes f "" rs).
Proof.
  assert (Hne : forall w, w <> "" -> nonEmpty w = true).
  { intros w Hw. unfold nonEmpty. now destruct (String.eqb_spec w ""). }
  induction rs as [|[r c] rs IH]; intros Hall.
  - split; [|reflexivity]. intros w Hw. simpl. now rewrite (Hne w Hw).
  - inversion Hall as [|? ? Hc Hrest]; subst. simpl in Hc.
    destruct (IH Hrest) as [IHsome IHnone].
    split; [intros w Hw|]; cbn [strings.fieldsFrom splitRunes]; destruct (f r).
    + cbn [filter]. now rewrite (Hne w Hw), IHnone.
    + apply IHsome. destruct w; [congruence | discriminate].
    + cbn [filter]. exact IHnone.
    + cbn [String.append]. now apply IHsome.
Qed.

Lemma FieldsFunc_split (f : N -> bool) (s : string) :
  strings.FieldsFunc s f = filter nonEmpty (splitRunes f "" (utf8.decode s)).
Proof. apply fieldsFrom_split, decode_chunks_nonempty. Qed.

(** Empty pieces do not survive the discarding of short tokens. *)
Lemma strip_filter_nonEmpty (l : list string) :
  filter longerThanOne (map stripNonAlnum (filter nonEmpty l))
  = filter longerThanOne (map stripNonAlnum l).
Proof.
  induction l as [|x l IH]; [reflexivity|].
  cbn [filter map]. unfold nonEmpty at 1.
  destruct (String.eqb_spec x "") as [->|_]; cbn [negb].
  - exact IH.
  - cbn [map filter]. now rewrite IH.
Qed.

Lemma isSeparator_spec (r : N) : utils.isSeparator r = spaceOrPunctuation r.
Proof.
  unfold utils.isSeparator, spaceOrPunctuation, punctuation.
  now rewrite !orb_assoc.
Qed.

Lemma splitRunes_ext (f g : N -> bool) (cur : string) (rs : list (N * string)) :
  (forall r, f r = g r) -> splitRunes f cur rs = splitRunes g cur rs.
Proof.
  intros Hfg. revert cur. induction rs as [|[r c] rs IH]; intros cur; [reflexivity|].
  cbn [splitRunes]. now rewrite Hfg, !IH.
Qed.

Lemma cleanWords_slug (summary : string) :
  utils.cleanWords
    (strings.FieldsFunc (strings.ToLower summary) utils.isSeparator) []
  = slugTokens spaceOrPunctuation summary.
Proof.
  rewrite cleanWords_spec by (simpl; lia). cbn [List.app].
  rewrite FieldsFunc_split, strip_filter_nonEmpty.
  now rewrite (splitRunes_ext _ _ _ _ isSeparator_spec).
Qed.

(** C2, as the code has it.  [FormatBranchName] is a total function: it
    lower-cases the summary, splits it on the space character and on the
    characters [: ! ? , ; .], strips every rune that is no letter and no
    digit from each token, discards the cleaned tokens of at most one
    byte, keeps at most the first 5 that remain and joins them with an
    underscore; the result is [prefix/ticketID/joined], or
    [prefix/ticketID] when no token remains. *)
Theorem FormatBranchName_refines (prefix ticketID summary : string) :
  utils.FormatBranchName prefix ticketID summary
  = branchNameSpec spaceOrPunctuation prefix ticketID summary
  /\ (List.length (slugTokens spaceOrPunctuation summary) <= 5)%nat
  /\ (slugTokens spaceOrPunctuation summary = [] ->
      utils.FormatBranchName prefix ticketID summary = prefix ++ "/" ++ ticketID).
Proof.
  assert (E : utils.FormatBranchName prefix ticketID summary
              = branchNameSpec spaceOrPunctuation prefix ticketID summary).
  { unfold utils.FormatBranchName, branchNameSpec. rewrite cleanWords_slug.
    now destruct (slugTokens spaceOrPunctuation summary). }
  split; [exact E | split].
  - unfold slugTokens. apply firstn_le_length.
  - intros H. rewrite E. unfold branchNameSpec. now rewrite H.
Qed.

End Slug.

Lemma FormatBranchName_refines_witness :
  utils.FormatBranchName "test" "TICKET-1" "" = "test" ++ "/" ++ "TICKET-1".
Proof.
  apply (proj2 (proj2 (@FormatBranchName_refines latin1Tables "test" "TICKET-1" ""))).
  reflexivity.
Defined.

(** C2 as stated fails: a tab is whitespace, yet the code does not split
    on it. *)
Lemma FormatBranchName_tab :
  unicode.IsSpace (unicode.rune_of "009") = true
  /\ utils.FormatBranchName "feat" "AB-1" ("ab" ++ tab ++ "cd") = "feat/AB-1/abcd"
  /\ branchNameSpec whitespaceOrPunctuation "feat" "AB-1" ("ab" ++ tab ++ "cd")
     = "feat/AB-1/ab_cd"
  /\ utils.FormatBranchName "feat" "AB-1" ("ab" ++ tab ++ "cd")
     <> branchNameSpec whitespaceOrPunctuation "feat" "AB-1" ("ab" ++ tab ++ "cd").
Proof. repeat split; try reflexivity. discriminate. Qed.

(* ================================================================= *)
(** ** Commands: reasoning about traces *)

Lemma trace_bind {A B} (m : M A) (k : A -> M B) :
  trace (bind m k)
  = match outcome m with
    | Ok a => (trace m ++ trace (k a))%list
    | Fail _ => trace m
    end.
Proof.
  unfold bind, trace, outcome. cbn [fst].
  destruct (snd m); [reflexivity | apply app_nil_r].
Qed.

Lemma outcome_bind {A B} (m : M A) (k : A -> M B) :
  outcome (bind m k)
  = match outcome m with
    | Ok a => outcome (k a)
    | Fail e => Fail e
    end.
Proof. unfold bind, trace, outcome. now destruct (snd m). Qed.

(** A property of events that holds along [m] and along every
    continuation holds along [bind m k]. *)
Lemma Forall_bind {A B} (P : event -> Prop) (m : M A) (k : A -> M B) :
  Forall P (trace m) -> (forall a, Forall P (trace (k a))) ->
  Forall P (trace (bind m k)).
Proof.
  intros Hm Hk. rewrite trace_bind. destruct (outcome m); [|exact Hm].
  apply Forall_app. split; [exact Hm | apply Hk].
Qed.

Lemma Forall_call {A} (P : event -> Prop) (e : event) (g : gateway) (r : reply A) :
  P e -> Forall P (trace (call e g r)).
Proof. intros H. repeat constructor. exact H. Qed.

Lemma Forall_perform {A} (P : event -> Prop) (e : event) (r : result A) :
  P e -> Forall P (trace (perform e r)).
Proof. intros H. repeat constructor. exact H. Qed.

Lemma Forall_emit (P : event -> Prop) (e : event) :
  P e -> Forall P (trace (emit e)).
Proof. intros H. repeat constructor. exact H. Qed.

Lemma Forall_ret {A} (P : event -> Prop) (a : A) : Forall P (trace (ret a)).
Proof. constructor. Qed.

Lemma Forall_fail {A} (P : event -> Prop) (e : error) :
  Forall P (trace (@fail A e)).
Proof. constructor. Qed.

Lemma Forall_attempt {A} (P : event -> Prop) (m : M A) :
  Forall P (trace m) -> Forall P (trace (attempt m)).
Proof. intros H. exact H. Qed.

(** Walks a command, leaving one goal [P e] per event it can produce. *)
Ltac along_trace :=
  repeat first
    [ match goal with
      | |- Forall _ (trace (ret _)) => apply Forall_ret
      | |- Forall _ (trace (fail _)) => apply Forall_fail
      | |- Forall _ (trace (attempt _)) => apply Forall_attempt
      | |- Forall _ (trace (emit _)) => apply Forall_emit
      | |- Forall _ (trace (call _ _ _)) => apply Forall_call
      | |- Forall _ (trace (perform _ _)) => apply Forall_perform
      | |- Forall _ (trace (bind _ _)) => apply Forall_bind; [|intro]
      | |- Forall _ (trace (if ?b then _ else _)) => destruct b
      | |- Forall _ (trace (match ?x with _ => _ end)) => destruct x
      end
    | progress cbv beta zeta ].

(** Runs a command as far as the answers of the world are known. *)
Ltac run :=
  cbv beta iota zeta delta
    [bind ret fail emit attempt perform call trace outcome Println Print
     loadSettings config_Load git_NewClient jiraFactory GetTicket UpdateStatus
     SearchWithJQL fst snd List.app
     configLoad gitNewClient gitCurrentBranch gitIsClean gitCreateBranch gitPush
     gitCommit jiraGetTicket jiraUpdateStatus jiraSearchWithJQL
     gitHubCreatePullRequest gitLabCreateMergeRequest jsonMarshalIndent
     stdinReadString].

(** Finds an event in a trace whose later part may not be known. *)
Ltac in_run :=
  repeat first [apply in_eq | apply in_cons | (apply in_or_app; right)].

(** ** Token masking *)

Lemma MaskToken_short (token : string) :
  (String.length token <= 4)%nat ->
  config.MaskToken token = strings.Repeat "*" (String.length token).
Proof.
  intros H. unfold config.MaskToken, config.len.
  destruct (Z.leb_spec (Z.of_nat (String.length token)) 4); [|lia].
  now rewrite Nat2Z.id.
Qed.

Lemma MaskToken_long (token : string) :
  (4 < String.length token)%nat ->
  config.MaskToken token
  = String.substring 0 4 token ++ "***"
    ++ String.substring (String.length token - 4) 4 token.
Proof.
  intros H. unfold config.MaskToken, config.len, config.sliceTo, config.sliceFrom.
  destruct (Z.leb_spec (Z.of_nat (String.length token)) 4); [lia|].
  unfold config.min, config.max.
  destruct (Z.ltb_spec 4 (Z.of_nat (String.length token))); [|lia].
  destruct (0 >? Z.of_nat (String.length token) - 4)%Z eqn:E;
    [apply Z.gtb_lt in E; lia|].
  replace (Z.to_nat (Z.of_nat (String.length token) - 4))
    with (String.length token - 4)%nat by lia.
  replace (String.length token - (String.length token - 4))%nat with 4%nat by lia.
  reflexivity.
Qed.

Lemma headTailOverlap_iff (token : string) :
  headTailOverlap token = true <-> (1 <= String.length token <= 7)%nat.
Proof.
  unfold headTailOverlap, tailStart, headEnd, config.min, config.max, config.len.
  destruct (Z.ltb_spec 4 (Z.of_nat (String.length token)));
    destruct (0 >? Z.of_nat (String.length token) - 4)%Z eqn:E;
    try (apply Z.gtb_lt in E);
    try (assert (E' : ~ (Z.of_nat (String.length token) - 4 < 0)%Z)
           by (rewrite <- Z.gtb_lt; congruence));
    rewrite Z.ltb_lt; lia.
Qed.

(** The two token lines of the configuration display show the masked
    tokens. *)
Lemma printConfig_masks (settings : config.Settings) :
  In (tokenLine (config.MaskToken
                   (config.AuthToken (config.Auth (config.Jira settings)))))
     (trace (printConfig settings))
  /\ In (tokenLine (config.MaskToken (config.Token (config.Git settings))))
        (trace (printConfig settings)).
Proof.
  unfold printConfig, tokenLine. run.
  destruct (String.eqb (config.Owner (config.Git settings)) "");
    destruct (String.eqb (config.Repo (config.Git settings)) "");
    cbn [negb]; run; split; in_run.
Qed.

(** C10, as the code has it.  [MaskToken] returns as many asterisks as the
    token has bytes when it has at most 4; for a longer token it returns its
    first 4 bytes, three asterisks and its last 4 bytes.  For a token of 5
    to 7 bytes the head and the tail overlap; for a token of 5 to 8 bytes
    they cover the token: every byte of it stands in the masked text, and
    the token is read back from it.  The configuration display prints its
    two tokens through [MaskToken]. *)
Theorem MaskToken_cases (token : string) :
  ((String.length token <= 4)%nat ->
   config.MaskToken token = strings.Repeat "*" (String.length token))
  /\ ((4 < String.length token)%nat ->
      config.MaskToken token
      = String.substring 0 4 token ++ "***"
        ++ String.substring (String.length token - 4) 4 token)
  /\ ((5 <= String.length token <= 7)%nat -> headTailOverlap token = true)
  /\ ((5 <= String.length token <= 8)%nat ->
      (forall i, (i < String.length token)%nat ->
                 String.get (revealedAt (String.length token) i)
                            (config.MaskToken token)
                 = String.get i token)
      /\ token
         = String.substring 0 4 (config.MaskToken token)
           ++ String.substring (15 - String.length token)
                               (String.length token - 4)
                               (config.MaskToken token))
  /\ (forall settings,
         In (tokenLine (config.MaskToken
                          (config.AuthToken (config.Auth (config.Jira settings)))))
            (trace (printConfig settings))
         /\ In (tokenLine (config.MaskToken (config.Token (config.Git settings))))
               (trace (printConfig settings))).
Proof.
  split; [apply MaskToken_short | split; [apply MaskToken_long|split]].
  { intros H. apply headTailOverlap_iff. lia. }
  split; [|apply printConfig_masks].
  intros [Hlo Hhi].
  destruct token as [|a [|b [|c [|d [|e [|f [|g [|h [|k rest]]]]]]]]];
    simpl in Hlo, Hhi; try lia; (split; [|reflexivity]);
    intros i Hi; simpl in Hi;
    do 8 (destruct i as [|i]; [reflexivity|]); lia.
Qed.

Lemma MaskToken_cases_witness :
  config.MaskToken "abc" = "***"
  /\ config.MaskToken "0123456789" = "0123***6789"
  /\ headTailOverlap "secret" = true
  /\ String.get (revealedAt 6 4) (config.MaskToken "secret") = Some "e"%char
  /\ "secret" = String.substring 0 4 (config.MaskToken "secret")
                ++ String.substring 9 2 (config.MaskToken "secret").
Proof.
  split; [|split; [|split; [|split]]].
  - apply (proj1 (MaskToken_cases "abc")). simpl. lia.
  - apply (proj1 (proj2 (MaskToken_cases "0123456789"))). simpl. lia.
  - apply (proj1 (proj2 (proj2 (MaskToken_cases "secret")))). simpl. lia.
  - apply (proj1 (proj1 (proj2 (proj2 (proj2 (MaskToken_cases "secret"))))
                         ltac:(simpl; lia)) 4%nat).
    simpl. lia.
  - apply (proj2 (proj1 (proj2 (proj2 (proj2 (MaskToken_cases "secret"))))
                         ltac:(simpl; lia))).
Defined.

(** C10 as stated fails at 8 bytes: the tail starts where the head ends,
    so the two do not overlap, though together they show the whole
    token. *)
Lemma MaskToken_eight_no_overlap :
  (5 <= String.length "abcdefgh" <= 8)%nat
  /\ config.MaskToken "abcdefgh" = "abcd***efgh"
  /\ headEnd "abcdefgh" = 4%Z
  /\ tailStart "abcdefgh" = 4%Z
  /\ headTailOverlap "abcdefgh" = false.
Proof. repeat split; simpl; lia. Qed.

(** ** [start]: the idempotence guard *)

Section Start.
Context {U : UnicodeTables}.

(** C5. When the version-control client reports a current branch that
    holds the ticket ID, letter case apart, [start] stops there: it
    reports that the branch is already checked out, returns no error, and
    its run holds no tracker operation (no ticket fetch, no status
    transition) and no change to the repository (no branch creation). *)
Theorem start_already_started (w : World) (ticketID branch : string) :
  gitCurrentBranch w = Done branch ->
  strings.Contains (strings.ToUpper branch) (strings.ToUpper ticketID) = true ->
  Forall untouched (trace (handleStart w ticketID))
  /\ forall settings root,
      configLoad w = Loaded settings -> gitNewClient w = Done root ->
      handleStart w ticketID
      = ([ConfigLoad; GitNewClient; GitCurrentBranch;
          Stdout (utils.Yellow ("Already on branch: " ++ branch) ++ nl);
          Stdout (utils.Dim "Run 'devflow status' to see current state" ++ nl)],
         Ok tt).
Proof.
  intros Hbranch Hon. destruct w; cbn in Hbranch; subst.
  split.
  - unfold handleStart. run.
    destruct configLoad0; run; try (repeat constructor; fail).
    destruct gitNewClient0; run; try (repeat constructor; fail).
    rewrite Hon. run. repeat constructor.
  - intros settings root Hload Hclient. cbn in Hload, Hclient. subst.
    unfold handleStart. run. rewrite Hon. reflexivity.
Qed.

End Start.

Lemma start_already_started_witness :
  handleStart (sampleWorld "gitlab" "feat/TEST-1/implement_widget" true (Done tt) [])
              "test-1"
  = ([ConfigLoad; GitNewClient; GitCurrentBranch;
      Stdout (utils.Yellow ("Already on branch: " ++ "feat/TEST-1/implement_widget")
              ++ nl);
      Stdout (utils.Dim "Run 'devflow status' to see current state" ++ nl)],
     Ok tt).
Proof.
  apply (proj2 (@start_already_started latin1Tables
                  (sampleWorld "gitlab" "feat/TEST-1/implement_widget" true (Done tt) [])
                  "test-1" "feat/TEST-1/implement_widget"
                  eq_refl eq_refl)
               (sampleSettings "gitlab") "/home/dev/project");
    reflexivity.
Defined.

(** ** [done]: the clean working tree *)

Section Done.
Context {U : UnicodeTables}.

(** C6. When the version-control client reports a tree that is not clean,
    [done] fails with the uncommitted-changes error, an error of its own
    making and so different from whatever error the client returns (which
    [done] hands on as it is when the client itself fails); it has then
    pushed nothing, fetched no ticket, created no request and changed no
    status. *)
Theorem done_uncommitted (w : World) (settings : config.Settings) (root : string) :
  configLoad w = Loaded settings ->
  gitNewClient w = Done root ->
  gitIsClean w = Done false ->
  handleDone w = ([ConfigLoad; GitNewClient; GitIsClean], Fail uncommittedChanges)
  /\ Forall untouched (trace (handleDone w))
  /\ (forall g msg, uncommittedChanges <> gatewayErr g msg)
  /\ (forall w' msg,
         configLoad w' = Loaded settings -> gitNewClient w' = Done root ->
         gitIsClean w' = Refused msg ->
         outcome (handleDone w') = Fail (gatewayErr FromGit msg)).
Proof.
  intros Hload Hclient Hclean.
  assert (E : handleDone w
              = ([ConfigLoad; GitNewClient; GitIsClean], Fail uncommittedChanges)).
  { destruct w; cbn in Hload, Hclient, Hclean; subst. reflexivity. }
  split; [exact E | split; [|split]].
  - rewrite E. repeat constructor.
  - intros g msg. discriminate.
  - intros w' msg Hload' Hclient' Hclean'.
    destruct w'; cbn in Hload', Hclient', Hclean'; subst. reflexivity.
Qed.

End Done.

Lemma done_uncommitted_witness :
  handleDone (sampleWorld "gitlab" "feat/TEST-1/implement_widget" false (Done tt) [])
  = ([ConfigLoad; GitNewClient; GitIsClean], Fail uncommittedChanges).
Proof.
  apply (proj1 (@done_uncommitted latin1Tables
                  (sampleWorld "gitlab" "feat/TEST-1/implement_widget" false (Done tt) [])
                  (sampleSettings "gitlab") "/home/dev/project"
                  eq_refl eq_refl eq_refl)).
Defined.

(** ** The soft step: a status transition that fails *)

Ltac run_in H :=
  cbv beta iota zeta delta
    [bind ret fail emit attempt perform call trace outcome Println Print
     loadSettings config_Load git_NewClient jiraFactory GetTicket UpdateStatus
     SearchWithJQL fst snd List.app
     configLoad gitNewClient gitCurrentBranch gitIsClean gitCreateBranch gitPush
     gitCommit jiraGetTicket jiraUpdateStatus jiraSearchWithJQL
     gitHubCreatePullRequest gitLabCreateMergeRequest jsonMarshalIndent
     stdinReadString] in H.

(** Proves that an event is in an explicit trace. *)
Ltac in_trace :=
  cbn [In]; repeat first [left; reflexivity | right].

Section SoftStep.
Context {U : UnicodeTables}.

Lemma start_soft_transition (w : World) (settings : config.Settings)
      (root ticketID msg : string) (ticket : models.JiraTicket) :
  configLoad w = Loaded settings ->
  gitNewClient w = Done root ->
  onTicketBranch w ticketID = false ->
  jiraGetTicket w ticketID = Done ticket ->
  gitCreateBranch w (startBranch settings ticketID ticket) = Done tt ->
  config.DefaultTransition (config.Prefs settings) <> "" ->
  jiraUpdateStatus w ticketID (config.DefaultTransition (config.Prefs settings))
  = Refused msg ->
  outcome (handleStart w ticketID) = Ok tt
  /\ In (JiraUpdateStatus ticketID (config.DefaultTransition (config.Prefs settings)))
        (trace (handleStart w ticketID))
  /\ In (statusWarning msg) (trace (handleStart w ticketID))
  /\ In (Stdout (utils.Green (utils.Bold "✨ All set! You're ready to code!") ++ nl))
        (trace (handleStart w ticketID)).
Proof.
  intros Hload Hclient Hguard Hticket Hcreate Htrans Hupdate.
  apply String.eqb_neq in Htrans.
  unfold onTicketBranch, startBranch in *.
  destruct w; cbn in Hload, Hclient, Hguard, Hticket, Hcreate, Hupdate; subst.
  unfold handleStart. run.
  destruct gitCurrentBranch0 as [branch|refusal]; run;
    [rewrite Hguard; run|];
    rewrite Hticket; run; rewrite Hcreate; run;
    rewrite Htrans; run; rewrite Hupdate; run;
    (split; [reflexivity|]); repeat split; in_trace.
Qed.

Lemma done_soft_transition (w : World) (settings : config.Settings)
      (root branch ticketID url msg : string) (ticket : models.JiraTicket) :
  configLoad w = Loaded settings ->
  gitNewClient w = Done root ->
  gitIsClean w = Done true ->
  gitCurrentBranch w = Done branch ->
  utils.ExtractTicketID branch = Ok ticketID ->
  gitPush w branch = Done tt ->
  jiraGetTicket w ticketID = Done ticket ->
  outcome (createRequest w settings root
             (strings.ToLower (config.Provider (config.Git settings)))
             branch (prTitle ticketID ticket) (prDescription settings ticketID))
  = Ok url ->
  jiraUpdateStatus w ticketID "In Review" = Refused msg ->
  outcome (handleDone w) = Ok tt
  /\ In (JiraUpdateStatus ticketID "In Review") (trace (handleDone w))
  /\ In (statusWarning msg) (trace (handleDone w))
  /\ In (Stdout (utils.Green (utils.Bold "All done! Ready for review!") ++ nl))
        (trace (handleDone w)).
Proof.
  intros Hload Hclient Hclean Hbranch Hid Hpush Hticket Hrequest Hupdate.
  unfold prTitle, prDescription in Hrequest.
  destruct w; cbn in Hload, Hclient, Hclean, Hbranch, Hpush, Hticket, Hupdate; subst.
  run_in Hrequest.
  unfold handleDone. run. rewrite Hid. run. rewrite Hpush. run.
  rewrite Hticket. run. rewrite Hrequest. run. rewrite Hupdate. run.
  split; [reflexivity|].
  repeat split; repeat (apply in_cons); apply in_or_app; right; in_trace.
Qed.

(** C4. In [start] and in [done] alike, when every step before the status
    transition succeeds and the transition call fails, the failure is
    caught and printed as a warning, the workflow goes on to its closing
    message, and it returns no error. *)
Theorem transition_failure_is_soft :
  (forall (w : World) (settings : config.Settings) (root ticketID msg : string)
          (ticket : models.JiraTicket),
      configLoad w = Loaded settings ->
      gitNewClient w = Done root ->
      onTicketBranch w ticketID = false ->
      jiraGetTicket w ticketID = Done ticket ->
      gitCreateBranch w (startBranch settings ticketID ticket) = Done tt ->
      config.DefaultTransition (config.Prefs settings) <> "" ->
      jiraUpdateStatus w ticketID (config.DefaultTransition (config.Prefs settings))
      = Refused msg ->
      outcome (handleStart w ticketID) = Ok tt
      /\ In (JiraUpdateStatus ticketID
               (config.DefaultTransition (config.Prefs settings)))
            (trace (handleStart w ticketID))
      /\ In (statusWarning msg) (trace (handleStart w ticketID))
      /\ In (Stdout (utils.Green (utils.Bold "✨ All set! You're ready to code!")
                     ++ nl))
            (trace (handleStart w ticketID)))
  /\ (forall (w : World) (settings : config.Settings)
             (root branch ticketID url msg : string) (ticket : models.JiraTicket),
         configLoad w = Loaded settings ->
         gitNewClient w = Done root ->
         gitIsClean w = Done true ->
         gitCurrentBranch w = Done branch ->
         utils.ExtractTicketID branch = Ok ticketID ->
         gitPush w branch = Done tt ->
         jiraGetTicket w ticketID = Done ticket ->
         outcome (createRequest w settings root
                    (strings.ToLower (config.Provider (config.Git settings)))
                    branch (prTitle ticketID ticket)
                    (prDescription settings ticketID))
         = Ok url ->
         jiraUpdateStatus w ticketID "In Review" = Refused msg ->
         outcome (handleDone w) = Ok tt
         /\ In (JiraUpdateStatus ticketID "In Review") (trace (handleDone w))
         /\ In (statusWarning msg) (trace (handleDone w))
         /\ In (Stdout (utils.Green (utils.Bold "All done! Ready for review!") ++ nl))
               (trace (handleDone w))).
Proof.
  split.
  - intros. eapply start_soft_transition; eassumption.
  - intros. eapply done_soft_transition; eassumption.
Qed.

End SoftStep.

Lemma transition_failure_is_soft_witness :
  (outcome (handleStart (sampleWorld "gitlab" "main" true (Refused "denied") [])
                        "TEST-1") = Ok tt
   /\ In (statusWarning "denied")
         (trace (handleStart (sampleWorld "gitlab" "main" true (Refused "denied") [])
                             "TEST-1")))
  /\ (outcome (handleDone (sampleWorld "github" "feat/TEST-1/implement_widget" true
                                       (Refused "denied") [])) = Ok tt
      /\ In (statusWarning "denied")
            (trace (handleDone (sampleWorld "github" "feat/TEST-1/implement_widget"
                                            true (Refused "denied") [])))).
Proof.
  split.
  - pose proof (proj1 (@transition_failure_is_soft latin1Tables)
                      (sampleWorld "gitlab" "main" true (Refused "denied") [])
                      (sampleSettings "gitlab") "/home/dev/project" "TEST-1" "denied"
                      sampleTicket eq_refl eq_refl eq_refl eq_refl eq_refl
                      ltac:(discriminate) eq_refl) as H.
    split; [exact (proj1 H) | exact (proj1 (proj2 (proj2 H)))].
  - pose proof (proj2 (@transition_failure_is_soft latin1Tables)
                      (sampleWorld "github" "feat/TEST-1/implement_widget" true
                                   (Refused "denied") [])
                      (sampleSettings "github") "/home/dev/project"
                      "feat/TEST-1/implement_widget" "TEST-1"
                      "https://github.example.com/pr/1" "denied"
                      sampleTicket eq_refl eq_refl eq_refl eq_refl eq_refl eq_refl
                      eq_refl eq_refl eq_refl) as H.
    split; [exact (proj1 H) | exact (proj1 (proj2 (proj2 H)))].
Defined.

(** ** [done]: the target branch of the request *)

Ltac targets_main :=
  let t := fresh "target" in
  let H := fresh "H" in
  intros t H; cbv beta iota delta [targetBranch] in H;
  first [discriminate H | injection H as <-; reflexivity].

Section Target.
Context {U : UnicodeTables}.

(** C7. Every create-request call of [done], to either provider, names
    the literal [main] as its target branch; and when the steps before it
    succeed the call is made, with the current branch as its source. *)
Theorem done_targets_main (w : World) :
  Forall targetsMain (trace (handleDone w))
  /\ forall settings root branch ticketID ticket,
      configLoad w = Loaded settings ->
      gitNewClient w = Done root ->
      gitIsClean w = Done true ->
      gitCurrentBranch w = Done branch ->
      utils.ExtractTicketID branch = Ok ticketID ->
      gitPush w branch = Done tt ->
      jiraGetTicket w ticketID = Done ticket ->
      (strings.ToLower (config.Provider (config.Git settings)) = "github" ->
       config.Owner (config.Git settings) <> "" ->
       config.Repo (config.Git settings) <> "" ->
       In (GitHubCreatePullRequest branch "main" (prTitle ticketID ticket)
             (prDescription settings ticketID))
          (trace (handleDone w)))
      /\ (strings.ToLower (config.Provider (config.Git settings)) = "gitlab" ->
          In (GitLabCreateMergeRequest (filepath.Base root) branch "main"
                (prTitle ticketID ticket) (prDescription settings ticketID))
             (trace (handleDone w))).
Proof.
  split.
  - unfold handleDone, createRequest, loadSettings, config_Load, git_NewClient,
      jiraFactory, GetTicket, UpdateStatus, Println, Print.
    along_trace; targets_main.
  - intros settings root branch ticketID ticket
           Hload Hclient Hclean Hbranch Hid Hpush Hticket.
    destruct w; cbn in Hload, Hclient, Hclean, Hbranch, Hpush, Hticket; subst.
    unfold prTitle, prDescription.
    split.
    + intros Hprovider Howner Hrepo.
      apply String.eqb_neq in Howner, Hrepo.
      unfold handleDone, createRequest. run. rewrite Hid. run. rewrite Hpush. run.
      rewrite Hticket. run. rewrite Hprovider, Howner, Hrepo.
      cbn [String.eqb Ascii.eqb Bool.eqb orb]. run.
      destruct (gitHubCreatePullRequest0 _ _ _ _); in_trace.
    + intros Hprovider.
      unfold handleDone, createRequest. run. rewrite Hid. run. rewrite Hpush. run.
      rewrite Hticket. run. rewrite Hprovider.
      cbn [String.eqb Ascii.eqb Bool.eqb orb]. run.
      destruct (gitLabCreateMergeRequest0 _ _ _ _ _); in_trace.
Qed.

End Target.

Lemma done_targets_main_witness :
  targetsMain
    (GitLabCreateMergeRequest "project" "feat/TEST-1/implement_widget" "main"
       "TEST-1: Implement widget"
       (prDescription (sampleSettings "GitLab") "TEST-1"))
  /\ In (GitLabCreateMergeRequest "project" "feat/TEST-1/implement_widget" "main"
           "TEST-1: Implement widget"
           (prDescription (sampleSettings "GitLab") "TEST-1"))
        (trace (handleDone (sampleWorld "GitLab" "feat/TEST-1/implement_widget" true
                                        (Done tt) []))).
Proof.
  pose proof (@done_targets_main latin1Tables
                (sampleWorld "GitLab" "feat/TEST-1/implement_widget" true (Done tt) []))
    as [Hall Hmade].
  pose proof (proj2 (Hmade (sampleSettings "GitLab") "/home/dev/project"
                           "feat/TEST-1/implement_widget" "TEST-1" sampleTicket
                           eq_refl eq_refl eq_refl eq_refl eq_refl eq_refl eq_refl)
                    eq_refl) as Hin.
  split; [|exact Hin].
  exact (proj1 (Forall_forall _ _) Hall _ Hin).
Defined.

(** ** Queries: the ceiling, the truncation notice, the clauses *)

Lemma replaceFrom_quote (s : string) :
  strings.replaceFrom quote escapedQuote 0 s = escapeQuotes s.
Proof.
  induction s as [|c s IH]; [reflexivity|].
  cbn [strings.replaceFrom escapeQuotes].
  change (String.length quote - 1)%nat with 0%nat.
  unfold quote at 1. rewrite prefix_single, IH.
  destruct (Ascii.eqb c "034"); reflexivity.
Qed.

Lemma escapeJQL_spec (value : string) : escapeJQL value = escapeQuotes value.
Proof. apply replaceFrom_quote. Qed.

Lemma escapeQuotes_escaped (s : string) (escaped : bool) :
  quotesEscaped escaped (escapeQuotes s) = true.
Proof.
  revert escaped. induction s as [|c s IH]; intros escaped; [reflexivity|].
  cbn [escapeQuotes]. destruct (Ascii.eqb c "034") eqn:E.
  - cbn. apply IH.
  - cbn [quotesEscaped]. now rewrite E, IH.
Qed.

Section Queries.
Context {U : UnicodeTables}.

Lemma Forall_printResults (P : event -> Prop) (i : Z)
      (tickets : list models.JiraTicket) :
  (forall text, P (Stdout text)) -> Forall P (trace (printResults i tickets)).
Proof.
  intros HP. revert i. induction tickets as [|t ts IH]; intros i.
  - constructor.
  - cbn [printResults]. apply Forall_bind; [|intros _; apply IH].
    apply Forall_emit, HP.
Qed.

Lemma Forall_printTicketList (P : event -> Prop)
      (tickets : list models.JiraTicket) :
  (forall text, P (Stdout text)) -> Forall P (trace (printTicketList tickets)).
Proof.
  intros HP. induction tickets as [|t ts IH].
  - constructor.
  - cbn [printTicketList]. apply Forall_bind; [|intros _; apply IH].
    apply Forall_emit, HP.
Qed.


Lemma printTicketList_ok (tickets : list models.JiraTicket) :
  outcome (printTicketList tickets) = Ok tt.
Proof.
  induction tickets as [|t ts IH]; [reflexivity|].
  cbn [printTicketList]. rewrite outcome_bind. cbn. apply IH.
Qed.

End Queries.


Section Search.
Context {U : UnicodeTables}.

(** The query [search] sends is the text clause followed by the filter
    clauses, joined by AND, with the limit of the options as ceiling. *)
Lemma handleSearch_sends (w : World) (opts : searchOptions)
      (settings : config.Settings) :
  configLoad w = Loaded settings ->
  In (JiraSearchWithJQL (searchJQL settings opts) (Limit opts))
     (trace (handleSearch w opts)).
Proof.
  intros Hload. destruct w; cbn in Hload; subst.
  unfold handleSearch, searchJQL, filterClauses, projectClause, assigneeClause,
    statusClause, projectOf, textClause, append. run.
  repeat match goal with
         | |- context [String.eqb ?a ?b] => destruct (String.eqb a b)
         end;
    cbn [negb List.app]; in_run.
Qed.

(** What [search] sends.  The query begins with the free-text clause, in
    which every quote of the text is replaced by a backslash and a quote,
    so that every quote comes right after a backslash (which escapes it
    only when no backslash of the text stands before it, see below); and
    the assignee filter [me] adds the clause [assignee = currentUser()],
    not a clause comparing the assignee with the text [me]. *)
Theorem search_query (w : World) (opts : searchOptions)
        (settings : config.Settings) :
  configLoad w = Loaded settings ->
  In (JiraSearchWithJQL
        (strings.Join (textClause (Query opts) :: filterClauses settings opts)
                      " AND ")
        (Limit opts))
     (trace (handleSearch w opts))
  /\ escapeJQL (Query opts) = escapeQuotes (Query opts)
  /\ quotesEscaped false (escapeJQL (Query opts)) = true
  /\ (Assignee opts = "me" ->
      In "assignee = currentUser()" (filterClauses settings opts)
      /\ ~ In ("assignee = " ++ quote ++ "me" ++ quote)
              (filterClauses settings opts)).
Proof.
  intros Hload. split; [now apply handleSearch_sends|].
  split; [apply escapeJQL_spec|].
  split; [rewrite escapeJQL_spec; apply escapeQuotes_escaped|].
  intros Hme. unfold filterClauses, assigneeClause. rewrite Hme.
  cbn [String.eqb Ascii.eqb Bool.eqb].
  split.
  - apply in_or_app. right. apply in_or_app. left. apply in_eq.
  - intros Hin.
    apply in_app_or in Hin as [Hin | Hin]; [|apply in_app_or in Hin as [Hin | Hin]].
    + unfold projectClause in Hin.
      destruct (String.eqb _ ""); cbn in Hin; [easy|].
      destruct Hin as [Hin | []]. discriminate Hin.
    + destruct Hin as [Hin | []]. discriminate Hin.
    + unfold statusClause in Hin.
      destruct (String.eqb _ ""); cbn in Hin; [easy|].
      destruct Hin as [Hin | []]. discriminate Hin.
Qed.

End Search.

(** A backslash of the text is passed on as it is, so a backslash before
    a quote is followed by the backslash that escapes the quote. *)
Remark escapeJQL_backslash :
  escapeJQL ("a\" ++ quote ++ "b") = "a\\" ++ quote ++ "b".
Proof. reflexivity. Qed.

(** In a text without backslash no quote is left to close the quoted
    text. *)
Lemma escapeJQL_plain_text (query : string) :
  hasByte "\" query = false ->
  closingQuote false (escapeJQL query) = false.
Proof.
  rewrite escapeJQL_spec.
  induction query as [|c query IH]; [reflexivity|].
  cbn [hasByte escapeQuotes]. intros H. apply orb_false_iff in H as [Hc Hq].
  destruct (Ascii.eqb c "034") eqn:Equote.
  - cbn [String.append closingQuote Ascii.eqb Bool.eqb quote]. now apply IH.
  - cbn [closingQuote]. rewrite Hc, Equote. now apply IH.
Qed.

(** C9.  The claim fails on the code for a quote that comes after a
    backslash.  On the text [x], backslash, quote, [escapeJQL] returns
    [x], backslash, backslash, quote: the backslash it adds is taken by
    the backslash of the text, and the quote closes the quoted text of
    the clause [search] sends.  [escape] of the settings file, which
    doubles the backslashes first, leaves no such quote on the same
    text. *)
Theorem search_backslash_quote :
  escapeJQL backslashQuote = "x\\" ++ quote
  /\ closingQuote false (escapeJQL backslashQuote) = true
  /\ closingQuote false (configfile.escape backslashQuote) = false
  /\ In (JiraSearchWithJQL
           ("(summary ~ " ++ quote ++ "x\\" ++ quote ++ quote
            ++ " OR description ~ " ++ quote ++ "x\\" ++ quote ++ quote
            ++ ") AND project = TEST")
           10)
        (trace (handleSearch (sampleWorld "gitlab" "main" true (Done tt) [])
                             (sampleSearch backslashQuote "" 10))).
Proof.
  split; [reflexivity|]. split; [reflexivity|]. split; [reflexivity|].
  vm_compute. repeat first [left; reflexivity | right].
Qed.

Lemma search_query_witness :
  In (JiraSearchWithJQL
        ("(summary ~ " ++ quote ++ "say \" ++ quote ++ "hi\" ++ quote ++ quote
         ++ " OR description ~ " ++ quote ++ "say \" ++ quote ++ "hi\" ++ quote
         ++ quote ++ ") AND project = TEST AND assignee = currentUser()")
        10)
     (trace (handleSearch
               (sampleWorld "gitlab" "main" true (Done tt) [])
               (sampleSearch ("say " ++ quote ++ "hi" ++ quote) "me" 10))).
Proof.
  exact (proj1 (@search_query latin1Tables
                  (sampleWorld "gitlab" "main" true (Done tt) [])
                  (sampleSearch ("say " ++ quote ++ "hi" ++ quote) "me" 10)
                  (sampleSettings "gitlab") eq_refl)).
Defined.

(** ** The ceiling of a query and the truncation notice *)

Ltac along_query :=
  repeat first
    [ match goal with
      | |- Forall _ (trace (printResults _ _)) =>
        apply Forall_printResults; intro
      | |- Forall _ (trace (printTicketList _)) =>
        apply Forall_printTicketList; intro
      end
    | progress along_trace ].


Section Ceiling.
Context {U : UnicodeTables}.








End Ceiling.



(* ================================================================= *)
(** * More of the repository: properties *)

(** ** Lemmas on strings and on [range] *)

Lemma length_append (s t : string) :
  String.length (s ++ t) = (String.length s + String.length t)%nat.
Proof. induction s as [|a s IH]; simpl; [reflexivity | now rewrite IH]. Qed.

Lemma substring_all (s : string) : String.substring 0 (String.length s) s = s.
Proof. induction s as [|a s IH]; simpl; [reflexivity | now rewrite IH]. Qed.

Lemma substring_head (s t : string) :
  String.substring 0 (String.length s) (s ++ t) = s.
Proof.
  induction s as [|a s IH]; simpl; [now destruct t | now rewrite IH].
Qed.

Lemma substring_tail (s t : string) :
  String.substring (String.length s) (String.length t) (s ++ t) = t.
Proof.
  induction s as [|a s IH]; simpl; [apply substring_all | exact IH].
Qed.

Lemma substring_last (s : string) (a : ascii) :
  String.substring (String.length s) 1 (s ++ String a "") = String a "".
Proof. exact (substring_tail s (String a "")). Qed.

Lemma HasSuffix_snoc (s : string) (a b : ascii) :
  stringsMore.HasSuffix (s ++ String a "") (String b "") = Ascii.eqb a b.
Proof.
  unfold stringsMore.HasSuffix. rewrite length_append. cbn [String.length].
  replace (String.length s + 1 - 1)%nat with (String.length s) by lia.
  replace (1 <=? String.length s + 1)%nat with true
    by (symmetry; apply Nat.leb_le; lia).
  rewrite substring_last. cbn [andb String.eqb].
  now destruct (Ascii.eqb a b).
Qed.

Lemma TrimSuffix_snoc (s : string) (a : ascii) :
  stringsMore.TrimSuffix (s ++ String a "") (String a "") = s.
Proof.
  unfold stringsMore.TrimSuffix. rewrite HasSuffix_snoc, Ascii.eqb_refl.
  rewrite length_append. cbn [String.length].
  replace (String.length s + 1 - 1)%nat with (String.length s) by lia.
  apply substring_head.
Qed.

Lemma TrimPrefix_cons (a : ascii) (s : string) :
  stringsMore.TrimPrefix (String a s) (String a "") = s.
Proof.
  unfold stringsMore.TrimPrefix, stringsMore.HasPrefix.
  rewrite prefix_single, Ascii.eqb_refl. cbn [String.length].
  replace (S (String.length s) - 1)%nat with (String.length s) by lia.
  cbn [String.substring]. apply substring_all.
Qed.

Lemma classify_ascii (b : ascii) :
  (utf8.byteN b < 0x80)%N -> utf8.classify b = utf8.as1.
Proof.
  intros H. unfold utf8.classify. cbv zeta.
  destruct (N.ltb_spec (utf8.byteN b) 0x80); [reflexivity | lia].
Qed.

Lemma cont_ascii (b : ascii) : (utf8.byteN b < 0x80)%N -> utf8.cont b = false.
Proof.
  intros H. unfold utf8.cont, utf8.inRange.
  destruct (N.leb_spec 0x80 (utf8.byteN b)); [lia | reflexivity].
Qed.

Lemma decode_ascii_cons (b : ascii) (t : string) :
  (utf8.byteN b < 0x80)%N ->
  utf8.decode (String b t) = (utf8.byteN b, String b "") :: utf8.decode t.
Proof. intros H. now rewrite decode_cons, classify_ascii. Qed.

(** An ASCII byte at the end of a string is read as a rune of its own,
    whatever comes before it. *)
Lemma decode_snoc_ascii (b : ascii) (s : string) :
  (utf8.byteN b < 0x80)%N ->
  utf8.decode (s ++ String b "")
  = (utf8.decode s ++ [(utf8.byteN b, String b "")])%list.
Proof.
  intros Hb. pose proof (cont_ascii b Hb) as Hcont.
  remember (String.length s) as n eqn:Hn. revert s Hn.
  induction n as [n IH] using lt_wf_ind. intros s ->.
  assert (Hrec : forall t, (String.length t < String.length s)%nat ->
                           utf8.decode (t ++ String b "")
                           = (utf8.decode t ++ [(utf8.byteN b, String b "")])%list).
  { intros t Ht. now apply (IH _ Ht). }
  clear IH. destruct s as [|b0 t0].
  - cbn [String.append]. now rewrite decode_ascii_cons.
  - cbn [String.append]. rewrite !decode_cons.
    destruct (utf8.classify b0) eqn:Hc.
    + cbn [List.app]. f_equal. apply Hrec. simpl. lia.
    + cbn [List.app]. f_equal. apply Hrec. simpl. lia.
    + destruct t0 as [|b1 t1]; cbn [String.append].
      * rewrite Hcont. cbn [List.app]. f_equal.
        apply (Hrec ""). simpl. lia.
      * destruct (utf8.cont b1); cbn [List.app]; f_equal.
        -- apply Hrec. simpl. lia.
        -- apply (Hrec (String b1 t1)). simpl. lia.
    + destruct t0 as [|b1 [|b2 t2]]; cbn [String.append].
      * cbn [List.app]. f_equal. apply (Hrec ""). simpl. lia.
      * rewrite Hcont, andb_false_r. cbn [List.app]. f_equal.
        apply (Hrec (String b1 "")). simpl. lia.
      * destruct (utf8.inRange lo hi b1 && utf8.cont b2); cbn [List.app]; f_equal.
        -- apply Hrec. simpl. lia.
        -- apply (Hrec (String b1 (String b2 t2))). simpl. lia.
    + destruct t0 as [|b1 [|b2 [|b3 t3]]]; cbn [String.append].
      * cbn [List.app]. f_equal. apply (Hrec ""). simpl. lia.
      * cbn [List.app]. f_equal. apply (Hrec (String b1 "")). simpl. lia.
      * rewrite Hcont, andb_false_r. cbn [List.app]. f_equal.
        apply (Hrec (String b1 (String b2 ""))). simpl. lia.
      * destruct (utf8.inRange lo hi b1 && utf8.cont b2 && utf8.cont b3);
          cbn [List.app]; f_equal.
        -- apply Hrec. simpl. lia.
        -- apply (Hrec (String b1 (String b2 (String b3 t3)))). simpl. lia.
Qed.

(** The bytes read by [range s], put together, are [s]. *)
Lemma decode_concat (s : string) :
  String.concat "" (map snd (utf8.decode s)) = s.
Proof.
  apply (decode_ind (fun s l => String.concat "" (map snd l) = s)).
  - reflexivity.
  - intros b t _ IH. cbn [map snd]. now rewrite concat_empty_cons, IH.
  - intros r c t _ _ IH. cbn [map snd]. now rewrite concat_empty_cons, IH.
Qed.

(** [strings.TrimSpace] leaves a string that begins and ends with ASCII
    bytes that are no spaces as it is. *)
Lemma TrimSpace_core (a z : ascii) (t m : string) :
  (utf8.byteN a < 0x80)%N -> unicode.IsSpace (utf8.byteN a) = false ->
  (utf8.byteN z < 0x80)%N -> unicode.IsSpace (utf8.byteN z) = false ->
  String a t = m ++ String z "" ->
  strings.TrimSpace (String a t) = String a t.
Proof.
  intros Ha Hsa Hz Hsz Hshape. unfold strings.TrimSpace. cbv zeta.
  rewrite (decode_ascii_cons a t Ha). cbn [strings.dropWhile fst]. rewrite Hsa.
  rewrite <- (decode_ascii_cons a t Ha), Hshape, (decode_snoc_ascii z m Hz).
  rewrite rev_unit. cbn [strings.dropWhile fst]. rewrite Hsz.
  cbn [rev]. rewrite rev_involutive, <- (decode_snoc_ascii z m Hz).
  apply decode_concat.
Qed.

Lemma TrimSpace_space (s : string) :
  strings.TrimSpace (String " " s) = strings.TrimSpace s.
Proof.
  unfold strings.TrimSpace. cbv zeta.
  now rewrite (decode_ascii_cons " " s) by reflexivity.
Qed.

Lemma splitNFrom_first (c : ascii) (k r cur : string) :
  hasByte c k = false ->
  stringsMore.splitNFrom (String c "") 2 0 cur (k ++ String c r) = [cur ++ k; r].
Proof.
  revert cur. induction k as [|a k IH]; intros cur H.
  - cbn [String.append stringsMore.splitNFrom].
    rewrite prefix_single, Ascii.eqb_refl, append_nil_r. cbn [String.length Nat.sub].
    now destruct r.
  - simpl in H. apply orb_false_iff in H as [Ha Hk].
    cbn [String.append stringsMore.splitNFrom]. rewrite prefix_single, Ha, IH by assumption.
    now rewrite append_snoc.
Qed.

Lemma SplitN_first (c : ascii) (k r : string) :
  hasByte c k = false ->
  stringsMore.SplitN (k ++ String c r) (String c "") 2 = [k; r].
Proof. intros H. unfold stringsMore.SplitN. cbn. now rewrite splitNFrom_first. Qed.

Lemma rawLines_unlines (lines : list string) :
  Forall (fun l => hasByte "010" l = false) lines ->
  bufio.rawLines (unlines lines) = lines.
Proof.
  intros Hall.
  assert (E : strings.Split (unlines lines) (String "010" "") = (lines ++ [""])%list).
  { induction Hall as [|l rest Hl _ IH]; [reflexivity|].
    cbn [unlines]. change (l ++ nl ++ unlines rest) with (l ++ String "010" (unlines rest)).
    now rewrite Split_at, IH. }
  unfold bufio.rawLines. cbv zeta. rewrite E, last_last, removelast_last.
  reflexivity.
Qed.

(** ** Reading back a line of the settings file *)

Lemma parseValue_quoted (e : string) :
  configfile.parseValue (" " ++ quote ++ e ++ quote) = e.
Proof.
  unfold configfile.parseValue. cbv zeta.
  change (" " ++ quote ++ e ++ quote) with (String " " (String "034" (e ++ quote))).
  rewrite TrimSpace_space.
  rewrite (TrimSpace_core "034" "034" (e ++ quote) (String "034" e));
    try reflexivity.
  unfold quote. now rewrite TrimPrefix_cons, TrimSuffix_snoc.
Qed.

Lemma parseLine_kv (section key e : string) (s : config.Settings) :
  plainKey key = true ->
  configfile.parseLine section s (kv key e) = (section, assignField section key e s).
Proof.
  intros Hkey. destruct key as [|k0 krest]; [discriminate|].
  unfold plainKey in Hkey.
  repeat (apply andb_true_iff in Hkey as [Hkey ?]).
  apply N.ltb_lt in Hkey.
  repeat match goal with
         | H : negb _ = true |- _ => apply negb_true_iff in H
         end.
  match goal with H : String.eqb _ _ = true |- _ => apply String.eqb_eq in H; rename H into Htrim end.
  match goal with H : hasByte "=" _ = false |- _ => rename H into Heq end.
  match goal with H : Ascii.eqb k0 "#" = false |- _ => rename H into Hhash end.
  match goal with H : Ascii.eqb k0 "[" = false |- _ => rename H into Hbracket end.
  match goal with H : unicode.IsSpace _ = false |- _ => rename H into Hspace end.
  unfold configfile.parseLine. cbv zeta.
  assert (Eline : strings.TrimSpace (kv (String k0 krest) e) = kv (String k0 krest) e).
  { unfold kv. cbn [String.append].
    apply (TrimSpace_core k0 "034" _ (String k0 krest ++ " = " ++ quote ++ e));
      try assumption; try reflexivity.
    cbn [String.append]. f_equal. unfold quote. now rewrite !append_assoc. }
  rewrite Eline.
  assert (Eparts : stringsMore.SplitN (kv (String k0 krest) e) "=" 2
                   = [String k0 krest ++ " "; " " ++ quote ++ e ++ quote]).
  { unfold kv.
    replace (String k0 krest ++ " = " ++ quote ++ e ++ quote)
      with ((String k0 krest ++ " ") ++ String "=" (" " ++ quote ++ e ++ quote))
      by (now rewrite append_assoc).
    apply SplitN_first. rewrite hasByte_app, Heq. reflexivity. }
  rewrite Eparts. cbn [List.length Nat.eqb negb nth].
  rewrite Htrim, parseValue_quoted.
  unfold kv, stringsMore.HasPrefix. cbn [String.append String.eqb].
  rewrite !prefix_single, Hhash, Hbracket. reflexivity.
Qed.

Lemma dropCR_kv (key e : string) : bufio.dropCR (kv key e) = kv key e.
Proof.
  unfold bufio.dropCR, kv, quote.
  replace (key ++ " = " ++ String "034" "" ++ e ++ String "034" "")
    with ((key ++ " = " ++ String "034" "" ++ e) ++ String "034" "")
    by (now rewrite !append_assoc).
  now rewrite HasSuffix_snoc.
Qed.

Lemma fits_kv (key e : string) :
  (String.length key <= 18)%nat ->
  (N.of_nat (String.length e) <= 65512)%N ->
  bufio.fits (kv key e) = true.
Proof.
  intros Hk He. unfold bufio.fits, bufio.MaxScanTokenSize, kv.
  rewrite !length_append. cbn [String.length quote]. apply N.ltb_lt. lia.
Qed.

Lemma plainKey_length (key : string) :
  plainKey key = true -> (String.length key <= 18)%nat.
Proof.
  destruct key as [|k0 krest]; [discriminate|]. unfold plainKey. intros H.
  apply andb_true_iff in H as [H _]. apply andb_true_iff in H as [_ H].
  now apply Nat.leb_le.
Qed.

Lemma plainKey_line (key : string) :
  plainKey key = true -> hasByte "010" key = false.
Proof.
  destruct key as [|k0 krest]; [discriminate|]. unfold plainKey. intros H.
  apply andb_true_iff in H as [H _]. apply andb_true_iff in H as [H _].
  apply andb_true_iff in H as [_ H]. now apply negb_true_iff.
Qed.

(** One [key = "value"] line of the loop. *)
Lemma scanLoop_kv (key e section : string) (rest : list string)
      (s : config.Settings) :
  plainKey key = true ->
  (N.of_nat (String.length e) <= 65512)%N ->
  configfile.scanLoop (kv key e :: rest) section s
  = configfile.scanLoop rest section (assignField section key e s).
Proof.
  intros Hkey He. cbn [configfile.scanLoop].
  rewrite (fits_kv key e (plainKey_length key Hkey) He), dropCR_kv.
  now rewrite (parseLine_kv section key e s Hkey).
Qed.

(** A line that is the same for every settings: a section header or a
    blank line. *)
Lemma scanLoop_fixed (raw section section' : string) (rest : list string)
      (s : config.Settings) :
  bufio.fits raw = true ->
  (forall s0, configfile.parseLine section s0 (bufio.dropCR raw) = (section', s0)) ->
  configfile.scanLoop (raw :: rest) section s
  = configfile.scanLoop rest section' s.
Proof.
  intros Hfits Hline. cbn [configfile.scanLoop]. now rewrite Hfits, Hline.
Qed.

(** ** Writing the settings and reading them back *)

Lemma replaceFrom_backslash (s : string) :
  strings.replaceFrom quote escapedQuote 0 (strings.replaceFrom "\" "\\" 0 s)
  = escapeBytes s.
Proof.
  rewrite replaceFrom_quote.
  induction s as [|c s IH]; [reflexivity|].
  cbn [strings.replaceFrom escapeBytes].
  change (String.length "\" - 1)%nat with 0%nat.
  rewrite prefix_single.
  destruct (Ascii.eqb c "\") eqn:Eb.
  - cbn [String.append escapeQuotes Ascii.eqb Bool.eqb]. now rewrite IH.
  - cbn [escapeQuotes]. rewrite IH. now destruct (Ascii.eqb c "034").
Qed.

Lemma escape_bytes (value : string) : configfile.escape value = escapeBytes value.
Proof. apply replaceFrom_backslash. Qed.

Lemma escapeBytes_line (c : ascii) (s : string) :
  Ascii.eqb c "\" = false -> Ascii.eqb c "034" = false ->
  hasByte c (escapeBytes s) = hasByte c s.
Proof.
  intros Hb Hq. induction s as [|a s IH]; [reflexivity|].
  cbn [escapeBytes].
  destruct (Ascii.eqb a "\") eqn:Ea.
  - apply Ascii.eqb_eq in Ea. subst a. cbn [hasByte]. rewrite IH.
    rewrite (Ascii.eqb_sym "\" c), Hb. reflexivity.
  - destruct (Ascii.eqb a "034") eqn:Eq.
    + apply Ascii.eqb_eq in Eq. subst a. cbn [hasByte]. rewrite IH.
      rewrite (Ascii.eqb_sym "\" c), (Ascii.eqb_sym "034" c), Hb, Hq. reflexivity.
    + cbn [hasByte]. now rewrite IH.
Qed.

Lemma escapeBytes_plain (s : string) : plain s = true -> escapeBytes s = s.
Proof.
  unfold plain. induction s as [|a s IH]; [reflexivity|].
  cbn [hasByte escapeBytes]. intros H. apply andb_true_iff in H as [Hb Hq].
  apply negb_true_iff, orb_false_iff in Hb as [Hb Hbs].
  apply negb_true_iff, orb_false_iff in Hq as [Hq Hqs].
  rewrite Hb, Hq, IH; [reflexivity|]. now rewrite Hbs, Hqs.
Qed.

Lemma kv_line (key e : string) :
  hasByte "010" key = false -> hasByte "010" e = false ->
  hasByte "010" (kv key e) = false.
Proof.
  intros Hk He. unfold kv, quote. now rewrite !hasByte_app, Hk, He.
Qed.

Lemma storable_escape (value : string) :
  storable value = true ->
  hasByte "010" (configfile.escape value) = false
  /\ (N.of_nat (String.length (configfile.escape value)) <= 65512)%N.
Proof.
  unfold storable. intros H. apply andb_true_iff in H as [Hline Hlen].
  apply negb_true_iff in Hline. apply N.leb_le in Hlen. split; [|exact Hlen].
  rewrite escape_bytes, escapeBytes_line by reflexivity. exact Hline.
Qed.

Lemma toTOML_lines (s : config.Settings) :
  configfile.toTOML s = unlines (tomlLines s).
Proof.
  unfold configfile.toTOML, tomlLines, configfile.entry, kv. cbv zeta.
  destruct (negb (String.eqb (config.Owner (config.Git s)) ""));
    destruct (negb (String.eqb (config.Repo (config.Git s)) ""));
    cbn [app unlines]; rewrite !append_assoc; reflexivity.
Qed.

Lemma scanLoop_toTOML (s : config.Settings) :
  forallb storable (fieldsOf s) = true ->
  configfile.scanLoop (tomlLines s) "" configfile.zeroSettings
  = (mapFields configfile.escape s, None).
Proof.
  destruct s as [[u e p [ty tok]] [pr b t o r] [bp dt]].
  cbn [fieldsOf forallb config.Jira config.Git config.Prefs config.URL config.Email
       config.ProjectKey config.Auth config.AuthType config.AuthToken
       config.Provider config.BaseURL config.Token config.Owner config.Repo
       config.BranchPrefix config.DefaultTransition].
  intros H.
  repeat match type of H with
         | (_ && _) = true =>
           let Hv := fresh "Hv" in
           apply andb_true_iff in H as [Hv H];
           apply storable_escape in Hv as [_ Hv]
         end.
  clear H. unfold tomlLines, mapFields. cbv zeta.
  cbn [config.Jira config.Git config.Prefs config.URL config.Email
       config.ProjectKey config.Auth config.AuthType config.AuthToken
       config.Provider config.BaseURL config.Token config.Owner config.Repo
       config.BranchPrefix config.DefaultTransition].
  assert (Hfixed : forall raw section section' rest s0,
             bufio.fits raw = true ->
             configfile.parseLine section s0 (bufio.dropCR raw) = (section', s0) ->
             configfile.scanLoop (raw :: rest) section s0
             = configfile.scanLoop rest section' s0).
  { intros raw section section' rest s0 Hf Hl. cbn [configfile.scanLoop].
    now rewrite Hf, Hl. }
  destruct (String.eqb o "") eqn:Eo; destruct (String.eqb r "") eqn:Er;
    try (apply String.eqb_eq in Eo; subst o);
    try (apply String.eqb_eq in Er; subst r);
    cbn [negb app];
    repeat first
      [ rewrite scanLoop_kv by (reflexivity || assumption)
      | erewrite Hfixed by (vm_compute; reflexivity) ];
    reflexivity.
Qed.

Lemma Load_toTOML (s : config.Settings) :
  forallb storable (fieldsOf s) = true ->
  configfile.Load (configfile.FileContents (configfile.toTOML s))
  = Ok (mapFields escapeBytes s).
Proof.
  intros Hs. unfold configfile.Load, configfile.parseTOML.
  rewrite toTOML_lines, rawLines_unlines.
  - rewrite (scanLoop_toTOML s Hs). unfold mapFields. now rewrite !escape_bytes.
  - destruct s as [[u e p [ty tok]] [pr b t o r] [bp dt]].
    cbn [fieldsOf forallb config.Jira config.Git config.Prefs config.URL
         config.Email config.ProjectKey config.Auth config.AuthType
         config.AuthToken config.Provider config.BaseURL config.Token
         config.Owner config.Repo config.BranchPrefix config.DefaultTransition]
      in Hs.
    repeat match type of Hs with
           | (_ && _) = true =>
             let Hv := fresh "Hv" in
             apply andb_true_iff in Hs as [Hv Hs];
             apply storable_escape in Hv as [Hv _]
           end.
    unfold tomlLines. cbv zeta.
    cbn [config.Jira config.Git config.Prefs config.URL
         config.Email config.ProjectKey config.Auth config.AuthType
         config.AuthToken config.Provider config.BaseURL config.Token
         config.Owner config.Repo config.BranchPrefix config.DefaultTransition].
    destruct (negb (String.eqb o "")); destruct (negb (String.eqb r ""));
      cbn [app];
      repeat (apply Forall_cons; [first [reflexivity | now apply kv_line]|]);
      apply Forall_nil.
Qed.

Lemma escapeBytes_length (s : string) :
  (String.length s <= String.length (escapeBytes s))%nat.
Proof.
  induction s as [|a s IH]; [apply Nat.le_refl|]. cbn [escapeBytes].
  destruct (Ascii.eqb a "\"); [|destruct (Ascii.eqb a "034")];
    cbn [String.length]; lia.
Qed.

Lemma escapeBytes_grows (s : string) :
  plain s = false -> (String.length s < String.length (escapeBytes s))%nat.
Proof.
  unfold plain. induction s as [|a s IH]; [discriminate|].
  cbn [hasByte escapeBytes]. intros H.
  pose proof (escapeBytes_length s) as Hle.
  destruct (Ascii.eqb a "\"); [cbn [String.length]; lia|].
  destruct (Ascii.eqb a "034"); [cbn [String.length]; lia|].
  cbn [String.length]. apply IH in H. lia.
Qed.

Lemma escapeBytes_fixed (s : string) : escapeBytes s = s -> plain s = true.
Proof.
  intros H. destruct (plain s) eqn:E; [reflexivity|].
  apply escapeBytes_grows in E. rewrite H in E. lia.
Qed.

(** X1.  Settings written by [toTOML] and read back by [Load] are the
    settings written, when no value holds a quote, a backslash or a
    newline (and every value fits on its line). *)
Theorem settings_roundtrip (s : config.Settings) :
  forallb storable (fieldsOf s) = true ->
  forallb plain (fieldsOf s) = true ->
  configfile.Load (configfile.FileContents (configfile.toTOML s)) = Ok s.
Proof.
  intros Hs Hp. rewrite (Load_toTOML s Hs). f_equal.
  destruct s as [[u e p [ty tok]] [pr b t o r] [bp dt]].
  cbn [fieldsOf forallb config.Jira config.Git config.Prefs config.URL
       config.Email config.ProjectKey config.Auth config.AuthType
       config.AuthToken config.Provider config.BaseURL config.Token
       config.Owner config.Repo config.BranchPrefix config.DefaultTransition]
    in Hp.
  repeat match type of Hp with
         | (_ && _) = true =>
           let Hv := fresh "Hv" in
           apply andb_true_iff in Hp as [Hv Hp];
           apply escapeBytes_plain in Hv
         end.
  unfold mapFields.
  cbn [config.Jira config.Git config.Prefs config.URL
       config.Email config.ProjectKey config.Auth config.AuthType
       config.AuthToken config.Provider config.BaseURL config.Token
       config.Owner config.Repo config.BranchPrefix config.DefaultTransition].
  congruence.
Qed.

Lemma settings_roundtrip_witness :
  configfile.Load
    (configfile.FileContents (configfile.toTOML (sampleSettings "github")))
  = Ok (sampleSettings "github").
Proof. apply settings_roundtrip; vm_compute; reflexivity. Defined.

(** X2.  Reading never undoes the escaping of writing: a value comes back
    with every backslash doubled and every quote preceded by a backslash,
    so settings with such a value are not the ones read back. *)
Theorem settings_escaped_not_restored (s : config.Settings) :
  forallb storable (fieldsOf s) = true ->
  forallb plain (fieldsOf s) = false ->
  configfile.Load (configfile.FileContents (configfile.toTOML s))
  = Ok (mapFields escapeBytes s)
  /\ configfile.Load (configfile.FileContents (configfile.toTOML s)) <> Ok s.
Proof.
  intros Hs Hp. split; [now apply Load_toTOML|].
  rewrite (Load_toTOML s Hs). intros Heq.
  destruct s as [[u e p [ty tok]] [pr b t o r] [bp dt]].
  unfold mapFields in Heq.
  cbn [fieldsOf forallb config.Jira config.Git config.Prefs config.URL
       config.Email config.ProjectKey config.Auth config.AuthType
       config.AuthToken config.Provider config.BaseURL config.Token
       config.Owner config.Repo config.BranchPrefix config.DefaultTransition]
    in Hp, Heq.
  injection Heq as H1 H2 H3 H4 H5 H6 H7 H8 H9 H10 H11 H12.
  apply escapeBytes_fixed in H1, H2, H3, H4, H5, H6, H7, H8, H9, H10, H11, H12.
  rewrite H1, H2, H3, H4, H5, H6, H7, H8, H9, H10, H11, H12 in Hp.
  discriminate Hp.
Qed.

Lemma settings_escaped_not_restored_witness :
  configfile.Load (configfile.FileContents (configfile.toTOML backslashSettings))
  = Ok (mapFields escapeBytes backslashSettings)
  /\ configfile.Load (configfile.FileContents (configfile.toTOML backslashSettings))
     <> Ok backslashSettings.
Proof. apply settings_escaped_not_restored; vm_compute; reflexivity. Defined.

Lemma scanLoop_too_long (lines : list string) (section : string)
      (settings : config.Settings) :
  existsb (fun l => negb (bufio.fits l)) lines = true ->
  snd (configfile.scanLoop lines section settings) = Some bufio.ErrTooLong.
Proof.
  revert section settings.
  induction lines as [|raw rest IH]; intros section settings H; [discriminate|].
  cbn [existsb] in H. cbn [configfile.scanLoop].
  destruct (bufio.fits raw); [|reflexivity].
  cbn [negb orb] in H. now apply IH.
Qed.

(** X3.  A settings file with a line of 65536 bytes or more is never
    loaded: [Load] fails with the scanner's error. *)
Theorem Load_line_too_long (data : string) :
  existsb (fun l => negb (N.of_nat (String.length l) <? 65536)%N)
          (bufio.rawLines data) = true ->
  configfile.Load (configfile.FileContents data)
  = Fail (errorsNew "parse config: bufio.Scanner: token too long").
Proof.
  intros H. unfold configfile.Load, configfile.parseTOML.
  pose proof (scanLoop_too_long (bufio.rawLines data) "" configfile.zeroSettings H)
    as Herr.
  destruct (configfile.scanLoop (bufio.rawLines data) "" configfile.zeroSettings)
    as [settings err].
  cbn [snd] in Herr. subst err. reflexivity.
Qed.

Lemma unlines_single (line : string) : unlines [line] = line ++ nl.
Proof. reflexivity. Qed.

Lemma Load_line_too_long_witness :
  configfile.Load (configfile.FileContents (longFile 65536))
  = Fail (errorsNew "parse config: bufio.Scanner: token too long").
Proof.
  apply Load_line_too_long.
  unfold longFile. rewrite <- unlines_single, rawLines_unlines.
  - vm_compute. reflexivity.
  - apply Forall_cons; [vm_compute; reflexivity | apply Forall_nil].
Defined.

Lemma scanLoop_fits (lines : list string) (section : string)
      (settings : config.Settings) :
  forallb bufio.fits lines = true ->
  snd (configfile.scanLoop lines section settings) = None.
Proof.
  revert section settings.
  induction lines as [|raw rest IH]; intros section settings H; [reflexivity|].
  cbn [forallb] in H. apply andb_true_iff in H as [Hraw Hrest].
  cbn [configfile.scanLoop]. rewrite Hraw. now apply IH.
Qed.

(** X4.  [Load] fails on no contents whose lines are all shorter than
    65536 bytes: lines it cannot read as a section or as an assignment are
    passed over, whatever they hold. *)
Theorem Load_accepts_any_text (data : string) :
  forallb (fun l => (N.of_nat (String.length l) <? 65536)%N) (bufio.rawLines data)
  = true ->
  exists settings, configfile.Load (configfile.FileContents data) = Ok settings.
Proof.
  intros H. unfold configfile.Load, configfile.parseTOML.
  pose proof (scanLoop_fits (bufio.rawLines data) "" configfile.zeroSettings H)
    as Hnone.
  destruct (configfile.scanLoop (bufio.rawLines data) "" configfile.zeroSettings)
    as [settings err].
  cbn [snd] in Hnone. subst err. now exists settings.
Qed.

Lemma Load_accepts_any_text_witness :
  exists settings,
    configfile.Load (configfile.FileContents "url = [jira;; = = nonsense")
    = Ok settings.
Proof. apply Load_accepts_any_text. vm_compute. reflexivity. Defined.

(* ================================================================= *)
(** * More of the repository: the commands *)

(** ** Before [init] *)

Section BeforeInit.
Context {U : UnicodeTables}.

(** X5.  Without a settings file every command that needs the settings
    stops at once: it has only tried to load them, and its error tells the
    user to run [init]. *)
Theorem commands_before_init (w : World) :
  configLoad w = NotFound ->
  (forall ticketID, handleStart w ticketID = ([ConfigLoad], Fail initHint))
  /\ (forall statusFilter projectFilter jsonOutput,
         handleList w statusFilter projectFilter jsonOutput
         = ([ConfigLoad], Fail initHint))
  /\ (forall opts, handleSearch w opts = ([ConfigLoad], Fail initHint))
  /\ (forall message, handleCommit w message = ([ConfigLoad], Fail initHint))
  /\ handleDone w = ([ConfigLoad], Fail initHint)
  /\ handleConfigShow w = ([ConfigLoad], Fail initHint).
Proof.
  intros Hload. destruct w; cbn [configLoad] in Hload; subst.
  repeat split; intros; reflexivity.
Qed.

End BeforeInit.

Lemma commands_before_init_witness :
  handleDone (setConfigLoad NotFound (sampleWorld "gitlab" "main" true (Done tt) []))
  = ([ConfigLoad], Fail initHint).
Proof.
  apply (@commands_before_init latin1Tables
           (setConfigLoad NotFound (sampleWorld "gitlab" "main" true (Done tt) []))
           eq_refl).
Defined.

(** ** The order of the steps *)

(** Runs a command in an arbitrary world, one case per answer. *)
Ltac every_run :=
  repeat (run;
          match goal with
          | |- context [match ?x with _ => _ end] =>
            lazymatch x with
            | context [match _ with _ => _ end] => fail
            | _ => destruct x
            end
          end);
  run.

Section Order.
Context {U : UnicodeTables}.

(** X6.  In every run of [done] the steps keep their order: nothing is
    pushed before the working tree is checked, no request is created
    before the push, no ticket status is changed before the request; and
    [done] creates no branch and no commit. *)
Theorem done_steps_in_order (w : World) :
  eachAfter isCleanCheck isPush (trace (handleDone w)) = true
  /\ eachAfter isPush isRequest (trace (handleDone w)) = true
  /\ eachAfter isRequest isStatusUpdate (trace (handleDone w)) = true
  /\ existsb isBranchCreation (trace (handleDone w)) = false
  /\ existsb isCommit (trace (handleDone w)) = false.
Proof.
  destruct w. unfold handleDone, createRequest.
  every_run.
  all: repeat split; reflexivity.
Qed.

(** X7.  [done] changes the status of the ticket in exactly the runs in
    which it returns no error: a failure of any earlier step leaves the
    ticket as it was, and the transition itself never makes [done] fail. *)
Theorem done_status_iff_success (w : World) :
  existsb isStatusUpdate (trace (handleDone w)) = true
  <-> outcome (handleDone w) = Ok tt.
Proof.
  destruct w. unfold handleDone, createRequest.
  every_run.
  all: split; intros H; first [reflexivity | discriminate H].
Qed.

(** X8.  In every run of [start] the ticket is fetched before a branch is
    created and the branch is created before the status is changed; and
    [start] pushes nothing, commits nothing and calls no code host. *)
Theorem start_steps_in_order (w : World) (ticketID : string) :
  eachAfter isTicketFetch isBranchCreation (trace (handleStart w ticketID)) = true
  /\ eachAfter isBranchCreation isStatusUpdate (trace (handleStart w ticketID)) = true
  /\ existsb isPush (trace (handleStart w ticketID)) = false
  /\ existsb isCommit (trace (handleStart w ticketID)) = false
  /\ existsb hostOp (trace (handleStart w ticketID)) = false.
Proof.
  destruct w. unfold handleStart.
  every_run.
  all: repeat split; reflexivity.
Qed.

End Order.

Lemma done_status_iff_success_witness :
  outcome (handleDone (sampleWorld "gitlab" "feat/TEST-1/implement_widget" true
                                   (Refused "no such transition") []))
  = Ok tt.
Proof.
  apply (proj1 (@done_status_iff_success latin1Tables
                  (sampleWorld "gitlab" "feat/TEST-1/implement_widget" true
                               (Refused "no such transition") []))).
  vm_compute. reflexivity.
Defined.

(** ** The hard steps *)

Section HardSteps.
Context {U : UnicodeTables}.

(** X9.  When the push is refused, [done] stops with the error of the
    version-control client: it has fetched no ticket, created no request
    and changed no status. *)
Theorem done_push_refused (w : World) (settings : config.Settings)
        (root branch ticketID msg : string) :
  configLoad w = Loaded settings ->
  gitNewClient w = Done root ->
  gitIsClean w = Done true ->
  gitCurrentBranch w = Done branch ->
  utils.ExtractTicketID branch = Ok ticketID ->
  gitPush w branch = Refused msg ->
  outcome (handleDone w) = Fail (gatewayErr FromGit msg)
  /\ In (GitPush branch) (trace (handleDone w))
  /\ existsb trackerOp (trace (handleDone w)) = false
  /\ existsb hostOp (trace (handleDone w)) = false.
Proof.
  intros Hload Hclient Hclean Hbranch Hid Hpush.
  destruct w; cbn [configLoad gitNewClient gitIsClean gitCurrentBranch gitPush]
    in Hload, Hclient, Hclean, Hbranch, Hpush; subst.
  unfold handleDone. run. rewrite Hid. run. rewrite Hpush. run.
  repeat split; try reflexivity. in_trace.
Qed.

(** X10.  [done] looks at the provider only after the push and the ticket
    fetch: with a provider that is neither [github] nor [gitlab], and with
    [github] without owner or repository, it fails with an error of its
    own, the branch is pushed all the same, and no request is created and
    no status changed. *)
Theorem done_provider_checked_late (w : World) (settings : config.Settings)
        (root branch ticketID : string) (ticket : models.JiraTicket) :
  configLoad w = Loaded settings ->
  gitNewClient w = Done root ->
  gitIsClean w = Done true ->
  gitCurrentBranch w = Done branch ->
  utils.ExtractTicketID branch = Ok ticketID ->
  gitPush w branch = Done tt ->
  jiraGetTicket w ticketID = Done ticket ->
  let provider := strings.ToLower (config.Provider (config.Git settings)) in
  (provider <> "github" /\ provider <> "gitlab"
   \/ provider = "github"
      /\ (config.Owner (config.Git settings) = ""
          \/ config.Repo (config.Git settings) = "")) ->
  outcome (handleDone w)
  = Fail (errorsNew (if String.eqb provider "github"
                     then "GitHub owner/repo not configured"
                     else "unsupported git provider: " ++ provider))
  /\ In (GitPush branch) (trace (handleDone w))
  /\ existsb isRequest (trace (handleDone w)) = false
  /\ existsb isStatusUpdate (trace (handleDone w)) = false.
Proof.
  intros Hload Hclient Hclean Hbranch Hid Hpush Hticket provider Hprovider.
  destruct w; cbn [configLoad gitNewClient gitIsClean gitCurrentBranch gitPush
                   jiraGetTicket]
    in Hload, Hclient, Hclean, Hbranch, Hpush, Hticket; subst.
  unfold handleDone, createRequest. run. rewrite Hid. run. rewrite Hpush. run.
  rewrite Hticket. run. fold provider.
  destruct Hprovider as [[Hgh Hgl] | [Hgh Hmissing]].
  - apply String.eqb_neq in Hgh, Hgl. rewrite Hgh, Hgl. run.
    repeat split; try reflexivity. in_trace.
  - rewrite Hgh. cbn [String.eqb Ascii.eqb Bool.eqb].
    assert (E : String.eqb (config.Owner (config.Git settings)) ""
                || String.eqb (config.Repo (config.Git settings)) "" = true).
    { destruct Hmissing as [-> | ->]; [reflexivity | apply orb_true_r]. }
    rewrite E. run. repeat split; try reflexivity. in_trace.
Qed.

(** X11.  When the tracker refuses the ticket, [start] stops with the
    tracker's error and has created no branch; when the branch cannot be
    created, it stops with the client's error and has changed no
    status. *)
Theorem start_hard_steps (w : World) (settings : config.Settings)
        (root ticketID : string) :
  configLoad w = Loaded settings ->
  gitNewClient w = Done root ->
  onTicketBranch w ticketID = false ->
  (forall msg, jiraGetTicket w ticketID = Refused msg ->
               outcome (handleStart w ticketID) = Fail (gatewayErr FromJira msg)
               /\ existsb vcMutation (trace (handleStart w ticketID)) = false)
  /\ (forall ticket msg,
         jiraGetTicket w ticketID = Done ticket ->
         gitCreateBranch w (startBranch settings ticketID ticket) = Refused msg ->
         outcome (handleStart w ticketID) = Fail (gatewayErr FromGit msg)
         /\ existsb isStatusUpdate (trace (handleStart w ticketID)) = false).
Proof.
  intros Hload Hclient Hon.
  unfold onTicketBranch in Hon.
  destruct w; cbn [configLoad gitNewClient gitCurrentBranch jiraGetTicket
                   gitCreateBranch] in *; subst.
  split.
  - intros msg Hticket. unfold handleStart. run.
    destruct gitCurrentBranch0 as [branch|refusal]; run;
      [rewrite Hon; run|]; rewrite Hticket; run; split; reflexivity.
  - intros ticket msg Hticket Hcreate. unfold startBranch in Hcreate.
    unfold handleStart. run.
    destruct gitCurrentBranch0 as [branch|refusal]; run;
      [rewrite Hon; run|]; rewrite Hticket; run; rewrite Hcreate; run;
      split; reflexivity.
Qed.

End HardSteps.

Lemma done_push_refused_witness :
  outcome (handleDone (setGitPush (Refused "rejected")
                         (sampleWorld "gitlab" "feat/TEST-1/implement_widget" true
                                      (Done tt) [])))
  = Fail (gatewayErr FromGit "rejected").
Proof.
  apply (@done_push_refused latin1Tables
           (setGitPush (Refused "rejected")
              (sampleWorld "gitlab" "feat/TEST-1/implement_widget" true (Done tt) []))
           (sampleSettings "gitlab") "/home/dev/project"
           "feat/TEST-1/implement_widget" "TEST-1" "rejected"
           eq_refl eq_refl eq_refl eq_refl eq_refl eq_refl).
Defined.

Lemma done_provider_checked_late_witness :
  outcome (handleDone (sampleWorld "Bitbucket" "feat/TEST-1/implement_widget" true
                                   (Done tt) []))
  = Fail (errorsNew "unsupported git provider: bitbucket")
  /\ In (GitPush "feat/TEST-1/implement_widget")
        (trace (handleDone (sampleWorld "Bitbucket" "feat/TEST-1/implement_widget"
                                        true (Done tt) []))).
Proof.
  pose proof (@done_provider_checked_late latin1Tables
                (sampleWorld "Bitbucket" "feat/TEST-1/implement_widget" true
                             (Done tt) [])
                (sampleSettings "Bitbucket") "/home/dev/project"
                "feat/TEST-1/implement_widget" "TEST-1" sampleTicket
                eq_refl eq_refl eq_refl eq_refl eq_refl eq_refl eq_refl) as H.
  cbv zeta in H.
  destruct H as (Hout & Hpush & _).
  - left. split; intros E; vm_compute in E; discriminate E.
  - split; [exact Hout | exact Hpush].
Defined.

Lemma start_hard_steps_witness :
  outcome (handleStart (setJiraGetTicket (Refused "404")
                          (sampleWorld "gitlab" "main" true (Done tt) []))
                       "TEST-1")
  = Fail (gatewayErr FromJira "404")
  /\ outcome (handleStart (setGitCreateBranch (Refused "exists")
                             (sampleWorld "gitlab" "main" true (Done tt) []))
                          "TEST-1")
     = Fail (gatewayErr FromGit "exists").
Proof.
  split.
  - apply (proj1 (@start_hard_steps latin1Tables
                    (setJiraGetTicket (Refused "404")
                       (sampleWorld "gitlab" "main" true (Done tt) []))
                    (sampleSettings "gitlab") "/home/dev/project" "TEST-1"
                    eq_refl eq_refl eq_refl) "404" eq_refl).
  - apply (proj2 (@start_hard_steps latin1Tables
                    (setGitCreateBranch (Refused "exists")
                       (sampleWorld "gitlab" "main" true (Done tt) []))
                    (sampleSettings "gitlab") "/home/dev/project" "TEST-1"
                    eq_refl eq_refl eq_refl) sampleTicket "exists" eq_refl eq_refl).
Defined.

(** ** From [start] to [commit] and [done] *)

Section Composition.
Context {U : UnicodeTables}.

(** The ticket ID is read back from the branch [start] creates. *)
Lemma ExtractTicketID_startBranch (settings : config.Settings) (A D : string)
      (ticket : models.JiraTicket) :
  hasByte "/" (config.BranchPrefix (config.Prefs settings)) = false ->
  hasByte "/" A = false -> hasByte "/" D = false ->
  hasByte "-" A = false -> hasByte "-" D = false ->
  utils.ExtractTicketID (startBranch settings (A ++ "-" ++ D) ticket)
  = Ok (A ++ "-" ++ D).
Proof.
  intros Hp HsA HsD HhA HhD. unfold startBranch.
  set (prefix := if String.eqb (config.BranchPrefix (config.Prefs settings)) ""
                 then "feat" else config.BranchPrefix (config.Prefs settings)).
  assert (Hprefix : hasByte "/" prefix = false).
  { unfold prefix.
    now destruct (String.eqb (config.BranchPrefix (config.Prefs settings)) ""). }
  destruct (FormatBranchName_shape prefix (A ++ "-" ++ D) (summaryOf ticket))
    as [-> | [slug ->]].
  - rewrite <- (append_nil_r (A ++ "-" ++ D)) at 1.
    apply ExtractTicketID_formatted; auto.
  - apply ExtractTicketID_formatted; eauto.
Qed.

(** X12.  The branch [start] creates for a ticket [A-D] is one [commit]
    and [done] work on: checked out later, [commit] signs the message
    with that ticket and its address, and [done] pushes that branch and
    (once pushed) fetches that ticket.  The branch prefix and the two parts of the ID
    hold no slash, and the parts no hyphen. *)
Theorem start_then_commit_and_done
        (w w' : World) (settings : config.Settings) (root root' A D message : string)
        (ticket : models.JiraTicket) :
  let ticketID := A ++ "-" ++ D in
  let branch := startBranch settings ticketID ticket in
  hasByte "/" (config.BranchPrefix (config.Prefs settings)) = false ->
  hasByte "/" A = false -> hasByte "/" D = false ->
  hasByte "-" A = false -> hasByte "-" D = false ->
  configLoad w = Loaded settings ->
  gitNewClient w = Done root ->
  onTicketBranch w ticketID = false ->
  jiraGetTicket w ticketID = Done ticket ->
  configLoad w' = Loaded settings ->
  gitNewClient w' = Done root' ->
  gitCurrentBranch w' = Done branch ->
  In (GitCreateBranch branch) (trace (handleStart w ticketID))
  /\ In (GitCommit (message ++ nl ++ nl ++ ticketID ++ ": "
                    ++ config.URL (config.Jira settings) ++ "/browse/" ++ ticketID))
        (trace (handleCommit w' message))
  /\ (gitIsClean w' = Done true ->
      In (GitPush branch) (trace (handleDone w'))
      /\ (gitPush w' branch = Done tt ->
          In (JiraGetTicket ticketID) (trace (handleDone w')))).
Proof.
  intros ticketID branch Hp HsA HsD HhA HhD Hload Hclient Hon Hticket
         Hload' Hclient' Hbranch'.
  pose proof (ExtractTicketID_startBranch settings A D ticket Hp HsA HsD HhA HhD)
    as Hid.
  fold ticketID in Hid. fold branch in Hid.
  unfold onTicketBranch in Hon.
  split; [|split].
  - destruct w; cbn [configLoad gitNewClient gitCurrentBranch jiraGetTicket] in *;
      subst.
    unfold branch, startBranch. unfold handleStart. run.
    destruct gitCurrentBranch0 as [current|refusal]; run;
      [rewrite Hon; run|]; rewrite Hticket; run;
      match goal with
      | |- context [gitCreateBranch0 ?b] => destruct (gitCreateBranch0 b)
      end; in_run.
  - destruct w'; cbn [configLoad gitNewClient gitCurrentBranch] in *; subst.
    unfold handleCommit. run. rewrite Hid. run.
    match goal with
    | |- context [gitCommit0 ?m] => destruct (gitCommit0 m)
    end; in_run.
  - intros Hclean.
    destruct w'; cbn [configLoad gitNewClient gitCurrentBranch gitIsClean] in *;
      subst.
    split.
    + unfold handleDone. run. rewrite Hid. run.
      destruct (gitPush0 branch); run; in_run.
    + intros Hpush. cbn [gitPush] in Hpush.
      unfold handleDone. run. rewrite Hid. run. rewrite Hpush. run.
      match goal with
      | |- context [match ?f ticketID with _ => _ end] => destruct (f ticketID)
      end; in_run.
Qed.

End Composition.

Lemma start_then_commit_and_done_witness :
  In (GitCreateBranch "feat/TEST-1/implement_widget")
     (trace (handleStart (sampleWorld "gitlab" "main" true (Done tt) []) "TEST-1"))
  /\ In (GitCommit ("Add feature" ++ nl ++ nl
                    ++ "TEST-1: https://jira.example.com/browse/TEST-1"))
        (trace (handleCommit
                  (sampleWorld "gitlab" "feat/TEST-1/implement_widget" false
                               (Done tt) [])
                  "Add feature")).
Proof.
  pose proof (@start_then_commit_and_done latin1Tables
                (sampleWorld "gitlab" "main" true (Done tt) [])
                (sampleWorld "gitlab" "feat/TEST-1/implement_widget" false
                             (Done tt) [])
                (sampleSettings "gitlab") "/home/dev/project" "/home/dev/project"
                "TEST" "1" "Add feature" sampleTicket
                eq_refl eq_refl eq_refl eq_refl eq_refl
                eq_refl eq_refl eq_refl eq_refl eq_refl eq_refl eq_refl)
    as [Hstart [Hcommit _]].
  split; [exact Hstart | exact Hcommit].
Defined.

(** ** Choosing a ticket among the results of a search *)

Section Selection.
Context {U : UnicodeTables}.

Lemma promptSelection_bounds (w : World) (count idx : Z) :
  outcome (promptSelection w count) = Ok idx ->
  (idx = -1 \/ 0 <= idx < count)%Z.
Proof.
  intros H. unfold promptSelection in H.
  destruct (count =? 0)%Z; [injection H as <-; now left|].
  destruct w. run_in H.
  destruct stdinReadString0 as [input|msg]; run_in H; [|discriminate H].
  destruct (String.eqb (strings.TrimSpace input) "");
    [injection H as <-; now left|].
  destruct (strconv.Atoi (strings.TrimSpace input)) as [n|]; run_in H;
    [|discriminate H].
  destruct (n <? 1)%Z eqn:Elo; [discriminate H|].
  destruct (n >? count)%Z eqn:Ehi; [discriminate H|].
  cbn [orb] in H. injection H as <-.
  apply Z.ltb_ge in Elo. rewrite Z.gtb_ltb in Ehi. apply Z.ltb_ge in Ehi.
  right. lia.
Qed.

(** X13.  Whatever is typed, a selection [promptSelection] returns
    without error is -1 (nothing chosen) or the index of one of the
    [count] results; and with no results it reads nothing. *)
Theorem promptSelection_range (w : World) (count idx : Z) :
  outcome (promptSelection w count) = Ok idx ->
  (idx = -1 \/ 0 <= idx < count)%Z
  /\ (count = 0%Z -> trace (promptSelection w count) = []).
Proof.
  intros H. split; [exact (promptSelection_bounds w count idx H)|].
  intros ->. reflexivity.
Qed.

Lemma Forall_bind_ok {A B} (P : event -> Prop) (m : M A) (k : A -> M B) :
  Forall P (trace m) ->
  (forall a, outcome m = Ok a -> Forall P (trace (k a))) ->
  Forall P (trace (bind m k)).
Proof.
  intros Hm Hk. rewrite trace_bind. destruct (outcome m) eqn:E; [|exact Hm].
  apply Forall_app. split; [exact Hm | now apply Hk].
Qed.

Lemma handleStart_fetches (w : World) (ticketID : string) :
  Forall (fun e => forall id, e = JiraGetTicket id -> id = ticketID)
         (trace (handleStart w ticketID)).
Proof.
  unfold handleStart, loadSettings, config_Load, git_NewClient, jiraFactory,
    GetTicket, UpdateStatus, Println, Print.
  along_trace;
    (let H := fresh "H" in
     intros ? H; first [discriminate H | injection H as <-; reflexivity]).
Qed.

Lemma search_fetches_listed (w : World) (opts : searchOptions)
      (settings : config.Settings) (tickets : list models.JiraTicket) :
  configLoad w = Loaded settings ->
  jiraSearchWithJQL w (searchJQL settings opts) (Limit opts) = Done tickets ->
  Forall (fun e => forall id, e = JiraGetTicket id -> In id (map models.Key tickets))
         (trace (handleSearch w opts)).
Proof.
  intros Hload Hsearch.
  unfold handleSearch.
  apply Forall_bind_ok.
  { unfold loadSettings, config_Load. along_trace; intros ? H; discriminate H. }
  intros s Hs.
  assert (s = settings) as ->.
  { destruct w; cbn [configLoad] in Hload; subst. cbv in Hs. congruence. }
  cbv zeta. set (J := strings.Join _ " AND ").
  assert (EJ : J = searchJQL settings opts).
  { subst J.
    unfold searchJQL, filterClauses, projectClause, assigneeClause, statusClause,
      projectOf, textClause, append.
    repeat match goal with
           | |- context [String.eqb ?a ?b] => destruct (String.eqb a b)
           end; reflexivity. }
  clearbody J. subst J.
  unfold jiraFactory, Println, Print.
  do 5 (apply Forall_bind; [apply Forall_emit; intros ? H; discriminate H|intros _]).
  apply Forall_bind_ok.
  { apply Forall_call. intros ? H. discriminate H. }
  intros found Hfound.
  assert (found = tickets) as ->.
  { unfold SearchWithJQL, call, perform, outcome in Hfound. cbn [snd] in Hfound.
    rewrite Hsearch in Hfound. congruence. }
  destruct (List.length tickets =? 0)%nat;
    [along_trace; intros ? H; discriminate H|].
  apply Forall_bind;
    [apply Forall_printResults; intros ? ? H; discriminate H|intros _].
  apply Forall_bind; [along_trace; intros ? H; discriminate H|intros _].
  destruct (Interactive opts); [|apply Forall_ret].
  apply Forall_bind_ok.
  { unfold promptSelection, Print. along_trace; intros ? H; discriminate H. }
  intros idx Hidx. apply promptSelection_bounds in Hidx.
  destruct (idx >=? 0)%Z eqn:Eidx;
    [|along_trace; intros ? H; discriminate H].
  do 2 (apply Forall_bind; [apply Forall_emit; intros ? H; discriminate H|intros _]).
  eapply Forall_impl; [|apply handleStart_fetches].
  intros e He id Hid. rewrite (He id Hid).
  apply in_map, nth_In. apply Z.geb_le in Eidx. lia.
Qed.

(** X14.  An interactive [search] starts work only on a ticket of the
    results it has printed: every ticket [search] fetches is one the
    tracker returned for the query. *)
Theorem search_starts_listed_ticket (w : World) (opts : searchOptions)
        (settings : config.Settings) (tickets : list models.JiraTicket)
        (ticketID : string) :
  configLoad w = Loaded settings ->
  jiraSearchWithJQL w (searchJQL settings opts) (Limit opts) = Done tickets ->
  In (JiraGetTicket ticketID) (trace (handleSearch w opts)) ->
  In ticketID (map models.Key tickets).
Proof.
  intros Hload Hsearch Hin.
  pose proof (search_fetches_listed w opts settings tickets Hload Hsearch) as Hall.
  rewrite Forall_forall in Hall. exact (Hall _ Hin ticketID eq_refl).
Qed.

End Selection.

Lemma promptSelection_range_witness :
  (1 = -1 \/ 0 <= 1 < 3)%Z.
Proof.
  apply (proj1 (@promptSelection_range
                  (setStdin (Done ("2" ++ nl))
                            (sampleWorld "gitlab" "main" true (Done tt) []))
                  3 1 eq_refl)).
Defined.

Lemma search_starts_listed_ticket_witness :
  In "TEST-1" (map models.Key [sampleTicket]).
Proof.
  apply (@search_starts_listed_ticket latin1Tables
           (setStdin (Done ("1" ++ nl))
                     (sampleWorld "gitlab" "main" true (Done tt) [sampleTicket]))
           {| Query := "widget"; Assignee := ""; Status := ""; Project := "";
              Limit := 10; Interactive := true |}
           (sampleSettings "gitlab") [sampleTicket] "TEST-1" eq_refl eq_refl).
  vm_compute. repeat first [left; reflexivity | right].
Defined.

(** ** What the commands leave alone *)

Section Footprint.
Context {U : UnicodeTables}.

Lemma ExtractTicketID_error (branch : string) (err : error) :
  utils.ExtractTicketID branch = Fail err -> err = utils.CorrelationError branch.
Proof.
  unfold utils.ExtractTicketID.
  repeat match goal with
         | |- context [if ?b then _ else _] => destruct b
         end; congruence.
Qed.

(** X15.  On a branch whose name holds no ticket ID, [commit] stops with
    the correlation error before it commits anything. *)
Theorem commit_off_ticket_branch (w : World) (settings : config.Settings)
        (root branch message : string) (err : error) :
  configLoad w = Loaded settings ->
  gitNewClient w = Done root ->
  gitCurrentBranch w = Done branch ->
  utils.ExtractTicketID branch = Fail err ->
  handleCommit w message
  = ([ConfigLoad; GitNewClient; GitCurrentBranch],
     Fail (utils.CorrelationError branch)).
Proof.
  intros Hload Hclient Hbranch Hid.
  pose proof (ExtractTicketID_error branch err Hid) as ->.
  destruct w; cbn [configLoad gitNewClient gitCurrentBranch] in *; subst.
  unfold handleCommit. run. rewrite Hid. reflexivity.
Qed.

(** X16.  The commands keep to their part: [commit] never pushes, never
    creates a branch and never calls the tracker or a code host; [list],
    the settings display and a [search] that is not interactive change
    nothing in the repository and call no code host; an interactive
    [search] may create a branch, but pushes and commits nothing. *)
Theorem commands_footprint (w : World) :
  (forall message,
      Forall (fun e => trackerOp e = false /\ hostOp e = false
                       /\ isPush e = false /\ isBranchCreation e = false)
             (trace (handleCommit w message)))
  /\ (forall statusFilter projectFilter jsonOutput,
         Forall (fun e => vcMutation e = false /\ hostOp e = false)
                (trace (handleList w statusFilter projectFilter jsonOutput)))
  /\ (forall opts,
         Forall (fun e => hostOp e = false /\ isPush e = false /\ isCommit e = false)
                (trace (handleSearch w opts)))
  /\ (forall opts,
         Interactive opts = false ->
         Forall (fun e => vcMutation e = false /\ hostOp e = false)
                (trace (handleSearch w opts)))
  /\ Forall untouched (trace (handleConfigShow w)).
Proof.
  split; [|split; [|split; [|split]]].
  - intros message.
    unfold handleCommit, loadSettings, config_Load, git_NewClient, Println, Print.
    along_trace; repeat split.
  - intros statusFilter projectFilter jsonOutput.
    unfold handleList, loadSettings, config_Load, jiraFactory, SearchWithJQL,
      Println, Print.
    along_query; repeat split.
  - intros opts.
    unfold handleSearch, promptSelection, handleStart, loadSettings, config_Load,
      git_NewClient, jiraFactory, SearchWithJQL, GetTicket, UpdateStatus,
      Println, Print.
    along_query; repeat split.
  - intros opts Hni.
    unfold handleSearch. rewrite Hni.
    unfold loadSettings, config_Load, jiraFactory, SearchWithJQL, Println, Print.
    cbv beta iota.
    along_query; repeat split.
  - unfold handleConfigShow, printConfig, loadSettings, config_Load, Println, Print.
    along_trace; repeat split.
Qed.

End Footprint.

Lemma commit_off_ticket_branch_witness :
  handleCommit (sampleWorld "gitlab" "main" true (Done tt) []) "Add feature"
  = ([ConfigLoad; GitNewClient; GitCurrentBranch],
     Fail (utils.CorrelationError "main")).
Proof.
  apply (commit_off_ticket_branch
           (sampleWorld "gitlab" "main" true (Done tt) [])
           (sampleSettings "gitlab") "/home/dev/project" "main" "Add feature"
           (utils.CorrelationError "main") eq_refl eq_refl eq_refl eq_refl).
Defined.

Lemma commands_footprint_witness :
  Forall (fun e => vcMutation e = false /\ hostOp e = false)
         (trace (handleSearch (sampleWorld "gitlab" "main" true (Done tt) [sampleTicket])
                              (sampleSearch "widget" "me" 10))).
Proof.
  apply (proj1 (proj2 (proj2 (proj2
           (@commands_footprint latin1Tables
              (sampleWorld "gitlab" "main" true (Done tt) [sampleTicket])))))).
  reflexivity.
Defined.

(** ** The branch names [ExtractTicketID] accepts *)

(** The first piece of a split and what follows it. *)
Lemma Split_head (c : ascii) (s : string) :
  exists p rest,
    strings.Split s (String c "") = p :: rest
    /\ hasByte c p = false
    /\ (rest = [] /\ s = p
        \/ exists q, s = p ++ String c q /\ rest = strings.Split q (String c "")
                     /\ rest <> []).
Proof.
  destruct (hasByte c s) eqn:E.
  - destruct (hasByte_split c s E) as (p & q & -> & Hp).
    exists p, (strings.Split q (String c "")). rewrite Split_at by assumption.
    split; [reflexivity | split; [assumption | right]].
    exists q. split; [reflexivity | split; [reflexivity|]].
    apply splitFrom_nonempty.
  - exists s, []. rewrite Split_free by assumption. auto.
Qed.

Lemma ExtractTicketID_shape (branch id : string) :
  utils.ExtractTicketID branch = Ok id ->
  exists seg0 a b tail,
    branch = seg0 ++ "/" ++ a ++ "-" ++ b ++ tail
    /\ id = a ++ "-" ++ b
    /\ hasByte "/" seg0 = false
    /\ hasByte "/" a = false /\ hasByte "-" a = false
    /\ hasByte "/" b = false /\ hasByte "-" b = false
    /\ (tail = "" \/ exists t, tail = String "-" t \/ tail = String "/" t).
Proof.
  intros Hok.
  destruct (Split_head "/" branch) as (seg0 & rest & Hparts & Hseg0 & Hrest).
  destruct Hrest as [[-> _] | (q & -> & -> & _)].
  { unfold utils.ExtractTicketID in Hok. rewrite Hparts in Hok. discriminate Hok. }
  destruct (Split_head "/" q) as (tp & more & Hq & Htp & Hmore).
  rewrite Hq in Hparts.
  destruct (strings.Contains tp "-") eqn:Hc.
  2:{ unfold utils.ExtractTicketID in Hok. rewrite Hparts in Hok.
      cbn [List.length Nat.ltb Nat.leb nth] in Hok. rewrite Hc in Hok.
      discriminate Hok. }
  destruct (ExtractTicketID_second _ _ _ _ Hparts Hc) as (a & b & rest & Hseg & Hid).
  rewrite Hid in Hok. injection Hok as <-.
  rewrite Contains_single in Hc.
  destruct (hasByte_split "-" tp Hc) as (a' & r & -> & Ha').
  rewrite Split_at in Hseg by assumption.
  destruct (Split_head "-" r) as (b' & rest' & Hr' & Hb' & Hrest').
  rewrite Hr' in Hseg. injection Hseg as -> -> ->.
  rewrite hasByte_app in Htp. apply orb_false_iff in Htp as [Hsa Hsr].
  cbn [hasByte] in Hsr. apply orb_false_iff in Hsr as [_ Hsr].
  assert (Hsb : hasByte "/" b = false).
  { destruct Hrest' as [[_ ->] | (r' & -> & _)]; [assumption|].
    rewrite hasByte_app in Hsr. now apply orb_false_iff in Hsr as [Hsb _]. }
  assert (Hshape : exists u, r = b ++ u
                             /\ (u = "" \/ exists t, u = String "-" t)).
  { destruct Hrest' as [[_ ->] | (r' & -> & _)].
    - exists "". now rewrite append_nil_r; auto.
    - exists (String "-" r'). eauto. }
  destruct Hshape as (u & -> & Hu).
  destruct Hmore as [[_ ->] | (q' & -> & _)].
  - exists seg0, a, b, u. repeat split; try assumption.
    destruct Hu as [-> | [t ->]]; eauto.
  - exists seg0, a, b, (u ++ String "/" q'). repeat split; try assumption.
    + cbn [String.append]. f_equal. rewrite !append_assoc. cbn [String.append].
      now rewrite !append_assoc.
    + destruct Hu as [-> | [t ->]]; cbn [String.append]; eauto.
Qed.

Lemma ExtractTicketID_accepts (seg0 a b tail : string) :
  hasByte "/" seg0 = false ->
  hasByte "/" a = false -> hasByte "-" a = false ->
  hasByte "/" b = false -> hasByte "-" b = false ->
  (tail = "" \/ exists t, tail = String "-" t \/ tail = String "/" t) ->
  utils.ExtractTicketID (seg0 ++ "/" ++ a ++ "-" ++ b ++ tail) = Ok (a ++ "-" ++ b).
Proof.
  intros Hseg0 Hsa Hha Hsb Hhb Htail.
  assert (Hid : hasByte "/" (a ++ String "-" b) = false).
  { rewrite hasByte_app. cbn [hasByte]. now rewrite Hsa, Hsb. }
  assert (Htp : exists u more,
             strings.Split (a ++ String "-" (b ++ tail)) "/"
             = (a ++ String "-" (b ++ u)) :: more
             /\ (u = "" \/ exists t, u = String "-" t)).
  { destruct Htail as [-> | [t [-> | ->]]].
    - exists "", []. split; [|now left].
      rewrite append_nil_r. apply Split_free. exact Hid.
    - destruct (hasByte "/" t) eqn:Ht.
      + destruct (hasByte_split "/" t Ht) as (t1 & t2 & -> & Ht1).
        exists (String "-" t1), (strings.Split t2 "/"). split; [|eauto].
        replace (a ++ String "-" (b ++ String "-" (t1 ++ String "/" t2)))
          with ((a ++ String "-" (b ++ String "-" t1)) ++ String "/" t2).
        * apply Split_at. rewrite hasByte_app. cbn [hasByte].
          rewrite hasByte_app. cbn [hasByte]. now rewrite Hsa, Hsb, Ht1.
        * rewrite append_assoc. cbn [String.append]. rewrite append_assoc.
          reflexivity.
      + exists (String "-" t), []. split; [|eauto].
        apply Split_free. rewrite hasByte_app. cbn [hasByte].
        rewrite hasByte_app. cbn [hasByte]. now rewrite Hsa, Hsb, Ht.
    - exists "", (strings.Split t "/"). split; [|now left].
      rewrite append_nil_r.
      replace (a ++ String "-" (b ++ String "/" t))
        with ((a ++ String "-" b) ++ String "/" t).
      + apply Split_at. exact Hid.
      + rewrite append_assoc. reflexivity. }
  destruct Htp as (u & more & Hsplit & Hu).
  assert (Hparts : strings.Split (seg0 ++ "/" ++ a ++ "-" ++ b ++ tail) "/"
                   = seg0 :: (a ++ String "-" (b ++ u)) :: more).
  { change (seg0 ++ "/" ++ a ++ "-" ++ b ++ tail)
      with (seg0 ++ String "/" (a ++ String "-" (b ++ tail))).
    rewrite Split_at by assumption. now rewrite Hsplit. }
  destruct (ExtractTicketID_second _ _ _ _ Hparts) as (a' & b' & rest & Hseg & ->).
  - rewrite Contains_single, hasByte_app. cbn [hasByte].
    now rewrite Ascii.eqb_refl, orb_true_r.
  - rewrite Split_at in Hseg by assumption.
    destruct Hu as [-> | [t ->]].
    + rewrite append_nil_r, Split_free in Hseg by assumption.
      now injection Hseg as <- <- _.
    + rewrite Split_at in Hseg by assumption. now injection Hseg as <- <- _.
Qed.

(** X17.  [ExtractTicketID] accepts exactly the names [seg/a-b] followed
    by nothing, by a hyphen or by a slash and anything, where [seg], [a]
    and [b] hold no slash and [a] and [b] no hyphen; it returns [a-b].
    So a ticket ID it returns holds one hyphen and no slash, and the empty
    parts [a] and [b] are accepted as well. *)
Theorem ExtractTicketID_accepted_names (branch id : string) :
  utils.ExtractTicketID branch = Ok id
  <-> exists seg0 a b tail,
      branch = seg0 ++ "/" ++ a ++ "-" ++ b ++ tail
      /\ id = a ++ "-" ++ b
      /\ hasByte "/" seg0 = false
      /\ hasByte "/" a = false /\ hasByte "-" a = false
      /\ hasByte "/" b = false /\ hasByte "-" b = false
      /\ (tail = "" \/ exists t, tail = String "-" t \/ tail = String "/" t).
Proof.
  split; [apply ExtractTicketID_shape|].
  intros (seg0 & a & b & tail & -> & -> & H).
  destruct H as (H1 & H2 & H3 & H4 & H5 & H6).
  now apply ExtractTicketID_accepts.
Qed.

Lemma ExtractTicketID_accepted_names_witness :
  utils.ExtractTicketID "/-" = Ok "-"
  /\ exists seg0 a b tail,
      "feat/WAB-3848-extra/fix" = seg0 ++ "/" ++ a ++ "-" ++ b ++ tail
      /\ "WAB-3848" = a ++ "-" ++ b
      /\ hasByte "/" seg0 = false
      /\ hasByte "/" a = false /\ hasByte "-" a = false
      /\ hasByte "/" b = false /\ hasByte "-" b = false
      /\ (tail = "" \/ exists t, tail = String "-" t \/ tail = String "/" t).
Proof.
  split.
  - apply (proj2 (ExtractTicketID_accepted_names "/-" "-")).
    exists "", "", "", "". repeat split. now left.
  - apply (proj1 (ExtractTicketID_accepted_names "feat/WAB-3848-extra/fix" "WAB-3848")).
    reflexivity.
Defined.

(** ** [config set] *)

Lemma Split_pair (c : ascii) (key a b : string) :
  strings.Split key (String c "") = [a; b] -> key = a ++ String c b.
Proof.
  intros H.
  destruct (Split_head c key) as (p & rest & Hparts & _ & Hrest).
  rewrite Hparts in H.
  destruct Hrest as [[-> _] | (q & -> & -> & _)]; [discriminate H|].
  destruct (Split_head c q) as (p2 & rest2 & Hq2 & _ & Hrest2).
  rewrite Hq2 in H.
  destruct Hrest2 as [[_ ->] | (q' & _ & _ & Hne)].
  - now injection H as -> ->.
  - injection H as _ _ ->. now contradiction Hne.
Qed.

Lemma updateConfigValue_key (s s' : config.Settings) (key value : string) :
  configcmd.updateConfigValue s key value = Ok s' ->
  In key settableKeys /\ In value (fieldsOf s').
Proof.
  unfold configcmd.updateConfigValue. cbv zeta.
  destruct (strings.Split key ".") as [|a [|b [|c rest]]] eqn:Hparts;
    try discriminate.
  apply Split_pair in Hparts. subst key.
  cbn [List.length Nat.eqb negb nth].
  repeat match goal with
         | |- context [String.eqb ?x ?y] =>
           destruct (String.eqb_spec x y); [subst|]
         end;
    intros H; try discriminate H; injection H as <-;
    (split; [cbn; tauto | cbn; tauto]).
Qed.

Lemma updateConfigValue_settable (s : config.Settings) (key value : string) :
  In key settableKeys -> exists s', configcmd.updateConfigValue s key value = Ok s'.
Proof.
  unfold settableKeys. cbn [In]. intros H.
  repeat (destruct H as [<- | H]; [eexists; reflexivity|]).
  contradiction.
Qed.

(** X18.  [config set] knows exactly twelve keys: [updateConfigValue]
    succeeds on these and on no other key, whatever the value, and the
    value is then one of the values of the settings. *)
Theorem updateConfigValue_keys (s : config.Settings) (key value : string) :
  ((exists s', configcmd.updateConfigValue s key value = Ok s')
   <-> In key settableKeys)
  /\ (forall s', configcmd.updateConfigValue s key value = Ok s' ->
                 In value (fieldsOf s')).
Proof.
  split; [split|].
  - intros [s' H]. exact (proj1 (updateConfigValue_key s s' key value H)).
  - apply updateConfigValue_settable.
  - intros s' H. exact (proj2 (updateConfigValue_key s s' key value H)).
Qed.

Lemma updateConfigValue_keys_witness :
  In "0123" (fieldsOf (configfile.setAuthToken (sampleSettings "gitlab") "0123")).
Proof.
  apply (proj2 (updateConfigValue_keys (sampleSettings "gitlab") "jira.token" "0123")
               (configfile.setAuthToken (sampleSettings "gitlab") "0123")).
  reflexivity.
Defined.

(** X19.  With a key it does not know [config set] fails and leaves the
    settings file as it was, and prints nothing; the same holds when the
    settings cannot be loaded. *)
Theorem config_set_unknown_key (env : configcmd.Env) (disk : configcmd.Disk)
        (key value : string) :
  ~ In key settableKeys ->
  exists err, configcmd.handleConfigSet env disk key value = (disk, ([], Fail err)).
Proof.
  intros Hkey. unfold configcmd.handleConfigSet.
  destruct (configcmd.loadSettings env disk) as [s|err]; [|now exists err].
  destruct (configcmd.updateConfigValue s key value) as [s'|err] eqn:E;
    [|now exists err].
  contradiction Hkey. exact (proj1 (updateConfigValue_key s s' key value E)).
Qed.

Lemma config_set_unknown_key_witness :
  exists err,
    configcmd.handleConfigSet soundEnv
      (Some (configfile.toTOML (sampleSettings "gitlab")))
      "jira.auth_method.token" "0123"
    = (Some (configfile.toTOML (sampleSettings "gitlab")), ([], Fail err)).
Proof.
  apply config_set_unknown_key. unfold settableKeys. cbn [In].
  intros H. repeat (destruct H as [H | H]; [discriminate H|]). exact H.
Defined.




(** X21.  Saving is not atomic: when the write stops part of the way,
    [config set] fails and the settings file holds only the bytes that
    were written, not the settings it held before; when no byte was
    written, the next load returns settings with every value empty, and
    no error. *)
Theorem config_set_failed_write (env : configcmd.Env) (disk : configcmd.Disk)
        (s s' : config.Settings) (key value home msg : string) (written : nat) :
  configcmd.Load env disk = Ok s ->
  configcmd.updateConfigValue s key value = Ok s' ->
  configcmd.userHomeDir env = Done home ->
  configcmd.readFault env = None ->
  configcmd.mkdirAll env = Done tt ->
  configcmd.openFile env = Done tt ->
  configcmd.writeString env = configcmd.WriteFailed msg written ->
  exists disk',
    configcmd.handleConfigSet env disk key value
    = (disk', ([], Fail (errorsNew ("write config: " ++ msg))))
    /\ disk' = Some (String.substring 0 written (configfile.toTOML s'))
    /\ (written = 0%nat -> configcmd.Load env disk' = Ok configfile.zeroSettings).
Proof.
  intros Hload Hupdate Hhome Hread Hmkdir Hopen Hwrite.
  exists (Some (String.substring 0 written (configfile.toTOML s'))).
  split; [|split; [reflexivity|]].
  - unfold configcmd.handleConfigSet, configcmd.loadSettings, configcmd.Save.
    now rewrite Hload, Hupdate, Hhome, Hmkdir, Hopen, Hwrite.
  - intros ->. unfold configcmd.Load, configcmd.readFile. rewrite Hhome, Hread.
    now destruct (configfile.toTOML s').
Qed.

Lemma config_set_failed_write_witness :
  configcmd.handleConfigSet (diskFull 0)
    (Some (configfile.toTOML (sampleSettings "gitlab"))) "jira.token" "0123"
  = (Some "", ([], Fail (errorsNew "write config: no space left on device")))
  /\ configcmd.Load (diskFull 0) (Some "") = Ok configfile.zeroSettings.
Proof.
  destruct (config_set_failed_write (diskFull 0)
              (Some (configfile.toTOML (sampleSettings "gitlab")))
              (sampleSettings "gitlab")
              (configfile.setAuthToken (sampleSettings "gitlab") "0123")
              "jira.token" "0123" "/home/dev" "no space left on device" 0)
    as (disk' & Hset & -> & Hnext); try (vm_compute; reflexivity).
  split; [exact Hset | exact (Hnext eq_refl)].
Defined.

(** ** [status], [config validate], [test-jira] *)

(** Runs one of these commands as far as the answers are known. *)
Ltac run_more :=
  cbv beta iota zeta delta
    [appMore.bind appMore.ret appMore.fail appMore.attempt appMore.lift
     appMore.call appMore.trace appMore.outcome appMore.Println appMore.Print
     appMore.OpenURL_ appMore.git_NewClient appMore.CurrentBranch
     appMore.ticketOfBranch
     appMore.base appMore.gitStatusSummary appMore.jiraTestConnection
     appMore.openCommand List.map
     bind ret fail emit attempt perform call trace outcome Println Print
     loadSettings config_Load git_NewClient jiraFactory GetTicket UpdateStatus
     SearchWithJQL fst snd List.app
     configLoad gitNewClient gitCurrentBranch gitIsClean gitCreateBranch gitPush
     gitCommit jiraGetTicket jiraUpdateStatus jiraSearchWithJQL
     gitHubCreatePullRequest gitLabCreateMergeRequest jsonMarshalIndent
     stdinReadString].

Ltac every_run_more :=
  repeat (run_more;
          match goal with
          | |- context [match ?x with _ => _ end] =>
            lazymatch x with
            | context [match _ with _ => _ end] => fail
            | _ => destruct x
            end
          end);
  run_more.

Section Diagnostics.
Context {U : UnicodeTables}.

(** X22.  [status] never returns an error, whatever the version-control
    client answers: a failure is printed.  It only prints and asks the
    client; it does not read the settings.  Outside a repository it asks
    nothing more. *)
Theorem status_never_fails (w : appMore.World) :
  appMore.outcome (appMore.handleStatus w) = Ok tt
  /\ forallb readsOnlyGit (appMore.trace (appMore.handleStatus w)) = true
  /\ (forall msg, gitNewClient (appMore.base w) = Refused msg ->
                  filter asksGit (appMore.trace (appMore.handleStatus w))
                  = [appMore.Base GitNewClient]).
Proof.
  destruct w as [[] summary connection opener]. unfold appMore.handleStatus.
  split; [|split].
  - every_run_more; reflexivity.
  - every_run_more; reflexivity.
  - intros msg Hclient. cbn [appMore.base gitNewClient] in Hclient. subst.
    run_more. reflexivity.
Qed.

(** X23.  Once the settings are loaded, [config validate] returns no
    error even when the tracker cannot be reached: the failure is printed
    with the tracker's message.  It asks the tracker once and changes
    nothing. *)
Theorem validate_never_fails (w : appMore.World) (settings : config.Settings) :
  configLoad (appMore.base w) = Loaded settings ->
  appMore.outcome (appMore.handleConfigValidate w) = Ok tt
  /\ In appMore.JiraTestConnection (appMore.trace (appMore.handleConfigValidate w))
  /\ existsb changesSomething (appMore.trace (appMore.handleConfigValidate w)) = false
  /\ (forall msg,
         appMore.jiraTestConnection w = Refused msg ->
         In (output (utils.Yellow ("  Jira validation failed: " ++ msg) ++ nl))
            (appMore.trace (appMore.handleConfigValidate w))).
Proof.
  intros Hload. destruct w as [[] summary connection opener].
  cbn [appMore.base configLoad] in Hload. subst.
  unfold appMore.handleConfigValidate.
  split; [|split; [|split]].
  - every_run_more; reflexivity.
  - every_run_more; in_trace.
  - every_run_more; reflexivity.
  - intros msg Hrefused. cbn [appMore.jiraTestConnection] in Hrefused. subst.
    unfold output. every_run_more; in_trace.
Qed.

(** X24.  [test-jira] with any of its four arguments empty fails before
    it prints or calls anything; with all four it builds a client with
    the API-token method from the arguments, without reading the
    settings, and fetches the ticket. *)
Theorem test_jira_arguments (w : appMore.World)
        (ticketID jiraURL email token : string) :
  (ticketID = "" \/ jiraURL = "" \/ email = "" \/ token = "" ->
   appMore.handleTestJira w ticketID jiraURL email token
   = ([], Fail (errorsNew "ticket id, url, email, and token are required")))
  /\ (ticketID <> "" -> jiraURL <> "" -> email <> "" -> token <> "" ->
      let run := appMore.trace (appMore.handleTestJira w ticketID jiraURL email token) in
      In (appMore.Base (JiraFactory jiraURL email
                          {| config.AuthType := "api_token";
                             config.AuthToken := token |})) run
      /\ In (appMore.Base (JiraGetTicket ticketID)) run
      /\ existsb loadsSettings run = false).
Proof.
  unfold appMore.handleTestJira. split.
  - intros H.
    assert (E : String.eqb ticketID "" || String.eqb jiraURL ""
                || String.eqb email "" || String.eqb token "" = true).
    { destruct H as [-> | [-> | [-> | ->]]]; cbn [String.eqb];
        rewrite ?orb_true_r; reflexivity. }
    now rewrite E.
  - intros H1 H2 H3 H4. apply String.eqb_neq in H1, H2, H3, H4.
    rewrite H1, H2, H3, H4. cbn [orb]. cbv zeta.
    destruct w as [[] summary connection opener].
    split; [|split]; every_run_more; first [reflexivity | in_trace].
Qed.

End Diagnostics.

Lemma status_never_fails_witness :
  filter asksGit
         (appMore.trace (appMore.handleStatus
                           (sampleMore outsideRepository (Done "") (Done tt))))
  = [appMore.Base GitNewClient].
Proof.
  apply (proj2 (proj2 (status_never_fails
                         (sampleMore outsideRepository (Done "") (Done tt))))
               "not in git repository: exit status 128").
  reflexivity.
Defined.

Lemma validate_never_fails_witness :
  appMore.outcome
    (appMore.handleConfigValidate
       (sampleMore (sampleWorld "gitlab" "main" true (Done tt) [])
                   (Done "") (Refused "401 Unauthorized")))
  = Ok tt
  /\ In (output (utils.Yellow ("  Jira validation failed: " ++ "401 Unauthorized")
                 ++ nl))
        (appMore.trace
           (appMore.handleConfigValidate
              (sampleMore (sampleWorld "gitlab" "main" true (Done tt) [])
                          (Done "") (Refused "401 Unauthorized")))).
Proof.
  pose proof (validate_never_fails
                (sampleMore (sampleWorld "gitlab" "main" true (Done tt) [])
                            (Done "") (Refused "401 Unauthorized"))
                (sampleSettings "gitlab") eq_refl) as (Hok & _ & _ & Hline).
  split; [exact Hok | exact (Hline "401 Unauthorized" eq_refl)].
Defined.

Lemma test_jira_arguments_witness :
  appMore.handleTestJira
    (sampleMore (sampleWorld "gitlab" "main" true (Done tt) []) (Done "") (Done tt))
    "TEST-1" "https://jira.example.com" "dev@example.com" ""
  = ([], Fail (errorsNew "ticket id, url, email, and token are required")).
Proof.
  apply (proj1 (test_jira_arguments
                  (sampleMore (sampleWorld "gitlab" "main" true (Done tt) [])
                              (Done "") (Done tt))
                  "TEST-1" "https://jira.example.com" "dev@example.com" "")).
  right. right. right. reflexivity.
Defined.

(** ** [open] *)

Section Open.
Context {U : UnicodeTables}.

(** X25.  With the board flag [open] opens the board of the configured
    project and nothing else: the ticket argument and the request flag
    are passed over and the version-control client is not asked. *)
Theorem open_board_first (w : appMore.World) (settings : config.Settings)
        (ticketID : string) (openPR : bool) :
  configLoad (appMore.base w) = Loaded settings ->
  filter (fun e => opensURL e || asksGit e)
         (appMore.trace (appMore.handleOpen w ticketID openPR true))
  = [appMore.OpenURL (boardURL settings)].
Proof.
  intros Hload. destruct w as [[] summary connection opener].
  cbn [appMore.base configLoad] in Hload. subst.
  unfold appMore.handleOpen, boardURL. run_more. reflexivity.
Qed.

(** X26.  Without flags [open] opens the page of the ticket: of the
    ticket it is given, without asking the version-control client, or
    else of the ticket named by the current branch; when the branch names
    none it fails with the correlation error and opens nothing. *)
Theorem open_ticket (w : appMore.World) (settings : config.Settings) :
  configLoad (appMore.base w) = Loaded settings ->
  (forall ticketID,
      ticketID <> "" ->
      filter (fun e => opensURL e || asksGit e)
             (appMore.trace (appMore.handleOpen w ticketID false false))
      = [appMore.OpenURL (ticketURL settings ticketID)])
  /\ (forall root branch,
         gitNewClient (appMore.base w) = Done root ->
         gitCurrentBranch (appMore.base w) = Done branch ->
         match utils.ExtractTicketID branch with
         | Ok ticketID =>
           filter opensURL (appMore.trace (appMore.handleOpen w "" false false))
           = [appMore.OpenURL (ticketURL settings ticketID)]
         | Fail _ =>
           appMore.handleOpen w "" false false
           = ([appMore.Base ConfigLoad; appMore.Base GitNewClient;
               appMore.Base GitCurrentBranch],
              Fail (utils.CorrelationError branch))
         end).
Proof.
  intros Hload. destruct w as [[] summary connection opener].
  cbn [appMore.base configLoad gitNewClient gitCurrentBranch] in *. subst.
  split.
  - intros ticketID Hid. apply String.eqb_neq in Hid.
    unfold appMore.handleOpen, ticketURL. run_more. rewrite Hid. run_more.
    reflexivity.
  - intros root branch -> ->.
    destruct (utils.ExtractTicketID branch) as [ticketID|err] eqn:Hid.
    + unfold appMore.handleOpen, ticketURL. run_more. rewrite Hid. run_more.
      reflexivity.
    + apply ExtractTicketID_error in Hid as Herr. subst err.
      unfold appMore.handleOpen. run_more. rewrite Hid. reflexivity.
Qed.


End Open.




Section OpenQuery.
Context {U : UnicodeTables}.


End OpenQuery.


Lemma open_board_first_witness :
  filter (fun e => opensURL e || asksGit e)
         (appMore.trace
            (appMore.handleOpen
               (sampleMore (sampleWorld "gitlab" "main" true (Done tt) [])
                           (Done "") (Done tt))
               "TEST-9" true true))
  = [appMore.OpenURL "https://jira.example.com/jira/software/projects/TEST/boards"].
Proof.
  apply (@open_board_first latin1Tables
           (sampleMore (sampleWorld "gitlab" "main" true (Done tt) [])
                       (Done "") (Done tt))
           (sampleSettings "gitlab") "TEST-9" true eq_refl).
Defined.

Lemma open_ticket_witness :
  filter (fun e => opensURL e || asksGit e)
         (appMore.trace
            (appMore.handleOpen
               (sampleMore (sampleWorld "gitlab" "main" true (Done tt) [])
                           (Done "") (Done tt))
               "TEST-1" false false))
  = [appMore.OpenURL "https://jira.example.com/browse/TEST-1"].
Proof.
  apply (proj1 (@open_ticket latin1Tables
                  (sampleMore (sampleWorld "gitlab" "main" true (Done tt) [])
                              (Done "") (Done tt))
                  (sampleSettings "gitlab") eq_refl) "TEST-1").
  discriminate.
Defined.


(** ** The tracker client: which transition is posted *)

Section Transitions.
Variable EqualFold : string -> string -> bool.

Lemma pick_find (transitions : list jira.Transition) (transitionName : string) :
  jira.pick EqualFold transitions transitionName
  = match find (fun t => EqualFold (jira.Name t) transitionName) transitions with
    | Some t => jira.ID t
    | None => ""
    end.
Proof.
  induction transitions as [|t rest IH]; [reflexivity|].
  cbn [jira.pick find]. now destruct (EqualFold (jira.Name t) transitionName).
Qed.

(** X29.  Once the tracker has listed the transitions of the ticket,
    [UpdateStatus] posts the first transition whose name equals the wanted
    one up to letter case, and only that one; when no name matches, or
    when that first match has an empty id (later matches are not looked
    at), it posts nothing and fails with the error that the transition is
    not found. *)
Theorem UpdateStatus_first_match (server : jira.Server)
        (baseURL apiVersion ticketID transitionName body : string)
        (status : Z) (transitions : list jira.Transition) :
  let url := transitionsURL baseURL apiVersion ticketID in
  jira.newRequest server url = Done tt ->
  jira.roundTrip server (jira.Get url) = jira.Response status body ->
  (200 <= status < 300)%Z ->
  jira.unmarshal server body = Done transitions ->
  match find (fun t => EqualFold (jira.Name t) transitionName) transitions with
  | Some t =>
    if String.eqb (jira.ID t) "" then
      jira.UpdateStatus EqualFold server baseURL apiVersion ticketID transitionName
      = ([jira.Get url], Fail (notFound transitionName))
    else
      fst (jira.UpdateStatus EqualFold server baseURL apiVersion ticketID
                             transitionName)
      = [jira.Get url; jira.Post url (jira.ID t)]
  | None =>
    jira.UpdateStatus EqualFold server baseURL apiVersion ticketID transitionName
    = ([jira.Get url], Fail (notFound transitionName))
  end.
Proof.
  intros url Hreq Hget Hstatus Hjson.
  assert (Hrange : ((status <? 200) || (status >=? 300))%Z = false).
  { apply orb_false_iff. split; [apply Z.ltb_ge; lia|].
    rewrite Z.geb_leb. apply Z.leb_gt. lia. }
  unfold jira.UpdateStatus, jira.doJSON, jira.do. cbv zeta.
  fold (transitionsURL baseURL apiVersion ticketID). fold url.
  rewrite Hreq, Hget, Hrange, Hjson, pick_find.
  destruct (find _ transitions) as [t|]; [|reflexivity].
  destruct (String.eqb (jira.ID t) ""); reflexivity.
Qed.

End Transitions.

Lemma UpdateStatus_first_match_witness :
  fst (jira.UpdateStatus asciiFold
         (sampleServer [{| jira.ID := "11"; jira.Name := "To Do" |};
                        {| jira.ID := "31"; jira.Name := "In review" |};
                        {| jira.ID := "41"; jira.Name := "In Review" |}])
         "https://jira.example.com" "latest" "TEST-1" "In Review")
  = [jira.Get (transitionsURL "https://jira.example.com" "latest" "TEST-1");
     jira.Post (transitionsURL "https://jira.example.com" "latest" "TEST-1") "31"].
Proof.
  apply (UpdateStatus_first_match asciiFold
           (sampleServer [{| jira.ID := "11"; jira.Name := "To Do" |};
                          {| jira.ID := "31"; jira.Name := "In review" |};
                          {| jira.ID := "41"; jira.Name := "In Review" |}])
           "https://jira.example.com" "latest" "TEST-1" "In Review" "{}" 200
           [{| jira.ID := "11"; jira.Name := "To Do" |};
            {| jira.ID := "31"; jira.Name := "In review" |};
            {| jira.ID := "41"; jira.Name := "In Review" |}]
           eq_refl eq_refl ltac:(lia) eq_refl).
Defined.

(** ** [list --json] *)

Section ListJSON.
Context {U : UnicodeTables}.

(** X30.  With the JSON flag [list] prints nothing but the JSON text of
    the tickets found, followed by a newline: no heading, no count, no
    colour; when a step fails it prints nothing at all. *)
Theorem list_json_prints_only_json (w : World) (statusFilter projectFilter : string) :
  Forall (printsOnlyJSON w) (trace (handleList w statusFilter projectFilter true))
  /\ (forall err,
         outcome (handleList w statusFilter projectFilter true) = Fail err ->
         existsb (fun e => match e with Stdout _ => true | _ => false end)
                 (trace (handleList w statusFilter projectFilter true)) = false).
Proof.
  split.
  - unfold handleList. apply Forall_bind.
    { unfold loadSettings, config_Load. along_trace; intros ? H; discriminate H. }
    intros settings. apply Forall_bind.
    { apply Forall_emit. intros ? H. discriminate H. }
    intros _. cbv zeta.
    set (jql := strings.Join _ " AND "). clearbody jql.
    apply Forall_bind_ok.
    { apply Forall_call. intros ? H. discriminate H. }
    intros tickets Hfound.
    assert (Hsearch : jiraSearchWithJQL w jql 50 = Done tickets).
    { unfold SearchWithJQL, call, perform, outcome in Hfound. cbn [snd] in Hfound.
      destruct (jiraSearchWithJQL w jql 50); congruence. }
    apply Forall_bind_ok.
    { apply Forall_call. intros ? H. discriminate H. }
    intros data Hdata.
    assert (Hmarshal : jsonMarshalIndent w tickets = Done data).
    { unfold call, perform, outcome in Hdata. cbn [snd] in Hdata.
      destruct (jsonMarshalIndent w tickets); congruence. }
    apply Forall_bind; [|intros _; apply Forall_ret].
    apply Forall_emit. intros text H. injection H as <-.
    now exists jql, 50%Z, tickets, data.
  - intros err. destruct w. unfold handleList. every_run;
      intros H; first [reflexivity | discriminate H].
Qed.

End ListJSON.

Lemma list_json_prints_only_json_witness :
  existsb (fun e => match e with Stdout _ => true | _ => false end)
          (trace (handleList outsideRepository "" "" true)) = true
  /\ Forall (printsOnlyJSON outsideRepository)
            (trace (handleList outsideRepository "" "" true)).
Proof.
  split; [reflexivity|].
  apply (proj1 (list_json_prints_only_json outsideRepository "" "")).
Defined.
